(** * Side-by-side diff viewer and clone dialog: a shallow embedding

    The development follows [app/src/ui/diff/side-by-side-diff.tsx] (the
    row builder [getDiffRows], the drag-selection handlers of the
    [SideBySideDiff] component and its background tokenization) and the
    clone dialog component [CloneRepository].

    JavaScript numbers that hold line numbers and indices are integers and
    are modelled by [Z]; strings by [string]; [T | null] and optional
    properties by [option T]; a thrown fatal error by the [Fatal] case of
    [Result]. *)

From Stdlib Require Import String ZArith List Bool Lia.
Import ListNotations.

Local Open Scope Z_scope.
Local Open Scope bool_scope.

(* ================================================================== *)
(** * Part I: definitions                                              *)
(* ================================================================== *)

(** ** Fatal errors ([lib/fatal-error]) *)

(** The ways the row builder can throw.  The message text built by the
    source's template strings is not modelled. *)
Inductive FatalError : Type :=
| NonNullableAssertion   (* thrown by assertNonNullable *)
| ForcedUnwrapOfNull     (* thrown by forceUnwrap *)
| NeverAssertion         (* thrown by assertNever *)
| UndefinedDestructured. (* TypeError: destructuring an absent array element *)

Inductive Result (A : Type) : Type :=
| Ok (value : A)
| Fatal (error : FatalError).

Arguments Ok {A} value.
Arguments Fatal {A} error.

Definition bind {A B : Type} (m : Result A) (k : A -> Result B) : Result B :=
  match m with
  | Ok a => k a
  | Fatal e => Fatal e
  end.

Notation "x <- m ;; k" := (bind m (fun x => k))
  (at level 61, m at next level, right associativity).
Notation "m ;;; k" := (bind m (fun _ => k))
  (at level 61, right associativity).

(** Modelled from the spec: [assertNonNullable] of lib/fatal-error, which is
    not among the sources.  The spec makes the absence of a required line
    number a fatal assertion failure; a present value passes. *)
Definition assertNonNullable {A : Type} (x : option A) : Result unit :=
  match x with
  | Some _ => Ok tt
  | None => Fatal NonNullableAssertion
  end.

(** Modelled from the spec: [forceUnwrap] of lib/fatal-error, which is not
    among the sources.  It yields the value when present and fails fatally
    on null. *)
Definition forceUnwrap {A : Type} (x : option A) : Result A :=
  match x with
  | Some a => Ok a
  | None => Fatal ForcedUnwrapOfNull
  end.

(** Modelled from the spec: [assertNever] of lib/fatal-error, which is not
    among the sources.  Reaching it is the fatal unreachable-state error. *)
Definition assertNever {A : Type} : Result A := Fatal NeverAssertion.

(** ** The diff model ([models/diff]) *)

(** The four kinds of line of [DiffLineType]; [Unrecognized] stands for any
    runtime tag outside the enumeration, which the type checker excludes and
    the final [assertNever] of the row builder guards against. *)
Inductive DiffLineType : Type :=
| Context
| Add
| Delete
| Hunk
| Unrecognized (tag : Z).

Module DiffLine.
Record t : Type := mk {
  content : string;
  type : DiffLineType;
  oldLineNumber : option Z;
  newLineNumber : option Z;
  noTrailingNewLine : bool
}.
End DiffLine.

Record DiffHunk : Type := {
  lines : list DiffLine.t;
  unifiedDiffStart : Z
}.

Record ITextDiff : Type := {
  text : string;
  hunks : list DiffHunk
}.

(** The operations of [DiffSelection] the viewer calls.  The class is not
    among the sources, so the development is parametric in it. *)
Class DiffSelectionOps (DiffSelection : Type) : Type := {
  isSelected : DiffSelection -> Z -> bool;
  withRangeSelection : DiffSelection -> Z -> Z -> bool -> DiffSelection;
  withSelectNone : DiffSelection -> DiffSelection
}.

(** ** Helpers of the diff views ([ui/diff/diff-helpers]) *)

(** The transient selection of a drag gesture. *)
Module ISelection.
Record t : Type := mk {
  from : Z;
  to : Z;
  isSelected : bool
}.
End ISelection.

(** [isInTemporarySelection] is not among the sources; the development is
    parametric in it. *)
Class TemporarySelectionOps : Type := {
  isInTemporarySelection : ISelection.t -> Z -> bool
}.

Module IDiffRowData.
Record t : Type := mk {
  content : string;
  lineNumber : Z;
  diffLineNumber : Z;
  isSelected : bool;
  noNewLineIndicator : bool
}.
End IDiffRowData.

(** [DiffRow]: the five row shapes the builder pushes. *)
Inductive DiffRow : Type :=
| HunkRow (content : string)
| ContextRow (content : string) (beforeLineNumber afterLineNumber : Z)
| ModifiedRow (beforeData afterData : IDiffRowData.t)
              (hunkStartLine : Z) (displayDiffTokens : bool)
| DeletedRow (data : IDiffRowData.t) (hunkStartLine : Z)
| AddedRow (data : IDiffRowData.t) (hunkStartLine : Z).

Section DiffRowBuilder.

Context {DiffSelection : Type} `{DiffSelectionOps DiffSelection}.
Context `{TemporarySelectionOps}.

(** [ChangedFile = WorkingDirectoryFileChange | CommittedFileChange]; only
    the former owns a persisted selection. *)
Inductive ChangedFile : Type :=
| WorkingDirectoryFileChange (id : string) (selection : DiffSelection)
| CommittedFileChange (id : string).

Definition fileId (file : ChangedFile) : string :=
  match file with
  | WorkingDirectoryFileChange id _ => id
  | CommittedFileChange id => id
  end.

(** Modelled from the spec: [canSelect] of diff-helpers, which is not among
    the sources.  A file is selectable exactly when it is a
    working-directory change; the source uses it as the type guard that
    gives access to [file.selection]. *)
Definition canSelect (file : ChangedFile) : bool :=
  match file with
  | WorkingDirectoryFileChange _ _ => true
  | CommittedFileChange _ => false
  end.

Definition isInSelection (diffLineNumber : Z) (file : ChangedFile)
           (temporarySelection : option ISelection.t) : bool :=
  if negb (canSelect file) then false
  else
    match file with
    | CommittedFileChange _ => false (* excluded by the guard above *)
    | WorkingDirectoryFileChange _ selection =>
        let isInStoredSelection := isSelected selection diffLineNumber in
        match temporarySelection with
        | None => isInStoredSelection
        | Some temporary =>
            let isInTemporary :=
              isInTemporarySelection temporary diffLineNumber in
            if ISelection.isSelected temporary
            then isInStoredSelection || isInTemporary
            else isInStoredSelection && negb isInTemporary
        end
    end.

(** The two values of the [lineToUse] argument of [getDataFromLine]. *)
Inductive LineToUse : Type := UseOldLineNumber | UseNewLineNumber.

Definition lineNumberOf (lineToUse : LineToUse) (line : DiffLine.t)
  : option Z :=
  match lineToUse with
  | UseOldLineNumber => DiffLine.oldLineNumber line
  | UseNewLineNumber => DiffLine.newLineNumber line
  end.

Definition getDataFromLine (entry : DiffLine.t * Z) (lineToUse : LineToUse)
           (file : ChangedFile) (temporarySelection : option ISelection.t)
  : Result IDiffRowData.t :=
  let (line, lineNumber) := entry in
  unwrapped <- forceUnwrap (lineNumberOf lineToUse line) ;;
  Ok {| IDiffRowData.content := DiffLine.content line;
        IDiffRowData.lineNumber := unwrapped;
        IDiffRowData.diffLineNumber := lineNumber;
        IDiffRowData.isSelected :=
          isInSelection lineNumber file temporarySelection;
        IDiffRowData.noNewLineIndicator := DiffLine.noTrailingNewLine line |}.

Definition isAdd (entry : DiffLine.t * Z) : bool :=
  match DiffLine.type (fst entry) with Add => true | _ => false end.

Definition isDelete (entry : DiffLine.t * Z) : bool :=
  match DiffLine.type (fst entry) with Delete => true | _ => false end.

(** [xs[i]] followed by destructuring: an absent element throws. *)
Definition element {A : Type} (xs : list A) (i : nat) : Result A :=
  match nth_error xs i with
  | Some x => Ok x
  | None => Fatal UndefinedDestructured
  end.

(** The [for] loop of [getModifiedRows].  [numLine] is the loop counter and
    [output] the array being filled; [remaining] bounds the iterations
    still to run and is started at the larger of the two lengths, the
    value at which the loop condition first fails. *)
Fixpoint modifiedRowsLoop (remaining : nat)
         (addedLines deletedLines : list (DiffLine.t * Z))
         (hunkStartLine : Z) (shouldDisplayDiffInChunk : bool)
         (file : ChangedFile) (temporarySelection : option ISelection.t)
         (numLine : nat) (output : list DiffRow) : Result (list DiffRow) :=
  match remaining with
  | O => Ok output
  | S remaining' =>
      let inAdded := (numLine <? length addedLines)%nat in
      let inDeleted := (numLine <? length deletedLines)%nat in
      if inAdded || inDeleted then
        pushed <-
          (if inAdded && inDeleted then
             deleted <- element deletedLines numLine ;;
             beforeData <- getDataFromLine deleted UseOldLineNumber
                                           file temporarySelection ;;
             added <- element addedLines numLine ;;
             afterData <- getDataFromLine added UseNewLineNumber
                                          file temporarySelection ;;
             Ok (output ++ [ModifiedRow beforeData afterData hunkStartLine
                                        shouldDisplayDiffInChunk])
           else if inDeleted then
             deleted <- element deletedLines numLine ;;
             data <- getDataFromLine deleted UseOldLineNumber
                                     file temporarySelection ;;
             Ok (output ++ [DeletedRow data hunkStartLine])
           else if inAdded then
             added <- element addedLines numLine ;;
             data <- getDataFromLine added UseNewLineNumber
                                     file temporarySelection ;;
             Ok (output ++ [AddedRow data hunkStartLine])
           else Ok output) ;;
        modifiedRowsLoop remaining' addedLines deletedLines hunkStartLine
                         shouldDisplayDiffInChunk file temporarySelection
                         (S numLine) pushed
      else Ok output
  end.

Definition getModifiedRows (addedDeletedLines : list (DiffLine.t * Z))
           (file : ChangedFile) (temporarySelection : option ISelection.t)
  : Result (list DiffRow) :=
  match addedDeletedLines with
  | [] => Ok []
  | first :: _ =>
      let hunkStartLine := snd first in
      let addedLines := filter isAdd addedDeletedLines in
      let deletedLines := filter isDelete addedDeletedLines in
      let shouldDisplayDiffInChunk :=
        (length addedLines =? length deletedLines)%nat in
      modifiedRowsLoop (Nat.max (length addedLines) (length deletedLines))
                       addedLines deletedLines hunkStartLine
                       shouldDisplayDiffInChunk file temporarySelection
                       0%nat []
  end.

(** Flushing the pending run, as both places of [getDiffRowsFromHunk] do:
    [if (modifiedLines.length > 0) rows.push(...getModifiedRows(...))]. *)
Definition flushModifiedLines (rows : list DiffRow)
           (modifiedLines : list (DiffLine.t * Z))
           (file : ChangedFile) (temporarySelection : option ISelection.t)
  : Result (list DiffRow) :=
  if (0 <? length modifiedLines)%nat then
    modified <- getModifiedRows modifiedLines file temporarySelection ;;
    Ok (rows ++ modified)
  else Ok rows.

(** The [for ... of hunk.lines.entries()] loop of [getDiffRowsFromHunk]:
    [num] is the index of the head of [rest] in the hunk, [rows] and
    [modifiedLines] are the two arrays the loop mutates. *)
Fixpoint hunkRowsLoop (start : Z) (file : ChangedFile)
         (temporarySelection : option ISelection.t)
         (num : Z) (rest : list DiffLine.t)
         (rows : list DiffRow) (modifiedLines : list (DiffLine.t * Z))
  : Result (list DiffRow) :=
  match rest with
  | [] => flushModifiedLines rows modifiedLines file temporarySelection
  | line :: rest' =>
      match DiffLine.type line with
      | Delete | Add =>
          hunkRowsLoop start file temporarySelection (num + 1) rest' rows
                       (modifiedLines ++ [(line, start + num)])
      | Hunk =>
          flushed <- flushModifiedLines rows modifiedLines
                                        file temporarySelection ;;
          hunkRowsLoop start file temporarySelection (num + 1) rest'
                       (flushed ++ [HunkRow (DiffLine.content line)]) []
      | Context =>
          flushed <- flushModifiedLines rows modifiedLines
                                        file temporarySelection ;;
          assertNonNullable (DiffLine.oldLineNumber line) ;;;
          assertNonNullable (DiffLine.newLineNumber line) ;;;
          match DiffLine.oldLineNumber line, DiffLine.newLineNumber line with
          | Some oldLineNumber, Some newLineNumber =>
              hunkRowsLoop start file temporarySelection (num + 1) rest'
                           (flushed ++ [ContextRow (DiffLine.content line)
                                                   oldLineNumber
                                                   newLineNumber]) []
          | _, _ => Fatal NonNullableAssertion
          end
      | Unrecognized _ =>
          flushed <- flushModifiedLines rows modifiedLines
                                        file temporarySelection ;;
          assertNever
      end
  end.

Definition getDiffRowsFromHunk (hunk : DiffHunk) (file : ChangedFile)
           (temporarySelection : option ISelection.t)
  : Result (list DiffRow) :=
  hunkRowsLoop (unifiedDiffStart hunk) file temporarySelection
               0 (lines hunk) [] [].

(** [getDiffRows] (the function wrapped by [memoize]; memoization of a pure
    function does not change its result). *)
Fixpoint getDiffRowsLoop (remainingHunks : list DiffHunk)
         (file : ChangedFile) (temporarySelection : option ISelection.t)
         (rows : list DiffRow) : Result (list DiffRow) :=
  match remainingHunks with
  | [] => Ok rows
  | hunk :: remainingHunks' =>
      fromHunk <- getDiffRowsFromHunk hunk file temporarySelection ;;
      getDiffRowsLoop remainingHunks' file temporarySelection
                      (rows ++ fromHunk)
  end.

Definition getDiffRows (diff : ITextDiff) (file : ChangedFile)
           (temporarySelection : option ISelection.t)
  : Result (list DiffRow) :=
  getDiffRowsLoop (hunks diff) file temporarySelection [].

End DiffRowBuilder.

(** ** The [SideBySideDiff] component *)

(** The column a text selection started in ([selectingRow]). *)
Inductive DiffColumn : Type := Before | After.

(** The identity of a callback passed in the props. *)
Definition Callback : Type := nat.

Section SideBySideDiff.

Context {DiffSelection : Type} `{DiffSelectionOps DiffSelection}.
Context `{TemporarySelectionOps}.
(** [ITokens] and the file contents handed to the highlighter are opaque
    to the component. *)
Context {ITokens IFileContents : Type}.

(** [ISideBySideDiffProps]; an optional callback that is not passed is
    [None].  The repository is only forwarded and is left out. *)
Record ISideBySideDiffProps : Type := {
  file : @ChangedFile DiffSelection;
  diff : ITextDiff;
  onIncludeChanged : option Callback;
  onDiscardChanges : option Callback
}.

Record ISideBySideDiffState : Type := {
  beforeTokens : option ITokens;
  afterTokens : option ITokens;
  selectingRow : option DiffColumn;
  selection : option ISelection.t;
  hoveredHunk : option Z
}.

(** [this.state = {}] of the constructor. *)
Definition initialState : ISideBySideDiffState :=
  {| beforeTokens := None; afterTokens := None; selectingRow := None;
     selection := None; hoveredHunk := None |}.

(** What a handler does besides updating the component state. *)
Inductive Effect : Type :=
| CallOnIncludeChanged (callback : Callback) (diffSelection : DiffSelection)
| AddMouseUpListenerOnce.

(** [this.setState({ selection })]: the other fields are kept. *)
Definition setSelection (state : ISideBySideDiffState)
           (newSelection : option ISelection.t) : ISideBySideDiffState :=
  {| beforeTokens := beforeTokens state;
     afterTokens := afterTokens state;
     selectingRow := selectingRow state;
     selection := newSelection;
     hoveredHunk := hoveredHunk state |}.

(** [this.setState({ hoveredHunk })]. *)
Definition setHoveredHunk (state : ISideBySideDiffState)
           (newHoveredHunk : option Z) : ISideBySideDiffState :=
  {| beforeTokens := beforeTokens state;
     afterTokens := afterTokens state;
     selectingRow := selectingRow state;
     selection := selection state;
     hoveredHunk := newHoveredHunk |}.

(** [this.setState({ beforeTokens, afterTokens })]. *)
Definition setTokens (state : ISideBySideDiffState)
           (oldTokens newTokens : ITokens) : ISideBySideDiffState :=
  {| beforeTokens := Some oldTokens;
     afterTokens := Some newTokens;
     selectingRow := selectingRow state;
     selection := selection state;
     hoveredHunk := hoveredHunk state |}.

Definition onStartSelection (lineNumber : Z) (select : bool)
           (state : ISideBySideDiffState)
  : ISideBySideDiffState * list Effect :=
  (setSelection state
     (Some {| ISelection.from := lineNumber;
              ISelection.to := lineNumber;
              ISelection.isSelected := select |}),
   [AddMouseUpListenerOnce]).

Definition onEndSelection (props : ISideBySideDiffProps)
           (state : ISideBySideDiffState)
  : ISideBySideDiffState * list Effect :=
  if negb (canSelect (file props)) then (state, [])
  else
    match selection state with
    | None => (state, [])
    | Some current =>
        match onIncludeChanged props with
        | None => (state, [])
        | Some callback =>
            match file props with
            | CommittedFileChange _ => (state, []) (* excluded by the guard *)
            | WorkingDirectoryFileChange _ persisted =>
                let from :=
                  Z.min (ISelection.from current) (ISelection.to current) in
                let to :=
                  Z.max (ISelection.from current) (ISelection.to current) in
                (setSelection state None,
                 [CallOnIncludeChanged callback
                    (withRangeSelection persisted from (to - from + 1)
                       (ISelection.isSelected current))])
            end
        end
    end.

Definition onUpdateSelection (lineNumber : Z) (state : ISideBySideDiffState)
  : ISideBySideDiffState :=
  match selection state with
  | None => state
  | Some current =>
      setSelection state
        (Some {| ISelection.from := ISelection.from current;
                 ISelection.to := lineNumber;
                 ISelection.isSelected := ISelection.isSelected current |})
  end.

Definition onMouseEnterHunk (hunkStartLine : Z)
           (state : ISideBySideDiffState) : ISideBySideDiffState :=
  match selection state with
  | Some _ => state
  | None => setHoveredHunk state (Some hunkStartLine)
  end.

Definition onMouseLeaveHunk (state : ISideBySideDiffState)
  : ISideBySideDiffState :=
  setHoveredHunk state None.

(** The pointer events the rows forward to the component while a drag
    gesture is in progress, and their handlers. *)
Inductive PointerEvent : Type :=
| UpdateSelection (lineNumber : Z)
| MouseEnterHunk (hunkStartLine : Z)
| MouseLeaveHunk.

Definition handlePointerEvent (state : ISideBySideDiffState)
           (event : PointerEvent) : ISideBySideDiffState :=
  match event with
  | UpdateSelection lineNumber => onUpdateSelection lineNumber state
  | MouseEnterHunk hunkStartLine => onMouseEnterHunk hunkStartLine state
  | MouseLeaveHunk => onMouseLeaveHunk state
  end.

Definition handlePointerEvents (state : ISideBySideDiffState)
           (events : list PointerEvent) : ISideBySideDiffState :=
  fold_left handlePointerEvent events state.

(** *** Background tokenization *)

(** A props object is identified by its address; React never mutates a
    props object, it installs a new one.  [objects] gives the object at
    each address, so [===] on props is equality of addresses. *)
Definition PropsRef : Type := nat.

Section Highlighting.

Variable objects : PropsRef -> ISideBySideDiffProps.

Definition highlightParametersEqual (newProps prevProps : PropsRef)
  : bool :=
  (newProps =? prevProps)%nat
  || (String.eqb (fileId (file (objects newProps)))
                 (fileId (file (objects prevProps)))
      && String.eqb (text (diff (objects newProps)))
                    (text (diff (objects prevProps)))).

(** The component instance: [this.props] and [this.state]. *)
Record Component : Type := {
  thisProps : PropsRef;
  thisState : ISideBySideDiffState
}.

(** Where an invocation of the asynchronous [initDiffSyntaxMode] is
    suspended; each suspended state keeps the local [propsSnapshot]. *)
Inductive SyntaxModeTask : Type :=
| AwaitingFileContents (propsSnapshot : PropsRef)
| AwaitingHighlight (propsSnapshot : PropsRef) (contents : IFileContents)
| Returned.

(** Up to the first [await]. *)
Definition initDiffSyntaxMode (this : Component) : SyntaxModeTask :=
  AwaitingFileContents (thisProps this).

(** From the completion of [getFileContents] to the second [await];
    [this] is the component as it is when the promise resolves. *)
Definition afterGetFileContents (this : Component) (task : SyntaxModeTask)
           (contents : IFileContents) : SyntaxModeTask :=
  match task with
  | AwaitingFileContents propsSnapshot =>
      if negb (highlightParametersEqual (thisProps this) propsSnapshot)
      then Returned
      else AwaitingHighlight propsSnapshot contents
  | _ => task
  end.

(** From the completion of [highlightContents] to the end. *)
Definition afterHighlightContents (this : Component)
           (task : SyntaxModeTask) (oldTokens newTokens : ITokens)
  : Component * SyntaxModeTask :=
  match task with
  | AwaitingHighlight propsSnapshot _ =>
      if negb (highlightParametersEqual (thisProps this) propsSnapshot)
      then (this, Returned)
      else ({| thisProps := thisProps this;
               thisState := setTokens (thisState this)
                                      oldTokens newTokens |},
            Returned)
  | _ => (this, task)
  end.

(** The inputs of highlighting: the file identity and the diff text. *)
Definition highlightInputs (props : PropsRef) : string * string :=
  (fileId (file (objects props)), text (diff (objects props))).

End Highlighting.

End SideBySideDiff.

(** ** The [CloneRepository] dialog *)

Module CloneRepository.

(** The name for the error when the destination already exists. *)
Definition DestinationExistsErrorName : string := "DestinationExistsError".

(** A JavaScript [Error]: [new Error(message)] has the name ["Error"]. *)
Module Error.
Record t : Type := mk {
  name : string;
  message : string
}.
End Error.

Definition newError (message : string) : Error.t :=
  {| Error.name := "Error"; Error.message := message |}.

Module IRepositoryIdentifier.
Record t : Type := mk {
  owner : string;
  name : string
}.
End IRepositoryIdentifier.

Record ICloneRepositoryState : Type := {
  url : string;
  path : string;
  loading : bool;
  error : option Error.t;
  lastParsedIdentifier : option IRepositoryIdentifier.t
}.

(** [this.setState({ ...this.state, error })]. *)
Definition setError (state : ICloneRepositoryState)
           (newError : option Error.t) : ICloneRepositoryState :=
  {| url := url state;
     path := path state;
     loading := loading state;
     error := newError;
     lastParsedIdentifier := lastParsedIdentifier state |}.

(** [this.setState({ ...this.state, path })]. *)
Definition setPath (state : ICloneRepositoryState) (newPath : string)
  : ICloneRepositoryState :=
  {| url := url state;
     path := newPath;
     loading := loading state;
     error := error state;
     lastParsedIdentifier := lastParsedIdentifier state |}.

(** The [disabled] flag computed by [render] for the Clone button. *)
Definition disabled (state : ICloneRepositoryState) : bool :=
  (String.length (url state) =? 0)%nat
  || (String.length (path state) =? 0)%nat
  || loading state
  || match error state with
     | Some error => String.eqb (Error.name error) DestinationExistsErrorName
     | None => false
     end.

(** The callback [checkPathValid] passes to [FS.exists]: [state] is the
    component state when the check completes, [newPath] the path that was
    checked and [exists] the outcome. *)
Definition checkPathValidCompleted (state : ICloneRepositoryState)
           (newPath : string) (exists_ : bool) : ICloneRepositoryState :=
  if negb (String.eqb (path state) newPath) then state
  else
    let error :=
      if exists_
      then Some {| Error.name := DestinationExistsErrorName;
                   Error.message :=
                     Error.message
                       (newError "The destination already exists.") |}
      else None in
    setError state error.

End CloneRepository.

(** ** Vocabulary of the properties *)

Definition isAddedRow (row : DiffRow) : bool :=
  match row with AddedRow _ _ => true | _ => false end.

Definition isDeletedRow (row : DiffRow) : bool :=
  match row with DeletedRow _ _ => true | _ => false end.

Definition isModifiedRow (row : DiffRow) : bool :=
  match row with ModifiedRow _ _ _ _ => true | _ => false end.

Definition isContextRow (row : DiffRow) : bool :=
  match row with ContextRow _ _ _ => true | _ => false end.

Definition countRows (kind : DiffRow -> bool) (rows : list DiffRow) : nat :=
  length (filter kind rows).

(** Added + Deleted + Modified * 2. *)
Definition dataLineCount (rows : list DiffRow) : nat :=
  (countRows isAddedRow rows + countRows isDeletedRow rows
   + 2 * countRows isModifiedRow rows)%nat.

Definition isChangeLine (line : DiffLine.t) : bool :=
  match DiffLine.type line with
  | Add | Delete => true
  | _ => false
  end.

Definition changeLinesOfHunk (hunk : DiffHunk) : nat :=
  length (filter isChangeLine (lines hunk)).

(** The number of input lines of a diff whose type is Add or Delete. *)
Definition changeLinesOfDiff (diff : ITextDiff) : nat :=
  fold_right (fun hunk total => (changeLinesOfHunk hunk + total)%nat)
             0%nat (hunks diff).

Definition isSome {A : Type} (x : option A) : bool :=
  match x with Some _ => true | None => false end.

(** A line with the numbers its kind requires: both for Context, the new
    one for Add, the old one for Delete. *)
Definition wellFormedLine (line : DiffLine.t) : bool :=
  match DiffLine.type line with
  | Context =>
      isSome (DiffLine.oldLineNumber line)
      && isSome (DiffLine.newLineNumber line)
  | Add => isSome (DiffLine.newLineNumber line)
  | Delete => isSome (DiffLine.oldLineNumber line)
  | Hunk => true
  | Unrecognized _ => false
  end.

(** A Context line that misses a number, or a line of no known kind. *)
Definition malformedLine (line : DiffLine.t) : bool :=
  match DiffLine.type line with
  | Context =>
      negb (isSome (DiffLine.oldLineNumber line)
            && isSome (DiffLine.newLineNumber line))
  | Unrecognized _ => true
  | _ => false
  end.

(** The assertion a malformed line trips. *)
Definition assertionTrippedBy (line : DiffLine.t) : FatalError :=
  match DiffLine.type line with
  | Unrecognized _ => NeverAssertion
  | _ => NonNullableAssertion
  end.

(** The Context rows a list of input lines calls for, in order. *)
Definition expectedContextRows (input : list DiffLine.t) : list DiffRow :=
  flat_map
    (fun line =>
       match DiffLine.type line,
             DiffLine.oldLineNumber line, DiffLine.newLineNumber line with
       | Context, Some oldLineNumber, Some newLineNumber =>
           [ContextRow (DiffLine.content line) oldLineNumber newLineNumber]
       | _, _, _ => []
       end)
    input.

(** *** Runs

    The spec's reading of a hunk: a sequence of maximal contiguous runs of
    Add/Delete lines, separated by single Context/Hunk-header lines.  Each
    line of a run is paired with its index in the unified diff. *)
Inductive Segment : Type :=
| RunSegment (run : list (DiffLine.t * Z))
| LineSegment (line : DiffLine.t).

Definition closeRun (pending : list (DiffLine.t * Z)) : list Segment :=
  match pending with
  | [] => []
  | _ :: _ => [RunSegment pending]
  end.

Fixpoint segmentsFrom (start num : Z) (rest : list DiffLine.t)
         (pending : list (DiffLine.t * Z)) : list Segment :=
  match rest with
  | [] => closeRun pending
  | line :: rest' =>
      if isChangeLine line
      then segmentsFrom start (num + 1) rest' (pending ++ [(line, start + num)])
      else closeRun pending
           ++ LineSegment line :: segmentsFrom start (num + 1) rest' []
  end.

Definition segmentsOfHunk (hunk : DiffHunk) : list Segment :=
  segmentsFrom (unifiedDiffStart hunk) 0 (lines hunk) [].

Definition isRunSegment (segment : Segment) : bool :=
  match segment with RunSegment _ => true | LineSegment _ => false end.

(** The lines of a segment, in order. *)
Definition linesOfSegment (segment : Segment) : list DiffLine.t :=
  match segment with
  | RunSegment run => map fst run
  | LineSegment line => [line]
  end.

(** No two runs are adjacent: every run is maximal. *)
Fixpoint runsSeparated (segments : list Segment) : bool :=
  match segments with
  | first :: (second :: _) as tail =>
      negb (isRunSegment first && isRunSegment second) && runsSeparated tail
  | _ => true
  end.

(** A run is not empty and holds Add/Delete lines only; a separating line is
    neither. *)
Definition segmentShaped (segment : Segment) : bool :=
  match segment with
  | RunSegment run =>
      (0 <? length run)%nat && forallb (fun entry => isChangeLine (fst entry)) run
  | LineSegment line => negb (isChangeLine line)
  end.

(** An entry of a run whose line is well formed. *)
Definition wellFormedEntry (entry : DiffLine.t * Z) : bool :=
  wellFormedLine (fst entry).

(** The numbers of Add and of Delete lines of a run. *)
Definition addCount (run : list (DiffLine.t * Z)) : nat :=
  length (filter isAdd run).

Definition deleteCount (run : list (DiffLine.t * Z)) : nat :=
  length (filter isDelete run).

(** Every Modified row of [rows] carries the flag [flag]. *)
Definition modifiedRowsFlagged (flag : bool) (rows : list DiffRow) : Prop :=
  Forall (fun row => match row with
                     | ModifiedRow _ _ _ displayDiffTokens =>
                         displayDiffTokens = flag
                     | _ => True
                     end) rows.

(** *** Reference models of the collaborators, used to run the code *)

(** Modelled from the spec: the persisted selection, a set of selected
    diff-relative line indices mutated only through range-set operations;
    the [DiffSelection] class of models/diff is not among the sources.  The
    set is kept as the list of its selected indices. *)
Definition LineSet : Type := list Z.

Definition inRange (from length line : Z) : bool :=
  (from <=? line) && (line <? from + length).

(** Modelled from the spec: what the range-set operations of the persisted
    selection mean.  A range update sets the lines of the range to the given
    state and leaves the others; select-none leaves no line selected. *)
Class DiffSelectionLaws (DiffSelection : Type)
      `{DiffSelectionOps DiffSelection} : Prop := {
  isSelected_withRangeSelection :
    forall (selected : DiffSelection) (from length : Z) (select : bool)
           (line : Z),
      isSelected (withRangeSelection selected from length select) line
      = if inRange from length line then select else isSelected selected line;
  isSelected_withSelectNone :
    forall (selected : DiffSelection) (line : Z),
      isSelected (withSelectNone selected) line = false
}.

#[export] Instance LineSetOps : DiffSelectionOps LineSet := {|
  isSelected := fun selected line => existsb (Z.eqb line) selected;
  withRangeSelection := fun selected from length select =>
    if select
    then map (fun offset => from + Z.of_nat offset)
             (seq 0 (Z.to_nat length)) ++ selected
    else filter (fun line => negb (inRange from length line)) selected;
  withSelectNone := fun _ => []
|}.

(** Modelled from the spec: [isInTemporarySelection] of diff-helpers, which
    is not among the sources.  A line is inside the transient range when it
    lies between the smaller and the larger of anchor and current line. *)
#[export] Instance InclusiveRange : TemporarySelectionOps := {|
  isInTemporarySelection := fun temporary line =>
    (Z.min (ISelection.from temporary) (ISelection.to temporary) <=? line)
    && (line <=? Z.max (ISelection.from temporary) (ISelection.to temporary))
|}.

Section SegmentRows.

Context {DiffSelection : Type} `{DiffSelectionOps DiffSelection}.
Context `{TemporarySelectionOps}.

(** The rows a segment stands for: the paired rows of a run, the single
    row of a Hunk-header or Context line. *)
Definition rowsOfSegment (file : @ChangedFile DiffSelection)
           (temporarySelection : option ISelection.t) (segment : Segment)
  : Result (list DiffRow) :=
  match segment with
  | RunSegment run => getModifiedRows run file temporarySelection
  | LineSegment line =>
      match DiffLine.type line with
      | Hunk => Ok [HunkRow (DiffLine.content line)]
      | Context =>
          match DiffLine.oldLineNumber line, DiffLine.newLineNumber line with
          | Some oldLineNumber, Some newLineNumber =>
              Ok [ContextRow (DiffLine.content line)
                             oldLineNumber newLineNumber]
          | _, _ => Fatal NonNullableAssertion
          end
      | Unrecognized _ => Fatal NeverAssertion
      | Add | Delete => Ok []
      end
  end.

Fixpoint rowsOfSegments (file : @ChangedFile DiffSelection)
         (temporarySelection : option ISelection.t)
         (segments : list Segment) : Result (list (list DiffRow)) :=
  match segments with
  | [] => Ok []
  | segment :: segments' =>
      rows <- rowsOfSegment file temporarySelection segment ;;
      others <- rowsOfSegments file temporarySelection segments' ;;
      Ok (rows :: others)
  end.

End SegmentRows.

(** *** Sample inputs *)

Definition sampleLine (type : DiffLineType) (content : string)
           (oldLineNumber newLineNumber : option Z) : DiffLine.t :=
  {| DiffLine.content := content;
     DiffLine.type := type;
     DiffLine.oldLineNumber := oldLineNumber;
     DiffLine.newLineNumber := newLineNumber;
     DiffLine.noTrailingNewLine := false |}.

(** A hunk with a header, a context line, a run of two deletions and one
    addition, a context line and a run of one deletion and one addition. *)
Definition sampleHunk : DiffHunk :=
  {| lines :=
       [ sampleLine Hunk "@@ -1,5 +1,4 @@" None None;
         sampleLine Context "a" (Some 1) (Some 1);
         sampleLine Delete "b" (Some 2) None;
         sampleLine Delete "c" (Some 3) None;
         sampleLine Add "d" None (Some 2);
         sampleLine Context "e" (Some 4) (Some 3);
         sampleLine Delete "f" (Some 5) None;
         sampleLine Add "g" None (Some 4) ];
     unifiedDiffStart := 0 |}.

Definition sampleDiff : ITextDiff :=
  {| text := "sample"; hunks := [sampleHunk] |}.

(** A hunk whose context line misses its new line number. *)
Definition brokenContextHunk : DiffHunk :=
  {| lines :=
       [ sampleLine Hunk "@@ -1,2 +1,2 @@" None None;
         sampleLine Delete "a" (Some 1) None;
         sampleLine Context "b" (Some 2) None ];
     unifiedDiffStart := 0 |}.

Definition sampleFile : @ChangedFile LineSet :=
  WorkingDirectoryFileChange "file-1" [2; 3].

Definition committedFile : @ChangedFile LineSet :=
  CommittedFileChange "file-2".

Definition sampleDrag : ISelection.t :=
  {| ISelection.from := 7; ISelection.to := 3; ISelection.isSelected := true |}.

Definition sampleProps : @ISideBySideDiffProps LineSet :=
  {| file := sampleFile; diff := sampleDiff;
     onIncludeChanged := Some 1%nat; onDiscardChanges := Some 2%nat |}.

Definition readOnlyProps : @ISideBySideDiffProps LineSet :=
  {| file := sampleFile; diff := sampleDiff;
     onIncludeChanged := None; onDiscardChanges := None |}.

(** Another file shown in the same viewer. *)
Definition otherProps : @ISideBySideDiffProps LineSet :=
  {| file := WorkingDirectoryFileChange "file-3" [];
     diff := {| text := "other"; hunks := [] |};
     onIncludeChanged := Some 1%nat; onDiscardChanges := Some 2%nat |}.

(** The props objects of two successive renders. *)
Definition sampleObjects (address : nat) : @ISideBySideDiffProps LineSet :=
  match address with
  | O => sampleProps
  | _ => otherProps
  end.

(** A state in which hunk 5 is hovered and no drag is in progress. *)
Definition hoveringState : @ISideBySideDiffState string :=
  {| beforeTokens := None; afterTokens := None; selectingRow := None;
     selection := None; hoveredHunk := Some 5 |}.

(** A state in the middle of a drag from line 7 to line 3. *)
Definition draggingState : @ISideBySideDiffState string :=
  {| beforeTokens := Some "old"%string; afterTokens := Some "new"%string;
     selectingRow := None; selection := Some sampleDrag;
     hoveredHunk := None |}.

Definition sampleCloneState : CloneRepository.ICloneRepositoryState :=
  {| CloneRepository.url := "hubot/cool-repo";
     CloneRepository.path := "/home/hubot/cool-repo";
     CloneRepository.loading := false;
     CloneRepository.error := None;
     CloneRepository.lastParsedIdentifier := None |}.

(** The same drag with anchor and current line exchanged. *)
Definition reversedDraggingState : @ISideBySideDiffState string :=
  {| beforeTokens := Some "old"%string; afterTokens := Some "new"%string;
     selectingRow := None;
     selection := Some {| ISelection.from := 3; ISelection.to := 7;
                          ISelection.isSelected := true |};
     hoveredHunk := None |}.

(** The component while it shows the props object at [address]. *)
Definition componentShowing (address : nat) : @Component string :=
  {| thisProps := address; thisState := draggingState |}.

(** A clone dialog whose destination was found to exist. *)
Definition collidingCloneState : CloneRepository.ICloneRepositoryState :=
  {| CloneRepository.url := "hubot/cool-repo";
     CloneRepository.path := "/home/hubot/cool-repo";
     CloneRepository.loading := false;
     CloneRepository.error :=
       Some {| CloneRepository.Error.name := "DestinationExistsError";
               CloneRepository.Error.message :=
                 "The destination already exists." |};
     CloneRepository.lastParsedIdentifier := None |}.

(** The rows of the sample hunk. *)
Definition sampleRows : list DiffRow :=
  Eval vm_compute in
    match getDiffRowsFromHunk sampleHunk sampleFile None with
    | Ok rows => rows
    | Fatal _ => []
    end.

(** *** Whole gestures and whole tokenization passes *)

Section Gestures.

Context {DiffSelection : Type} `{DiffSelectionOps DiffSelection}.
Context `{TemporarySelectionOps}.
Context {ITokens IFileContents : Type}.

(** What a segment contributes in Modified rows: a run contributes one per
    index that has both an added and a deleted line, each flagged by the
    equality of the run's two counts; a separating line contributes none. *)
Definition segmentFlagged (segment : Segment) (segmentRows : list DiffRow)
  : Prop :=
  match segment with
  | RunSegment run =>
      modifiedRowsFlagged (addCount run =? deleteCount run)%nat segmentRows
      /\ countRows isModifiedRow segmentRows
         = Nat.min (addCount run) (deleteCount run)
  | LineSegment _ => countRows isModifiedRow segmentRows = 0%nat
  end.

(** A drag gesture from [anchor] to [current]: pointer-down on the anchor
    line, pointer-move onto the current line, pointer-up. *)
Definition dragGesture (props : @ISideBySideDiffProps DiffSelection)
           (anchor current : Z) (select : bool)
           (state : @ISideBySideDiffState ITokens)
  : @ISideBySideDiffState ITokens * list (@Effect DiffSelection) :=
  let (started, listening) := onStartSelection anchor select state in
  let (ended, reported) :=
    onEndSelection props (onUpdateSelection current started) in
  (ended, listening ++ reported).

(** One tokenization pass: it is issued on the component [issued], its
    file contents arrive when the component is [atContents] and its tokens
    when the component is [atTokens].  The result is the component after
    the pass. *)
Definition tokenizationPass
           (objects : PropsRef -> @ISideBySideDiffProps DiffSelection)
           (issued atContents atTokens : @Component ITokens)
           (contents : IFileContents) (oldTokens newTokens : ITokens)
  : @Component ITokens :=
  fst (afterHighlightContents objects atTokens
         (afterGetFileContents objects atContents
            (initDiffSyntaxMode issued) contents)
         oldTokens newTokens).

End Gestures.

(** ** More of the row builder's vocabulary *)



(** The [hunkStartLine] of the rows that have one. *)
Definition hunkStartLineOf (row : DiffRow) : option Z :=
  match row with
  | ModifiedRow _ _ hunkStartLine _ => Some hunkStartLine
  | DeletedRow _ hunkStartLine => Some hunkStartLine
  | AddedRow _ hunkStartLine => Some hunkStartLine
  | _ => None
  end.

Definition isHunkRow (row : DiffRow) : bool :=
  match row with HunkRow _ => true | _ => false end.

(** The lines of a hunk paired with their index in the unified diff, the
    head of [rest] being at index [start + num]. *)
Fixpoint numberLines (start num : Z) (rest : list DiffLine.t)
  : list (DiffLine.t * Z) :=
  match rest with
  | [] => []
  | line :: rest' => (line, start + num) :: numberLines start (num + 1) rest'
  end.

(** Pairing by position: the i-th deleted line faces the i-th added line;
    what one side has in excess stands alone. *)
Fixpoint pairRows (deleted added : list IDiffRowData.t)
         (hunkStartLine : Z) (displayDiffTokens : bool) : list DiffRow :=
  match deleted with
  | before :: deleted' =>
      match added with
      | after :: added' =>
          ModifiedRow before after hunkStartLine displayDiffTokens
          :: pairRows deleted' added' hunkStartLine displayDiffTokens
      | [] =>
          DeletedRow before hunkStartLine
          :: pairRows deleted' [] hunkStartLine displayDiffTokens
      end
  | [] => map (fun after => AddedRow after hunkStartLine) added
  end.

(** A row's data with the selected flag put aside. *)
Definition unselectedData (data : IDiffRowData.t) : IDiffRowData.t :=
  {| IDiffRowData.content := IDiffRowData.content data;
     IDiffRowData.lineNumber := IDiffRowData.lineNumber data;
     IDiffRowData.diffLineNumber := IDiffRowData.diffLineNumber data;
     IDiffRowData.isSelected := false;
     IDiffRowData.noNewLineIndicator := IDiffRowData.noNewLineIndicator data |}.

(** The layout of a row: everything but the selected flags. *)
Definition rowLayout (row : DiffRow) : DiffRow :=
  match row with
  | ModifiedRow beforeData afterData hunkStartLine displayDiffTokens =>
      ModifiedRow (unselectedData beforeData) (unselectedData afterData)
                  hunkStartLine displayDiffTokens
  | DeletedRow data hunkStartLine =>
      DeletedRow (unselectedData data) hunkStartLine
  | AddedRow data hunkStartLine =>
      AddedRow (unselectedData data) hunkStartLine
  | other => other
  end.

Definition mapResult {A B : Type} (f : A -> B) (result : Result A)
  : Result B :=
  match result with
  | Ok value => Ok (f value)
  | Fatal e => Fatal e
  end.

Section ExpectedData.

Context {DiffSelection : Type} `{DiffSelectionOps DiffSelection}.
Context `{TemporarySelectionOps}.

(** The data a numbered line is shown with when the number [lineNumber]
    picks is present: its content, that number, its index in the diff as
    selection key, the displayed selected state of that index and its
    missing-newline mark. *)
Definition shownData (lineNumber : DiffLine.t -> option Z)
           (file : @ChangedFile DiffSelection)
           (temporarySelection : option ISelection.t)
           (entry : DiffLine.t * Z) : list IDiffRowData.t :=
  match lineNumber (fst entry) with
  | Some number =>
      [{| IDiffRowData.content := DiffLine.content (fst entry);
          IDiffRowData.lineNumber := number;
          IDiffRowData.diffLineNumber := snd entry;
          IDiffRowData.isSelected :=
            isInSelection (snd entry) file temporarySelection;
          IDiffRowData.noNewLineIndicator :=
            DiffLine.noTrailingNewLine (fst entry) |}]
  | None => []
  end.

(** The hunks of a diff turned into rows one by one. *)
Fixpoint rowsOfHunks (remainingHunks : list DiffHunk)
         (file : @ChangedFile DiffSelection)
         (temporarySelection : option ISelection.t)
  : Result (list (list DiffRow)) :=
  match remainingHunks with
  | [] => Ok []
  | hunk :: remainingHunks' =>
      rows <- getDiffRowsFromHunk hunk file temporarySelection ;;
      others <- rowsOfHunks remainingHunks' file temporarySelection ;;
      Ok (rows :: others)
  end.

End ExpectedData.


(** The rows without line data: hunk headers and context rows. *)
Definition isPlainRow (row : DiffRow) : bool :=
  isHunkRow row || isContextRow row.

(** The plain row a line that is neither added nor deleted calls for. *)
Definition plainRowOf (line : DiffLine.t) : list DiffRow :=
  match DiffLine.type line with
  | Hunk => [HunkRow (DiffLine.content line)]
  | Context =>
      match DiffLine.oldLineNumber line, DiffLine.newLineNumber line with
      | Some oldLineNumber, Some newLineNumber =>
          [ContextRow (DiffLine.content line) oldLineNumber newLineNumber]
      | _, _ => []
      end
  | _ => []
  end.

(** ** More handlers of the [SideBySideDiff] component *)

Section MoreHandlers.

Context {DiffSelection : Type} `{DiffSelectionOps DiffSelection}.
Context `{TemporarySelectionOps}.
Context {ITokens IFileContents : Type}.

(** [findInteractiveDiffRange] of diff-explorer is not among the sources;
    the handlers that call it are parametric in it.  It yields the ends
    [(from, to)] of a range or nothing. *)
Variable findInteractiveDiffRange : list DiffHunk -> Z -> option (Z * Z).

Definition onClickHunk (props : @ISideBySideDiffProps DiffSelection)
           (hunkStartLine : Z) (select : bool)
  : list (@Effect DiffSelection) :=
  if negb (canSelect (file props)) then []
  else
    match findInteractiveDiffRange (hunks (diff props)) hunkStartLine with
    | None => []
    | Some (from, to) =>
        match onIncludeChanged props with
        | None => []
        | Some callback =>
            match file props with
            | CommittedFileChange _ => [] (* excluded by the guard *)
            | WorkingDirectoryFileChange _ persisted =>
                [CallOnIncludeChanged callback
                   (withRangeSelection persisted from (to - from + 1) select)]
            end
        end
    end.

(** A call of the [onDiscardChanges] callback of the props. *)
Inductive DiscardRequest : Type :=
| CallOnDiscardChanges (callback : Callback) (diff : ITextDiff)
                       (diffSelection : DiffSelection).

(** The private method [onDiscardChanges(file, startLine, endLine =
    startLine)]; the absent third argument is [None].  [props] is
    [this.props] when the method runs. *)
Definition requestDiscardChanges (props : @ISideBySideDiffProps DiffSelection)
           (file : @ChangedFile DiffSelection) (startLine : Z)
           (endLine : option Z) : list DiscardRequest :=
  let endLine := match endLine with
                 | Some line => line
                 | None => startLine
                 end in
  match onDiscardChanges props with
  | None => []
  | Some callback =>
      match file with
      | CommittedFileChange _ => [] (* the parameter's type excludes it *)
      | WorkingDirectoryFileChange _ persisted =>
          [CallOnDiscardChanges callback (diff props)
             (withRangeSelection (withSelectNone persisted) startLine
                                 (endLine - startLine + 1) true)]
      end
  end.

(** An entry of a contextual menu: its label, and what its action does
    when it is chosen, given the props of the component at that time. *)
Record MenuItem : Type := {
  label : string;
  action : @ISideBySideDiffProps DiffSelection -> list DiscardRequest
}.

(** [onContextMenuLine]: the menu handed to [showContextualMenu], or
    [None] when no menu is shown. *)
Definition onContextMenuLine (props : @ISideBySideDiffProps DiffSelection)
           (lineNumber : Z) : option (list MenuItem) :=
  let file := file props in
  if negb (canSelect file) then None
  else
    match onDiscardChanges props with
    | None => None
    | Some _ =>
        Some [{| label := "Discard line";
                 action := fun current =>
                   requestDiscardChanges current file lineNumber None |}]
    end.

Definition onContextMenuHunk (props : @ISideBySideDiffProps DiffSelection)
           (hunkStartLine : Z) : option (list MenuItem) :=
  let file := file props in
  if negb (canSelect file) then None
  else
    match onDiscardChanges props with
    | None => None
    | Some _ =>
        match findInteractiveDiffRange (hunks (diff props)) hunkStartLine with
        | None => None
        | Some (from, to) =>
            Some [{| label := "Discard lines";
                     action := fun current =>
                       requestDiscardChanges current file from (Some to) |}]
        end
    end.

(** The events the rows and the document forward to the component. *)
Inductive ViewerEvent : Type :=
| StartSelection (lineNumber : Z) (select : bool)
| EndSelection
| MoveSelection (lineNumber : Z)
| EnterHunk (hunkStartLine : Z)
| LeaveHunk
| ClickHunk (hunkStartLine : Z) (select : bool).

Definition handleViewerEvent (props : @ISideBySideDiffProps DiffSelection)
           (state : @ISideBySideDiffState ITokens) (event : ViewerEvent)
  : @ISideBySideDiffState ITokens * list (@Effect DiffSelection) :=
  match event with
  | StartSelection lineNumber select =>
      onStartSelection lineNumber select state
  | EndSelection => onEndSelection props state
  | MoveSelection lineNumber => (onUpdateSelection lineNumber state, [])
  | EnterHunk hunkStartLine => (onMouseEnterHunk hunkStartLine state, [])
  | LeaveHunk => (onMouseLeaveHunk state, [])
  | ClickHunk hunkStartLine select =>
      (state, onClickHunk props hunkStartLine select)
  end.

(** A sequence of events handled in order, with all the effects caused. *)
Fixpoint handleViewerEvents (props : @ISideBySideDiffProps DiffSelection)
         (state : @ISideBySideDiffState ITokens) (events : list ViewerEvent)
  : @ISideBySideDiffState ITokens * list (@Effect DiffSelection) :=
  match events with
  | [] => (state, [])
  | event :: events' =>
      let (next, caused) := handleViewerEvent props state event in
      let (final, causedLater) := handleViewerEvents props next events' in
      (final, caused ++ causedLater)
  end.

(** A drag that starts on [anchor], passes over the lines of [path] and is
    released. *)
Definition dragAlong (props : @ISideBySideDiffProps DiffSelection)
           (anchor : Z) (path : list Z) (select : bool)
           (state : @ISideBySideDiffState ITokens)
  : @ISideBySideDiffState ITokens * list (@Effect DiffSelection) :=
  let (started, listening) := onStartSelection anchor select state in
  let moved :=
    fold_left (fun moving lineNumber => onUpdateSelection lineNumber moving)
              path started in
  let (ended, reported) := onEndSelection props moved in
  (ended, listening ++ reported).

Definition isIncludeChangedCall (effect : @Effect DiffSelection) : bool :=
  match effect with
  | CallOnIncludeChanged _ _ => true
  | AddMouseUpListenerOnce => false
  end.

(** [componentDidUpdate(prevProps)]: the tokenization pass it starts, if
    any.  [objects] gives the props object at each address. *)
Definition componentDidUpdate
           (objects : PropsRef -> @ISideBySideDiffProps DiffSelection)
           (this : @Component ITokens) (prevProps : PropsRef)
  : option (@SyntaxModeTask IFileContents) :=
  if negb (highlightParametersEqual objects (thisProps this) prevProps)
  then Some (initDiffSyntaxMode this)
  else None.

End MoreHandlers.

(** *** More sample inputs *)

(** A range finder for running the handlers: the range of a hunk handle at
    [line] is taken to be the two lines [line] and [line + 1]. *)
Definition sampleFindRange (hunks : list DiffHunk) (line : Z)
  : option (Z * Z) :=
  Some (line, line + 1).

Definition sampleEvents : list ViewerEvent :=
  [ EnterHunk 2; StartSelection 2 true; MoveSelection 4; ClickHunk 6 false;
    EndSelection; LeaveHunk ].

(** ** More handlers of the [CloneRepository] dialog *)

Module CloneRepositoryHandlers.

Import CloneRepository.

(** [this.setState({ ...this.state, loading: true })]. *)
Definition setLoading (state : ICloneRepositoryState) (newLoading : bool)
  : ICloneRepositoryState :=
  {| url := url state;
     path := path state;
     loading := newLoading;
     error := error state;
     lastParsedIdentifier := lastParsedIdentifier state |}.

(** [onPathChanged]: the new state and the path whose existence check is
    started by [checkPathValid]. *)
Definition onPathChanged (state : ICloneRepositoryState) (newPath : string)
  : ICloneRepositoryState * string :=
  (setPath state newPath, newPath).

(** [showFilePicker]; [directory] is what the open dialog returned: nothing
    when it was cancelled, else a non-empty array of paths. *)
Definition showFilePicker (state : ICloneRepositoryState)
           (directory : option (string * list string))
  : ICloneRepositoryState :=
  match directory with
  | None => state
  | Some (first, _) => setPath state first
  end.

(** The error a completed check leaves in the state. *)
Definition checkedError (found : bool) : option Error.t :=
  if found
  then Some {| Error.name := DestinationExistsErrorName;
               Error.message := "The destination already exists." |}
  else None.

Section Collaborators.

(** The repository-URL parser of lib/remote-parsing and the functions of
    Node's [path] module are not among the sources; the handlers are
    parametric in them. *)
Variable parseOwnerAndName : string -> option IRepositoryIdentifier.t.
Variable pathJoin : string -> string -> string.
Variable pathDirname : string -> string.
Variable pathResolve : string -> string -> string.


(** The accounts are opaque to the dialog. *)
Context {Account : Type}.

(** How an awaited call ends: with a value, or by throwing. *)
Inductive Outcome (A : Type) : Type :=
| Resolved (value : A)
| Rejected (thrown : Error.t).

Arguments Resolved {A} value.
Arguments Rejected {A} thrown.



(** What cloning asks of the outside. *)
Inductive CloneEffect : Type :=
| DispatchClone (url path : string) (account : option Account)
| Dismiss
| SetDefaultDir (directory : string).

Definition cloneImpl (url path : string) (account : option Account)
  : list CloneEffect :=
  [DispatchClone url path account; Dismiss;
   SetDefaultDir (pathResolve path "..")].

(** [clone], up to its [await]: the state with the form marked as loading
    and the path the clone will use. *)
Definition cloneStarted (state : ICloneRepositoryState)
  : ICloneRepositoryState * string :=
  (setLoading state true, path state).

(** [clone], from the completion of [resolveCloneDetails] on; [state] is the
    component state at that time and [startedPath] the path read when the
    clone was started. *)
Definition cloneSettled (state : ICloneRepositoryState) (startedPath : string)
           (details : Outcome (string * option Account))
  : ICloneRepositoryState * list CloneEffect :=
  match details with
  | Resolved (cloneUrl, account) =>
      (state, cloneImpl cloneUrl startedPath account)
  | Rejected thrown =>
      ({| url := url state;
          path := path state;
          loading := false;
          error := Some thrown;
          lastParsedIdentifier := lastParsedIdentifier state |},
       [])
  end.

End Collaborators.

Arguments Resolved {A} value.
Arguments Rejected {A} thrown.

End CloneRepositoryHandlers.



Definition samplePathJoin (directory name : string) : string :=
  (directory ++ "/" ++ name)%string.



(* ================================================================== *)
(** * Part II: properties                                              *)
(* ================================================================== *)

(** ** The error monad *)

Lemma bind_Ok {A B : Type} (m : Result A) (k : A -> Result B) (b : B) :
  bind m k = Ok b -> exists a, m = Ok a /\ k a = Ok b.
Proof.
  destruct m as [a | e]; simpl; intros E.
  - exists a. split; [reflexivity | exact E].
  - discriminate E.
Qed.

(** Splits every successful [bind] among the hypotheses. *)
Ltac invert_binds :=
  repeat match goal with
         | E : bind _ _ = Ok _ |- _ =>
             let a := fresh "value" in
             let Ea := fresh "Estep" in
             apply bind_Ok in E; destruct E as [a [Ea E]]
         | E : Ok _ = Ok _ |- _ => injection E as E
         | E : Fatal _ = Ok _ |- _ => discriminate E
         end.

(** ** Counting rows *)

Lemma countRows_app (kind : DiffRow -> bool) (xs ys : list DiffRow) :
  countRows kind (xs ++ ys) = (countRows kind xs + countRows kind ys)%nat.
Proof. unfold countRows. rewrite filter_app, length_app. reflexivity. Qed.

Lemma dataLineCount_app (xs ys : list DiffRow) :
  dataLineCount (xs ++ ys) = (dataLineCount xs + dataLineCount ys)%nat.
Proof. unfold dataLineCount. rewrite !countRows_app. lia. Qed.

Section BuilderProperties.

Context {DiffSelection : Type} `{DiffSelectionOps DiffSelection}.
Context `{TemporarySelectionOps}.

Variable file : @ChangedFile DiffSelection.
Variable temporarySelection : option ISelection.t.

(** The loop of [getModifiedRows] adds one data line per Add and per
    Delete entry it has not yet visited. *)
Lemma modifiedRowsLoop_count (addedLines deletedLines : list (DiffLine.t * Z))
      (hunkStartLine : Z) (flag : bool) :
  forall (remaining numLine : nat) (output rows : list DiffRow),
    (Nat.max (length addedLines) (length deletedLines)
     <= numLine + remaining)%nat ->
    modifiedRowsLoop remaining addedLines deletedLines hunkStartLine flag
                     file temporarySelection numLine output = Ok rows ->
    dataLineCount rows
    = (dataLineCount output + (length addedLines - numLine)
       + (length deletedLines - numLine))%nat.
Proof.
  induction remaining as [| remaining IH]; intros numLine output rows Hfuel E.
  - simpl in E. injection E as <-. lia.
  - cbn [modifiedRowsLoop] in E.
    destruct (Nat.ltb_spec numLine (length addedLines)) as [Ha | Ha];
      destruct (Nat.ltb_spec numLine (length deletedLines)) as [Hd | Hd];
      cbn [orb andb] in E; invert_binds; subst;
      try (apply IH in E; [| lia]; rewrite E, dataLineCount_app;
           unfold dataLineCount, countRows; simpl; lia).
    lia.
Qed.

(** The bound on the iterations is never what stops the loop: once it
    covers the longer of the two arrays, a larger bound gives the same
    result. *)
Lemma modifiedRowsLoop_enough (addedLines deletedLines : list (DiffLine.t * Z))
      (hunkStartLine : Z) (flag : bool) (extra : nat) :
  forall (remaining numLine : nat) (output : list DiffRow),
    (Nat.max (length addedLines) (length deletedLines)
     <= numLine + remaining)%nat ->
    modifiedRowsLoop (remaining + extra) addedLines deletedLines hunkStartLine
                     flag file temporarySelection numLine output
    = modifiedRowsLoop remaining addedLines deletedLines hunkStartLine
                       flag file temporarySelection numLine output.
Proof.
  induction remaining as [| remaining IH]; intros numLine output Hfuel.
  - destruct extra as [| extra']; [reflexivity |].
    cbn [Nat.add modifiedRowsLoop].
    destruct (Nat.ltb_spec numLine (length addedLines)) as [Ha | Ha];
      destruct (Nat.ltb_spec numLine (length deletedLines)) as [Hd | Hd];
      try lia.
    reflexivity.
  - cbn [Nat.add modifiedRowsLoop].
    destruct (numLine <? length addedLines)%nat,
             (numLine <? length deletedLines)%nat;
      cbn [orb andb]; try reflexivity;
      repeat match goal with
             | |- bind (bind ?m _) _ = bind (bind ?m _) _ =>
                 destruct m; cbn [bind]; try reflexivity
             | |- bind ?m _ = bind ?m _ =>
                 destruct m; cbn [bind]; try reflexivity
             end;
      apply IH; lia.
Qed.

Lemma getModifiedRows_count (run : list (DiffLine.t * Z))
      (rows : list DiffRow) :
  getModifiedRows run file temporarySelection = Ok rows ->
  dataLineCount rows = (addCount run + deleteCount run)%nat.
Proof.
  unfold getModifiedRows. destruct run as [| first run'].
  - intros E. injection E as <-. reflexivity.
  - intros E. apply modifiedRowsLoop_count in E; [| lia].
    rewrite E. unfold addCount, deleteCount, dataLineCount, countRows.
    simpl (filter _ []). simpl (length []). lia.
Qed.

Lemma flushModifiedLines_count (rows : list DiffRow)
      (pending : list (DiffLine.t * Z)) (flushed : list DiffRow) :
  flushModifiedLines rows pending file temporarySelection = Ok flushed ->
  dataLineCount flushed
  = (dataLineCount rows + (addCount pending + deleteCount pending))%nat.
Proof.
  unfold flushModifiedLines.
  destruct pending as [| first pending'].
  - simpl. intros E. injection E as <-.
    unfold addCount, deleteCount. simpl. lia.
  - cbn [length Nat.ltb Nat.leb]. intros E. invert_binds. subst.
    rewrite dataLineCount_app.
    rewrite (getModifiedRows_count _ _ Estep). reflexivity.
Qed.

Lemma changeCount_snoc (pending : list (DiffLine.t * Z))
      (line : DiffLine.t) (number : Z) :
  isChangeLine line = true ->
  (addCount (pending ++ [(line, number)])
   + deleteCount (pending ++ [(line, number)])
   = addCount pending + deleteCount pending + 1)%nat.
Proof.
  unfold addCount, deleteCount, isChangeLine, isAdd, isDelete.
  rewrite !filter_app, !length_app. simpl.
  destruct (DiffLine.type line); intros E; try discriminate E; simpl; lia.
Qed.

Lemma hunkRowsLoop_count (start : Z) :
  forall (rest : list DiffLine.t) (num : Z) (rows : list DiffRow)
         (pending : list (DiffLine.t * Z)) (result : list DiffRow),
    hunkRowsLoop start file temporarySelection num rest rows pending
    = Ok result ->
    dataLineCount result
    = (dataLineCount rows + (addCount pending + deleteCount pending)
       + length (filter isChangeLine rest))%nat.
Proof.
  induction rest as [| line rest IH]; intros num rows pending result E.
  - simpl in E. apply flushModifiedLines_count in E. simpl. lia.
  - cbn [hunkRowsLoop] in E. cbn [filter].
    destruct (DiffLine.type line) eqn:Etype;
      unfold isChangeLine at 1; rewrite Etype.
    + invert_binds.
      destruct (DiffLine.oldLineNumber line), (DiffLine.newLineNumber line);
        try discriminate E.
      apply IH in E. apply flushModifiedLines_count in Estep.
      rewrite E, dataLineCount_app, Estep.
      unfold addCount, deleteCount, dataLineCount, countRows. simpl. lia.
    + apply IH in E. rewrite E, changeCount_snoc.
      * simpl. lia.
      * unfold isChangeLine. rewrite Etype. reflexivity.
    + apply IH in E. rewrite E, changeCount_snoc.
      * simpl. lia.
      * unfold isChangeLine. rewrite Etype. reflexivity.
    + invert_binds. apply IH in E. apply flushModifiedLines_count in Estep.
      rewrite E, dataLineCount_app, Estep.
      unfold addCount, deleteCount, dataLineCount, countRows. simpl. lia.
    + invert_binds. discriminate E.
Qed.

Lemma getDiffRowsFromHunk_count (hunk : DiffHunk) (rows : list DiffRow) :
  getDiffRowsFromHunk hunk file temporarySelection = Ok rows ->
  dataLineCount rows = changeLinesOfHunk hunk.
Proof.
  unfold getDiffRowsFromHunk, changeLinesOfHunk. intros E.
  apply hunkRowsLoop_count in E. exact E.
Qed.

Lemma getDiffRowsLoop_count :
  forall (remainingHunks : list DiffHunk) (rows result : list DiffRow),
    getDiffRowsLoop remainingHunks file temporarySelection rows = Ok result ->
    dataLineCount result
    = (dataLineCount rows
       + fold_right (fun hunk total => (changeLinesOfHunk hunk + total)%nat)
                    0%nat remainingHunks)%nat.
Proof.
  induction remainingHunks as [| hunk remainingHunks IH];
    intros rows result E.
  - simpl in E. injection E as <-. simpl. lia.
  - cbn [getDiffRowsLoop] in E. invert_binds.
    apply IH in E. apply getDiffRowsFromHunk_count in Estep.
    rewrite E, dataLineCount_app, Estep. simpl. lia.
Qed.

End BuilderProperties.

(** ** Runs, flags and Context rows *)

Lemma modifiedRowsFlagged_app (flag : bool) (xs ys : list DiffRow) :
  modifiedRowsFlagged flag xs -> modifiedRowsFlagged flag ys ->
  modifiedRowsFlagged flag (xs ++ ys).
Proof. unfold modifiedRowsFlagged. intros Hx Hy. apply Forall_app. auto. Qed.

Lemma filter_snoc {A : Type} (keep : A -> bool) (xs : list A) (x : A) :
  filter keep (xs ++ [x]) = filter keep xs ++ (if keep x then [x] else []).
Proof. rewrite filter_app. reflexivity. Qed.

Section RunProperties.

Context {DiffSelection : Type} `{DiffSelectionOps DiffSelection}.
Context `{TemporarySelectionOps}.

Variable file : @ChangedFile DiffSelection.
Variable temporarySelection : option ISelection.t.

(** Every Modified row pushed by the loop carries the flag it was given. *)
Lemma modifiedRowsLoop_flag (addedLines deletedLines : list (DiffLine.t * Z))
      (hunkStartLine : Z) (flag : bool) :
  forall (remaining numLine : nat) (output rows : list DiffRow),
    modifiedRowsFlagged flag output ->
    modifiedRowsLoop remaining addedLines deletedLines hunkStartLine flag
                     file temporarySelection numLine output = Ok rows ->
    modifiedRowsFlagged flag rows.
Proof.
  induction remaining as [| remaining IH]; intros numLine output rows Hout E.
  - simpl in E. injection E as <-. exact Hout.
  - cbn [modifiedRowsLoop] in E.
    destruct (numLine <? length addedLines)%nat,
             (numLine <? length deletedLines)%nat;
      cbn [orb andb] in E; invert_binds; subst;
      try (apply IH in E; [exact E |];
           apply modifiedRowsFlagged_app; [exact Hout |];
           constructor; [simpl; auto | constructor]).
    exact Hout.
Qed.

(** The Modified rows pushed by the loop: one per index below both
    lengths. *)
Lemma modifiedRowsLoop_modified
      (addedLines deletedLines : list (DiffLine.t * Z))
      (hunkStartLine : Z) (flag : bool) :
  forall (remaining numLine : nat) (output rows : list DiffRow),
    (Nat.max (length addedLines) (length deletedLines)
     <= numLine + remaining)%nat ->
    modifiedRowsLoop remaining addedLines deletedLines hunkStartLine flag
                     file temporarySelection numLine output = Ok rows ->
    countRows isModifiedRow rows
    = (countRows isModifiedRow output
       + (Nat.min (length addedLines) (length deletedLines) - numLine))%nat.
Proof.
  induction remaining as [| remaining IH]; intros numLine output rows Hfuel E.
  - simpl in E. injection E as <-. lia.
  - cbn [modifiedRowsLoop] in E.
    destruct (Nat.ltb_spec numLine (length addedLines)) as [Ha | Ha];
      destruct (Nat.ltb_spec numLine (length deletedLines)) as [Hd | Hd];
      cbn [orb andb] in E; invert_binds; subst;
      try (apply IH in E; [| lia]; rewrite E, countRows_app;
           unfold countRows; simpl; lia).
    lia.
Qed.

(** The loop pushes no Context row. *)
Lemma modifiedRowsLoop_context
      (addedLines deletedLines : list (DiffLine.t * Z))
      (hunkStartLine : Z) (flag : bool) :
  forall (remaining numLine : nat) (output rows : list DiffRow),
    modifiedRowsLoop remaining addedLines deletedLines hunkStartLine flag
                     file temporarySelection numLine output = Ok rows ->
    filter isContextRow rows = filter isContextRow output.
Proof.
  induction remaining as [| remaining IH]; intros numLine output rows E.
  - simpl in E. injection E as <-. reflexivity.
  - cbn [modifiedRowsLoop] in E.
    destruct (numLine <? length addedLines)%nat,
             (numLine <? length deletedLines)%nat;
      cbn [orb andb] in E; invert_binds; subst;
      try (apply IH in E; rewrite E, filter_snoc; simpl;
           apply app_nil_r).
    reflexivity.
Qed.

Lemma getModifiedRows_flag (run : list (DiffLine.t * Z))
      (rows : list DiffRow) :
  getModifiedRows run file temporarySelection = Ok rows ->
  modifiedRowsFlagged (addCount run =? deleteCount run)%nat rows.
Proof.
  unfold getModifiedRows. destruct run as [| first run'].
  - intros E. injection E as <-. constructor.
  - intros E. apply modifiedRowsLoop_flag in E; [exact E | constructor].
Qed.

Lemma getModifiedRows_modified (run : list (DiffLine.t * Z))
      (rows : list DiffRow) :
  getModifiedRows run file temporarySelection = Ok rows ->
  countRows isModifiedRow rows = Nat.min (addCount run) (deleteCount run).
Proof.
  unfold getModifiedRows. destruct run as [| first run'].
  - intros E. injection E as <-. reflexivity.
  - intros E. apply modifiedRowsLoop_modified in E; [| lia].
    rewrite E. unfold addCount, deleteCount, countRows. simpl (filter _ []).
    simpl (length []). lia.
Qed.

Lemma getModifiedRows_context (run : list (DiffLine.t * Z))
      (rows : list DiffRow) :
  getModifiedRows run file temporarySelection = Ok rows ->
  filter isContextRow rows = [].
Proof.
  unfold getModifiedRows. destruct run as [| first run'].
  - intros E. injection E as <-. reflexivity.
  - intros E. apply modifiedRowsLoop_context in E. exact E.
Qed.

Lemma flushModifiedLines_context (rows : list DiffRow)
      (pending : list (DiffLine.t * Z)) (flushed : list DiffRow) :
  flushModifiedLines rows pending file temporarySelection = Ok flushed ->
  filter isContextRow flushed = filter isContextRow rows.
Proof.
  unfold flushModifiedLines.
  destruct (0 <? length pending)%nat; intros E; invert_binds; subst.
  - rewrite filter_app, (getModifiedRows_context _ _ Estep).
    apply app_nil_r.
  - reflexivity.
Qed.

(** The Context rows of a hunk are those its Context lines call for. *)
Lemma hunkRowsLoop_context (start : Z) :
  forall (rest : list DiffLine.t) (num : Z) (rows : list DiffRow)
         (pending : list (DiffLine.t * Z)) (result : list DiffRow),
    hunkRowsLoop start file temporarySelection num rest rows pending
    = Ok result ->
    filter isContextRow result
    = filter isContextRow rows ++ expectedContextRows rest.
Proof.
  induction rest as [| line rest IH]; intros num rows pending result E.
  - simpl in E. apply flushModifiedLines_context in E.
    rewrite E. symmetry. apply app_nil_r.
  - cbn [hunkRowsLoop] in E. unfold expectedContextRows. cbn [flat_map].
    fold (expectedContextRows rest).
    destruct (DiffLine.type line) eqn:Etype.
    + invert_binds.
      destruct (DiffLine.oldLineNumber line), (DiffLine.newLineNumber line);
        try discriminate E.
      apply IH in E. apply flushModifiedLines_context in Estep.
      rewrite E, filter_snoc, Estep. simpl. rewrite <- app_assoc.
      reflexivity.
    + apply IH in E. exact E.
    + apply IH in E. exact E.
    + invert_binds. apply IH in E. apply flushModifiedLines_context in Estep.
      rewrite E, filter_snoc, Estep. simpl. rewrite app_nil_r. reflexivity.
    + invert_binds. discriminate E.
Qed.

(** *** The builder follows the runs of the hunk *)

Lemma rowsOfSegments_app (front back : list Segment) :
  rowsOfSegments file temporarySelection (front ++ back)
  = (xs <- rowsOfSegments file temporarySelection front ;;
     ys <- rowsOfSegments file temporarySelection back ;;
     Ok (xs ++ ys)).
Proof.
  induction front as [| segment front IH]; simpl.
  - destruct (rowsOfSegments file temporarySelection back); reflexivity.
  - destruct (rowsOfSegment file temporarySelection segment); simpl;
      [| reflexivity].
    rewrite IH.
    destruct (rowsOfSegments file temporarySelection front); simpl;
      [| reflexivity].
    destruct (rowsOfSegments file temporarySelection back); reflexivity.
Qed.

Lemma flushModifiedLines_closeRun (rows : list DiffRow)
      (pending : list (DiffLine.t * Z)) :
  flushModifiedLines rows pending file temporarySelection
  = (perSegment <- rowsOfSegments file temporarySelection (closeRun pending) ;;
     Ok (rows ++ concat perSegment)).
Proof.
  unfold flushModifiedLines. destruct pending as [| first pending'].
  - simpl. rewrite app_nil_r. reflexivity.
  - cbn [length Nat.ltb Nat.leb closeRun rowsOfSegments rowsOfSegment].
    destruct (getModifiedRows (first :: pending') file temporarySelection);
      simpl; [rewrite app_nil_r |]; reflexivity.
Qed.

Lemma hunkRowsLoop_segments (start : Z) :
  forall (rest : list DiffLine.t) (num : Z) (rows : list DiffRow)
         (pending : list (DiffLine.t * Z)),
    hunkRowsLoop start file temporarySelection num rest rows pending
    = (perSegment <- rowsOfSegments file temporarySelection
                                    (segmentsFrom start num rest pending) ;;
       Ok (rows ++ concat perSegment)).
Proof.
  induction rest as [| line rest IH]; intros num rows pending.
  - simpl. apply flushModifiedLines_closeRun.
  - cbn [hunkRowsLoop segmentsFrom]. unfold isChangeLine.
    destruct (DiffLine.type line) eqn:Etype;
      try apply IH;
      rewrite rowsOfSegments_app, flushModifiedLines_closeRun;
      destruct (rowsOfSegments file temporarySelection (closeRun pending))
        as [front | e]; simpl; try reflexivity; rewrite Etype.
    + destruct (DiffLine.oldLineNumber line), (DiffLine.newLineNumber line);
        simpl; try reflexivity.
      rewrite IH.
      destruct (rowsOfSegments file temporarySelection
                               (segmentsFrom start (num + 1) rest []));
        simpl; [| reflexivity].
      rewrite concat_app. simpl. rewrite <- !app_assoc. reflexivity.
    + rewrite IH.
      destruct (rowsOfSegments file temporarySelection
                               (segmentsFrom start (num + 1) rest []));
        simpl; [| reflexivity].
      rewrite concat_app. simpl. rewrite <- !app_assoc. reflexivity.
    + reflexivity.
Qed.

End RunProperties.

(** *** [segmentsOfHunk] cuts a hunk into its maximal runs *)

Lemma closeRun_lines (pending : list (DiffLine.t * Z)) :
  flat_map linesOfSegment (closeRun pending) = map fst pending.
Proof. destruct pending; simpl; [| rewrite app_nil_r]; reflexivity. Qed.

(** The segments, laid end to end, are the lines of the hunk. *)
Lemma segmentsFrom_lines (start : Z) :
  forall (rest : list DiffLine.t) (num : Z) (pending : list (DiffLine.t * Z)),
    flat_map linesOfSegment (segmentsFrom start num rest pending)
    = map fst pending ++ rest.
Proof.
  induction rest as [| line rest IH]; intros num pending.
  - simpl. rewrite closeRun_lines, app_nil_r. reflexivity.
  - cbn [segmentsFrom]. destruct (isChangeLine line).
    + rewrite IH, map_app, <- app_assoc. reflexivity.
    + rewrite flat_map_app, closeRun_lines. cbn [flat_map linesOfSegment].
      rewrite IH. reflexivity.
Qed.

Lemma closeRun_shaped (pending : list (DiffLine.t * Z)) :
  forallb (fun entry => isChangeLine (fst entry)) pending = true ->
  forallb segmentShaped (closeRun pending) = true.
Proof.
  destruct pending as [| first pending']; [reflexivity |].
  intros Hp. simpl in Hp |- *. rewrite Hp. reflexivity.
Qed.

Lemma segmentsFrom_shaped (start : Z) :
  forall (rest : list DiffLine.t) (num : Z) (pending : list (DiffLine.t * Z)),
    forallb (fun entry => isChangeLine (fst entry)) pending = true ->
    forallb segmentShaped (segmentsFrom start num rest pending) = true.
Proof.
  induction rest as [| line rest IH]; intros num pending Hp.
  - simpl. apply closeRun_shaped, Hp.
  - cbn [segmentsFrom]. destruct (isChangeLine line) eqn:Eline.
    + apply IH. rewrite forallb_app, Hp. simpl. rewrite Eline. reflexivity.
    + rewrite forallb_app, (closeRun_shaped _ Hp).
      cbn [forallb segmentShaped andb]. rewrite Eline. apply IH. reflexivity.
Qed.

Lemma runsSeparated_after_line (line : DiffLine.t) (segments : list Segment) :
  runsSeparated (LineSegment line :: segments) = runsSeparated segments.
Proof. destruct segments; reflexivity. Qed.

Lemma runsSeparated_closeRun (pending : list (DiffLine.t * Z))
      (line : DiffLine.t) (segments : list Segment) :
  runsSeparated (closeRun pending ++ LineSegment line :: segments)
  = runsSeparated segments.
Proof.
  destruct pending, segments; reflexivity.
Qed.

(** No two runs touch: each run is a maximal one. *)
Lemma segmentsFrom_separated (start : Z) :
  forall (rest : list DiffLine.t) (num : Z) (pending : list (DiffLine.t * Z)),
    runsSeparated (segmentsFrom start num rest pending) = true.
Proof.
  induction rest as [| line rest IH]; intros num pending.
  - simpl. destruct pending; reflexivity.
  - cbn [segmentsFrom]. destruct (isChangeLine line).
    + apply IH.
    + rewrite runsSeparated_closeRun. apply IH.
Qed.

(** ** Well-formed and malformed input *)

Section Totality.

Context {DiffSelection : Type} `{DiffSelectionOps DiffSelection}.
Context `{TemporarySelectionOps}.

Variable file : @ChangedFile DiffSelection.
Variable temporarySelection : option ISelection.t.

Lemma element_In {A : Type} (xs : list A) (i : nat) :
  (i < length xs)%nat -> exists x, element xs i = Ok x /\ In x xs.
Proof.
  intros Hi. unfold element. destruct (nth_error xs i) as [x |] eqn:E.
  - exists x. split; [reflexivity |]. eapply nth_error_In, E.
  - apply nth_error_None in E. lia.
Qed.

Lemma getDataFromLine_old (entry : DiffLine.t * Z) :
  isDelete entry = true -> wellFormedEntry entry = true ->
  exists data,
    getDataFromLine entry UseOldLineNumber file temporarySelection = Ok data.
Proof.
  destruct entry as [line number].
  unfold isDelete, wellFormedEntry, wellFormedLine, getDataFromLine. simpl.
  destruct (DiffLine.type line); try discriminate.
  destruct (DiffLine.oldLineNumber line); [| discriminate].
  intros _ _. eexists. reflexivity.
Qed.

Lemma getDataFromLine_new (entry : DiffLine.t * Z) :
  isAdd entry = true -> wellFormedEntry entry = true ->
  exists data,
    getDataFromLine entry UseNewLineNumber file temporarySelection = Ok data.
Proof.
  destruct entry as [line number].
  unfold isAdd, wellFormedEntry, wellFormedLine, getDataFromLine. simpl.
  destruct (DiffLine.type line); try discriminate.
  destruct (DiffLine.newLineNumber line); [| discriminate].
  intros _ _. eexists. reflexivity.
Qed.

(** On entries that carry their numbers the loop runs to its end. *)
Lemma modifiedRowsLoop_total (addedLines deletedLines : list (DiffLine.t * Z))
      (hunkStartLine : Z) (flag : bool) :
  Forall (fun entry => isAdd entry = true /\ wellFormedEntry entry = true)
         addedLines ->
  Forall (fun entry => isDelete entry = true /\ wellFormedEntry entry = true)
         deletedLines ->
  forall (remaining numLine : nat) (output : list DiffRow),
  exists rows,
    modifiedRowsLoop remaining addedLines deletedLines hunkStartLine flag
                     file temporarySelection numLine output = Ok rows.
Proof.
  intros Hadded Hdeleted.
  induction remaining as [| remaining IH]; intros numLine output.
  - eexists. reflexivity.
  - cbn [modifiedRowsLoop].
    destruct (Nat.ltb_spec numLine (length addedLines)) as [Ha | Ha];
      destruct (Nat.ltb_spec numLine (length deletedLines)) as [Hd | Hd];
      cbn [orb andb];
      try (destruct (element_In _ _ Ha) as [added [Ea Hina]];
           rewrite Ea;
           destruct (proj1 (Forall_forall _ _) Hadded _ Hina) as [Ta Wa];
           destruct (getDataFromLine_new _ Ta Wa) as [afterData Eafter]);
      try (destruct (element_In _ _ Hd) as [deleted [Ed Hind]];
           rewrite Ed;
           destruct (proj1 (Forall_forall _ _) Hdeleted _ Hind) as [Td Wd];
           destruct (getDataFromLine_old _ Td Wd) as [beforeData Ebefore]);
      cbn [bind];
      repeat match goal with
             | E : getDataFromLine _ _ _ _ = Ok _ |- _ =>
                 rewrite E; clear E; cbn [bind]
             | E : element _ _ = Ok _ |- _ => rewrite E; clear E; cbn [bind]
             end;
      try apply IH.
    eexists. reflexivity.
Qed.

Lemma filter_wellFormed (keep : DiffLine.t * Z -> bool)
      (run : list (DiffLine.t * Z)) :
  forallb wellFormedEntry run = true ->
  Forall (fun entry => keep entry = true /\ wellFormedEntry entry = true)
         (filter keep run).
Proof.
  intros Hrun. apply Forall_forall. intros entry Hin.
  apply filter_In in Hin. destruct Hin as [Hin Hkeep].
  split; [exact Hkeep |].
  exact (proj1 (forallb_forall _ _) Hrun _ Hin).
Qed.

Lemma getModifiedRows_total (run : list (DiffLine.t * Z)) :
  forallb wellFormedEntry run = true ->
  exists rows, getModifiedRows run file temporarySelection = Ok rows.
Proof.
  intros Hrun. unfold getModifiedRows. destruct run as [| first run'].
  - eexists. reflexivity.
  - apply modifiedRowsLoop_total; apply filter_wellFormed, Hrun.
Qed.

Lemma flushModifiedLines_total (rows : list DiffRow)
      (pending : list (DiffLine.t * Z)) :
  forallb wellFormedEntry pending = true ->
  exists flushed,
    flushModifiedLines rows pending file temporarySelection = Ok flushed.
Proof.
  intros Hp. unfold flushModifiedLines.
  destruct (0 <? length pending)%nat; [| eexists; reflexivity].
  destruct (getModifiedRows_total _ Hp) as [modified E].
  rewrite E. eexists. reflexivity.
Qed.

(** A hunk of well-formed lines yields rows. *)
Lemma hunkRowsLoop_total (start : Z) :
  forall (rest : list DiffLine.t) (num : Z) (rows : list DiffRow)
         (pending : list (DiffLine.t * Z)),
    forallb wellFormedLine rest = true ->
    forallb wellFormedEntry pending = true ->
    exists result,
      hunkRowsLoop start file temporarySelection num rest rows pending
      = Ok result.
Proof.
  induction rest as [| line rest IH]; intros num rows pending Hrest Hp.
  - simpl. apply flushModifiedLines_total, Hp.
  - cbn [forallb] in Hrest. apply andb_true_iff in Hrest.
    destruct Hrest as [Hline Hrest]. cbn [hunkRowsLoop].
    destruct (flushModifiedLines_total rows pending Hp) as [flushed Ef].
    assert (Hsnoc : forall number,
               forallb wellFormedEntry (pending ++ [(line, number)]) = true).
    { intros number. rewrite forallb_app, Hp. simpl.
      unfold wellFormedEntry. simpl. rewrite Hline. reflexivity. }
    unfold wellFormedLine in Hline.
    destruct (DiffLine.type line).
    + rewrite Ef. cbn [bind].
      destruct (DiffLine.oldLineNumber line); [| discriminate Hline].
      destruct (DiffLine.newLineNumber line); [| discriminate Hline].
      simpl. apply IH; [exact Hrest | reflexivity].
    + apply IH; [exact Hrest | apply Hsnoc].
    + apply IH; [exact Hrest | apply Hsnoc].
    + rewrite Ef. cbn [bind]. apply IH; [exact Hrest | reflexivity].
    + discriminate Hline.
Qed.

(** A malformed line anywhere in the rest of the hunk is fatal. *)
Lemma hunkRowsLoop_fatal (start : Z) :
  forall (rest : list DiffLine.t) (num : Z) (rows : list DiffRow)
         (pending : list (DiffLine.t * Z)),
    existsb malformedLine rest = true ->
    exists e,
      hunkRowsLoop start file temporarySelection num rest rows pending
      = Fatal e.
Proof.
  induction rest as [| line rest IH]; intros num rows pending Hbad.
  - discriminate Hbad.
  - cbn [existsb] in Hbad. cbn [hunkRowsLoop].
    unfold malformedLine in Hbad.
    destruct (DiffLine.type line).
    + destruct (flushModifiedLines rows pending file temporarySelection)
        as [flushed | e]; cbn [bind]; [| eexists; reflexivity].
      destruct (DiffLine.oldLineNumber line), (DiffLine.newLineNumber line);
        simpl in *; try (eexists; reflexivity).
      apply IH, Hbad.
    + apply IH, Hbad.
    + apply IH, Hbad.
    + destruct (flushModifiedLines rows pending file temporarySelection)
        as [flushed | e]; cbn [bind]; [| eexists; reflexivity].
      apply IH, Hbad.
    + destruct (flushModifiedLines rows pending file temporarySelection)
        as [flushed | e]; cbn [bind]; eexists; reflexivity.
Qed.

(** The first malformed line of a hunk trips its own assertion. *)
Lemma hunkRowsLoop_first_malformed (start : Z) (bad : DiffLine.t)
      (after : list DiffLine.t) :
  malformedLine bad = true ->
  forall (before : list DiffLine.t) (num : Z) (rows : list DiffRow)
         (pending : list (DiffLine.t * Z)),
    forallb wellFormedLine before = true ->
    forallb wellFormedEntry pending = true ->
    hunkRowsLoop start file temporarySelection num (before ++ bad :: after)
                 rows pending
    = Fatal (assertionTrippedBy bad).
Proof.
  intros Hbad.
  induction before as [| line before IH]; intros num rows pending Hbefore Hp;
    destruct (flushModifiedLines_total rows pending Hp) as [flushed Ef].
  - cbn [app hunkRowsLoop]. unfold malformedLine in Hbad.
    unfold assertionTrippedBy.
    destruct (DiffLine.type bad); try discriminate Hbad;
      rewrite Ef; cbn [bind]; [| reflexivity].
    destruct (DiffLine.oldLineNumber bad), (DiffLine.newLineNumber bad);
      try discriminate Hbad; reflexivity.
  - cbn [forallb] in Hbefore. apply andb_true_iff in Hbefore.
    destruct Hbefore as [Hline Hbefore]. cbn [app hunkRowsLoop].
    assert (Hsnoc : forall number,
               forallb wellFormedEntry (pending ++ [(line, number)]) = true).
    { intros number. rewrite forallb_app, Hp. simpl.
      unfold wellFormedEntry. simpl. rewrite Hline. reflexivity. }
    unfold wellFormedLine in Hline.
    destruct (DiffLine.type line).
    + rewrite Ef. cbn [bind].
      destruct (DiffLine.oldLineNumber line); [| discriminate Hline].
      destruct (DiffLine.newLineNumber line); [| discriminate Hline].
      simpl. apply IH; [exact Hbefore | reflexivity].
    + apply IH; [exact Hbefore | apply Hsnoc].
    + apply IH; [exact Hbefore | apply Hsnoc].
    + rewrite Ef. cbn [bind]. apply IH; [exact Hbefore | reflexivity].
    + discriminate Hline.
Qed.

End Totality.

(** ** The Diff Row Builder *)

Section BuilderTheorems.

Context {DiffSelection : Type} `{DiffSelectionOps DiffSelection}.
Context `{TemporarySelectionOps}.

(** Well-formed hunks all yield rows. *)
Lemma getDiffRowsLoop_total (file : @ChangedFile DiffSelection)
      (temporarySelection : option ISelection.t) :
  forall (remainingHunks : list DiffHunk) (rows : list DiffRow),
    forallb (fun hunk => forallb wellFormedLine (lines hunk)) remainingHunks
    = true ->
    exists result,
      getDiffRowsLoop remainingHunks file temporarySelection rows = Ok result.
Proof.
  induction remainingHunks as [| hunk remainingHunks IH]; intros rows Hwf.
  - eexists. reflexivity.
  - cbn [forallb] in Hwf. apply andb_true_iff in Hwf.
    destruct Hwf as [Hhunk Hrest]. cbn [getDiffRowsLoop].
    unfold getDiffRowsFromHunk.
    destruct (hunkRowsLoop_total file temporarySelection
                (unifiedDiffStart hunk) (lines hunk) 0 [] [] Hhunk eq_refl)
      as [fromHunk E].
    rewrite E. cbn [bind]. apply IH, Hrest.
Qed.

(** A diff whose lines carry the numbers their kinds require is turned
    into rows: the builder does not fail on it. *)
Lemma getDiffRows_total (diff : ITextDiff)
      (file : @ChangedFile DiffSelection)
      (temporarySelection : option ISelection.t) :
  forallb (fun hunk => forallb wellFormedLine (lines hunk)) (hunks diff)
  = true ->
  exists rows, getDiffRows diff file temporarySelection = Ok rows.
Proof. intros Hwf. apply getDiffRowsLoop_total, Hwf. Qed.

(** C1.  Whatever the hunks of a diff and the kinds of their lines, the
    rows the builder produces conserve the change lines: the number of
    Added rows plus the number of Deleted rows plus twice the number of
    Modified rows is the number of input lines of type Add or Delete. *)
Theorem getDiffRows_conserves_change_lines (diff : ITextDiff)
        (file : @ChangedFile DiffSelection)
        (temporarySelection : option ISelection.t) (rows : list DiffRow) :
  getDiffRows diff file temporarySelection = Ok rows ->
  (countRows isAddedRow rows + countRows isDeletedRow rows
   + 2 * countRows isModifiedRow rows)%nat
  = changeLinesOfDiff diff.
Proof.
  unfold getDiffRows. intros E.
  apply getDiffRowsLoop_count in E. exact E.
Qed.

Lemma rowsOfSegments_flagged (file : @ChangedFile DiffSelection)
      (temporarySelection : option ISelection.t) :
  forall (segments : list Segment) (perSegment : list (list DiffRow)),
    rowsOfSegments file temporarySelection segments = Ok perSegment ->
    Forall2 (fun segment segmentRows =>
               rowsOfSegment file temporarySelection segment = Ok segmentRows
               /\ segmentFlagged segment segmentRows)
            segments perSegment.
Proof.
  induction segments as [| segment segments IH]; intros perSegment E.
  - simpl in E. injection E as <-. constructor.
  - cbn [rowsOfSegments] in E. invert_binds. subst.
    constructor; [| apply IH; assumption].
    split; [exact Estep |].
    destruct segment as [run | line]; simpl in Estep |- *.
    + split.
      * eapply getModifiedRows_flag, Estep.
      * eapply getModifiedRows_modified, Estep.
    + destruct (DiffLine.type line);
        try destruct (DiffLine.oldLineNumber line);
        try destruct (DiffLine.newLineNumber line);
        invert_binds; subst; reflexivity.
Qed.

(** C2.  The rows of a hunk are the rows of its maximal runs of Add/Delete
    lines and of the lines between them, in order; on every Modified row
    that comes from a run the diff-highlight flag is the same value, true
    exactly when the run has as many Add lines as Delete lines (and no
    Modified row comes from anywhere else). *)
Theorem getDiffRowsFromHunk_flags_runs (hunk : DiffHunk)
        (file : @ChangedFile DiffSelection)
        (temporarySelection : option ISelection.t) (rows : list DiffRow) :
  getDiffRowsFromHunk hunk file temporarySelection = Ok rows ->
  exists perSegment : list (list DiffRow),
    rows = concat perSegment
    /\ Forall2 (fun segment segmentRows =>
                  rowsOfSegment file temporarySelection segment
                  = Ok segmentRows
                  /\ segmentFlagged segment segmentRows)
               (segmentsOfHunk hunk) perSegment.
Proof.
  unfold getDiffRowsFromHunk, segmentsOfHunk. intros E.
  rewrite hunkRowsLoop_segments in E. invert_binds. subst.
  exists value. split; [reflexivity |].
  apply rowsOfSegments_flagged, Estep.
Qed.

(** C7.  When a hunk is turned into rows, its Context rows are, in order,
    those of its Context lines, each with the line's old number as before
    number and its new number as after number.  A Context line that misses
    a number, or a line of no known kind, makes the builder fail fatally;
    the first such line of a hunk trips its own assertion; and a hunk
    whose lines are all well formed never fails. *)
Theorem getDiffRowsFromHunk_context_rows (hunk : DiffHunk)
        (file : @ChangedFile DiffSelection)
        (temporarySelection : option ISelection.t) :
  (forall rows,
      getDiffRowsFromHunk hunk file temporarySelection = Ok rows ->
      filter isContextRow rows = expectedContextRows (lines hunk))
  /\ (existsb malformedLine (lines hunk) = true ->
      exists e, getDiffRowsFromHunk hunk file temporarySelection = Fatal e)
  /\ (forall before bad after,
         lines hunk = before ++ bad :: after ->
         forallb wellFormedLine before = true ->
         malformedLine bad = true ->
         getDiffRowsFromHunk hunk file temporarySelection
         = Fatal (assertionTrippedBy bad))
  /\ (forallb wellFormedLine (lines hunk) = true ->
      exists rows, getDiffRowsFromHunk hunk file temporarySelection = Ok rows).
Proof.
  unfold getDiffRowsFromHunk. repeat split.
  - intros rows E. apply hunkRowsLoop_context in E. exact E.
  - intros Hbad. apply hunkRowsLoop_fatal, Hbad.
  - intros before bad after Elines Hbefore Hbad. rewrite Elines.
    apply hunkRowsLoop_first_malformed;
      [exact Hbad | exact Hbefore | reflexivity].
  - intros Hwf. apply hunkRowsLoop_total; [exact Hwf | reflexivity].
Qed.

(** C3.  For a file that owns a persisted selection, the displayed state
    of a line under a transient selection is persisted-selected OR
    inside the transient range when the intent is select, persisted-selected
    AND NOT inside the transient range when the intent is deselect; with no
    transient selection it is the persisted state. *)
Theorem isInSelection_overlays_transient (diffLineNumber : Z) (id : string)
        (persisted : DiffSelection) (temporary : ISelection.t) :
  isInSelection diffLineNumber (WorkingDirectoryFileChange id persisted)
                (Some temporary)
  = (if ISelection.isSelected temporary
     then isSelected persisted diffLineNumber
          || isInTemporarySelection temporary diffLineNumber
     else isSelected persisted diffLineNumber
          && negb (isInTemporarySelection temporary diffLineNumber))
  /\ isInSelection diffLineNumber (WorkingDirectoryFileChange id persisted)
                   None
     = isSelected persisted diffLineNumber.
Proof. split; reflexivity. Qed.

(** C10.  On a file that is not selectable no line is displayed as
    selected, whatever the transient selection. *)
Theorem isInSelection_unselectable (diffLineNumber : Z)
        (file : @ChangedFile DiffSelection)
        (temporarySelection : option ISelection.t) :
  canSelect file = false ->
  isInSelection diffLineNumber file temporarySelection = false.
Proof. intros E. unfold isInSelection. rewrite E. reflexivity. Qed.

End BuilderTheorems.

Lemma getDiffRows_sample : getDiffRows sampleDiff sampleFile None = Ok sampleRows.
Proof. vm_compute. reflexivity. Qed.

Lemma getDiffRows_conserves_change_lines_witness :
  (countRows isAddedRow sampleRows + countRows isDeletedRow sampleRows
   + 2 * countRows isModifiedRow sampleRows)%nat
  = changeLinesOfDiff sampleDiff.
Proof.
  apply (getDiffRows_conserves_change_lines sampleDiff sampleFile None).
  vm_compute. reflexivity.
Defined.

Lemma getDiffRowsFromHunk_flags_runs_witness :
  exists perSegment : list (list DiffRow),
    sampleRows = concat perSegment
    /\ Forall2 (fun segment segmentRows =>
                  rowsOfSegment sampleFile None segment = Ok segmentRows
                  /\ segmentFlagged segment segmentRows)
               (segmentsOfHunk sampleHunk) perSegment.
Proof.
  apply (getDiffRowsFromHunk_flags_runs sampleHunk sampleFile None).
  vm_compute. reflexivity.
Defined.

Lemma getDiffRowsFromHunk_context_rows_witness :
  filter isContextRow sampleRows = [ContextRow "a" 1 1; ContextRow "e" 4 3]
  /\ (exists e, getDiffRowsFromHunk brokenContextHunk sampleFile None = Fatal e)
  /\ getDiffRowsFromHunk brokenContextHunk sampleFile None
     = Fatal NonNullableAssertion
  /\ (exists rows, getDiffRowsFromHunk sampleHunk sampleFile None = Ok rows).
Proof.
  destruct (getDiffRowsFromHunk_context_rows sampleHunk sampleFile None)
    as [Hrows [_ [_ Htotal]]].
  destruct (getDiffRowsFromHunk_context_rows brokenContextHunk sampleFile None)
    as [_ [Hfatal [Hfirst _]]].
  split; [| split; [| split]].
  - apply Hrows. vm_compute. reflexivity.
  - apply Hfatal. vm_compute. reflexivity.
  - apply (Hfirst [ sampleLine Hunk "@@ -1,2 +1,2 @@" None None;
                    sampleLine Delete "a" (Some 1) None ]
                  (sampleLine Context "b" (Some 2) None) []);
      reflexivity.
  - apply Htotal. vm_compute. reflexivity.
Defined.

Lemma isInSelection_unselectable_witness :
  isInSelection 3 committedFile (Some sampleDrag) = false.
Proof. apply isInSelection_unselectable. reflexivity. Defined.

(** ** The Selection Range Tracker *)

Section TrackerTheorems.

Context {DiffSelection : Type} `{DiffSelectionOps DiffSelection}.
Context `{TemporarySelectionOps}.
Context {ITokens IFileContents : Type}.

(** Releasing the pointer on a selectable file with a registered
    collaborator: the transient selection is folded into one range update
    and discarded. *)
Lemma onEndSelection_reports (props : @ISideBySideDiffProps DiffSelection) (state : @ISideBySideDiffState ITokens)
      (id : string) (persisted : DiffSelection) (callback : Callback)
      (current : ISelection.t) :
  file props = WorkingDirectoryFileChange id persisted ->
  onIncludeChanged props = Some callback ->
  selection state = Some current ->
  onEndSelection props state
  = (setSelection state None,
     [CallOnIncludeChanged callback
        (withRangeSelection persisted
           (Z.min (ISelection.from current) (ISelection.to current))
           (Z.max (ISelection.from current) (ISelection.to current)
            - Z.min (ISelection.from current) (ISelection.to current) + 1)
           (ISelection.isSelected current))]).
Proof.
  intros Efile Ecallback Eselection. unfold onEndSelection.
  rewrite Efile, Ecallback, Eselection. reflexivity.
Qed.

(** A whole gesture on a selectable file with a registered collaborator. *)
Lemma dragGesture_reports (props : @ISideBySideDiffProps DiffSelection)
      (state : @ISideBySideDiffState ITokens)
      (id : string) (persisted : DiffSelection) (callback : Callback)
      (anchor current : Z) (select : bool) :
  file props = WorkingDirectoryFileChange id persisted ->
  onIncludeChanged props = Some callback ->
  dragGesture props anchor current select state
  = (setSelection state None,
     [AddMouseUpListenerOnce;
      CallOnIncludeChanged callback
        (withRangeSelection persisted (Z.min anchor current)
           (Z.max anchor current - Z.min anchor current + 1) select)]).
Proof.
  intros Efile Ecallback.
  unfold dragGesture, onStartSelection, onUpdateSelection.
  cbn [setSelection selection ISelection.from ISelection.to
       ISelection.isSelected].
  erewrite onEndSelection_reports;
    [| exact Efile | exact Ecallback | reflexivity].
  reflexivity.
Qed.

(** C4.  Ending a drag with anchor [a] and current line [c] reports exactly
    one range update of the persisted selection, over the inclusive range
    from [min a c] to [max a c] with the intent of the drag, and discards
    the transient selection; the update is the same when anchor and
    current line are exchanged, also for the whole gesture from
    pointer-down to pointer-up. *)
Theorem onEndSelection_range_update (props : @ISideBySideDiffProps DiffSelection) (state state' : @ISideBySideDiffState ITokens)
        (id : string) (persisted : DiffSelection) (callback : Callback)
        (a c : Z) (intent : bool) :
  file props = WorkingDirectoryFileChange id persisted ->
  onIncludeChanged props = Some callback ->
  selection state
  = Some {| ISelection.from := a; ISelection.to := c;
            ISelection.isSelected := intent |} ->
  selection state'
  = Some {| ISelection.from := c; ISelection.to := a;
            ISelection.isSelected := intent |} ->
  onEndSelection props state
  = (setSelection state None,
     [CallOnIncludeChanged callback
        (withRangeSelection persisted (Z.min a c)
                            (Z.max a c - Z.min a c + 1) intent)])
  /\ snd (onEndSelection props state') = snd (onEndSelection props state)
  /\ selection (fst (onEndSelection props state')) = None
  /\ snd (dragGesture props a c intent state)
     = [AddMouseUpListenerOnce;
        CallOnIncludeChanged callback
          (withRangeSelection persisted (Z.min a c)
                              (Z.max a c - Z.min a c + 1) intent)]
  /\ snd (dragGesture props c a intent state)
     = snd (dragGesture props a c intent state).
Proof.
  intros Efile Ecallback Estate Estate'.
  rewrite (onEndSelection_reports props state id persisted callback _
             Efile Ecallback Estate).
  rewrite (onEndSelection_reports props state' id persisted callback _
             Efile Ecallback Estate').
  cbn [ISelection.from ISelection.to ISelection.isSelected fst snd].
  rewrite !(dragGesture_reports props state id persisted callback _ _ _
              Efile Ecallback).
  cbn [fst snd]. rewrite (Z.min_comm c a), (Z.max_comm c a).
  repeat split; reflexivity.
Qed.

(** C5 (as the code has it).  With no include-changed collaborator
    registered, releasing the pointer reports no update, so the persisted
    selection is not changed, and leaves the component state as it is: the
    handler returns before it resets the transient selection. *)
Theorem onEndSelection_read_only (props : @ISideBySideDiffProps DiffSelection) (state : @ISideBySideDiffState ITokens) :
  onIncludeChanged props = None ->
  onEndSelection props state = (state, []).
Proof.
  intros Ecallback. unfold onEndSelection. rewrite Ecallback.
  destruct (canSelect (file props)); simpl; [| reflexivity].
  destruct (selection state); reflexivity.
Qed.

Lemma handlePointerEvent_dragging (state : @ISideBySideDiffState ITokens) (event : PointerEvent) :
  selection state <> None ->
  selection (handlePointerEvent state event) <> None
  /\ (hoveredHunk (handlePointerEvent state event) = hoveredHunk state
      \/ hoveredHunk (handlePointerEvent state event) = None).
Proof.
  intros Hdrag.
  destruct event as [lineNumber | hunkStartLine |]; simpl;
    unfold onUpdateSelection, onMouseEnterHunk, onMouseLeaveHunk;
    destruct (selection state) as [current |] eqn:E;
    try congruence; simpl; try rewrite E;
    split; auto; discriminate.
Qed.

Lemma handlePointerEvents_dragging (events : list PointerEvent) :
  forall state : @ISideBySideDiffState ITokens,
    selection state <> None ->
    selection (handlePointerEvents state events) <> None
    /\ (hoveredHunk (handlePointerEvents state events) = hoveredHunk state
        \/ hoveredHunk (handlePointerEvents state events) = None).
Proof.
  unfold handlePointerEvents.
  induction events as [| event events IH]; intros state Hdrag; simpl.
  - split; auto.
  - destruct (handlePointerEvent_dragging state event Hdrag) as [Hnext Hhover].
    destruct (IH _ Hnext) as [Hlast Hhover'].
    split; [exact Hlast |].
    destruct Hhover' as [-> | ->]; auto.
Qed.

(** C8 (as the code has it).  Entering a hunk header while no drag is
    active makes that hunk the hovered one.  Starting a drag makes the
    transient selection active and keeps the hover indicator as it was.
    While a drag is active entering a hunk header changes nothing, and
    after any sequence of pointer events the drag is still active and the
    hover indicator is either the one the drag started with or none: it
    never becomes a new hunk. *)
Theorem hover_during_drag (state : @ISideBySideDiffState ITokens) :
  (forall hunkStartLine,
      selection state = None ->
      hoveredHunk (onMouseEnterHunk hunkStartLine state)
      = Some hunkStartLine)
  /\ (forall lineNumber select,
         hoveredHunk (fst (onStartSelection (DiffSelection := DiffSelection)
                            lineNumber select state))
         = hoveredHunk state
         /\ selection (fst (onStartSelection (DiffSelection := DiffSelection)
                            lineNumber select state))
            <> None)
  /\ (forall hunkStartLine,
         selection state <> None ->
         onMouseEnterHunk hunkStartLine state = state)
  /\ (forall lineNumber select events,
         let dragged :=
           handlePointerEvents
             (fst (onStartSelection (DiffSelection := DiffSelection)
                            lineNumber select state)) events in
         selection dragged <> None
         /\ (hoveredHunk dragged = hoveredHunk state
             \/ hoveredHunk dragged = None)).
Proof.
  split; [| split; [| split]].
  - intros hunkStartLine Eidle. unfold onMouseEnterHunk.
    rewrite Eidle. reflexivity.
  - intros lineNumber select. split; [reflexivity | simpl; discriminate].
  - intros hunkStartLine Hdrag. unfold onMouseEnterHunk.
    destruct (selection state); [reflexivity | congruence].
  - intros lineNumber select events dragged. subst dragged.
    destruct (handlePointerEvents_dragging events
                (fst (onStartSelection (DiffSelection := DiffSelection)
                                       lineNumber select state)))
      as [Hactive Hhover]; [simpl; discriminate |].
    split; [exact Hactive | exact Hhover].
Qed.

End TrackerTheorems.

(** ** The reference model of the persisted selection *)

Lemma range_indices (from length line : Z) :
  existsb (Z.eqb line)
          (map (fun offset => from + Z.of_nat offset) (seq 0 (Z.to_nat length)))
  = inRange from length line.
Proof.
  apply eq_iff_eq_true. unfold inRange.
  rewrite existsb_exists, andb_true_iff, Z.leb_le, Z.ltb_lt. split.
  - intros [index [Hin Eline]]. apply Z.eqb_eq in Eline. subst line.
    apply in_map_iff in Hin. destruct Hin as [offset [<- Hoffset]].
    apply in_seq in Hoffset. lia.
  - intros [Hlow Hhigh]. exists line. split; [| apply Z.eqb_refl].
    apply in_map_iff. exists (Z.to_nat (line - from)). split; [lia |].
    apply in_seq. lia.
Qed.

Lemma deselected_indices (from length line : Z) (selected : LineSet) :
  existsb (Z.eqb line)
          (filter (fun candidate => negb (inRange from length candidate))
                  selected)
  = if inRange from length line then false
    else existsb (Z.eqb line) selected.
Proof.
  induction selected as [| candidate selected IH]; simpl.
  - destruct (inRange from length line); reflexivity.
  - destruct (inRange from length candidate) eqn:Ecandidate; simpl;
      rewrite IH; destruct (Z.eqb_spec line candidate) as [-> | Hother];
      try rewrite Ecandidate; simpl; try reflexivity;
      destruct (inRange from length line); reflexivity.
Qed.

#[export] Instance LineSetLaws : DiffSelectionLaws LineSet.
Proof.
  split.
  - intros selected from length select line. simpl.
    destruct select.
    + rewrite existsb_app, range_indices.
      destruct (inRange from length line); reflexivity.
    + apply deselected_indices.
  - reflexivity.
Qed.

Section RangeCoverage.

Context {DiffSelection : Type} `{DiffSelectionLaws DiffSelection}.
Context {ITokens : Type}.

(** When the persisted selection obeys the laws of range updates, the
    selection reported at the end of a drag selects or deselects exactly
    the lines between the smaller and the larger of anchor and current
    line, both included. *)
Lemma onEndSelection_covers_range
      (props : @ISideBySideDiffProps DiffSelection)
      (state : @ISideBySideDiffState ITokens)
      (id : string) (persisted : DiffSelection) (callback : Callback)
      (current : ISelection.t) :
  file props = WorkingDirectoryFileChange id persisted ->
  onIncludeChanged props = Some callback ->
  selection state = Some current ->
  exists reported,
    snd (onEndSelection props state) = [CallOnIncludeChanged callback reported]
    /\ forall line,
        isSelected reported line
        = if (Z.min (ISelection.from current) (ISelection.to current) <=? line)
             && (line <=? Z.max (ISelection.from current)
                                (ISelection.to current))
          then ISelection.isSelected current
          else isSelected persisted line.
Proof.
  intros Efile Ecallback Eselection.
  rewrite (onEndSelection_reports props state id persisted callback current
             Efile Ecallback Eselection).
  eexists. split; [reflexivity |]. intros line.
  rewrite isSelected_withRangeSelection. unfold inRange.
  replace (line <? Z.min (ISelection.from current) (ISelection.to current)
                   + (Z.max (ISelection.from current) (ISelection.to current)
                      - Z.min (ISelection.from current) (ISelection.to current)
                      + 1))
    with (line <=? Z.max (ISelection.from current) (ISelection.to current));
    [reflexivity |].
  apply eq_iff_eq_true. rewrite Z.leb_le, Z.ltb_lt. lia.
Qed.

End RangeCoverage.

Lemma onEndSelection_range_update_witness :
  onEndSelection sampleProps draggingState
  = (setSelection draggingState None,
     [CallOnIncludeChanged 1%nat
        (withRangeSelection [2; 3] (Z.min 7 3) (Z.max 7 3 - Z.min 7 3 + 1)
                            true)])
  /\ snd (onEndSelection sampleProps reversedDraggingState)
     = snd (onEndSelection sampleProps draggingState)
  /\ selection (fst (onEndSelection sampleProps reversedDraggingState)) = None
  /\ snd (dragGesture sampleProps 7 3 true draggingState)
     = [AddMouseUpListenerOnce;
        CallOnIncludeChanged 1%nat
          (withRangeSelection [2; 3] (Z.min 7 3) (Z.max 7 3 - Z.min 7 3 + 1)
                              true)]
  /\ snd (dragGesture sampleProps 3 7 true draggingState)
     = snd (dragGesture sampleProps 7 3 true draggingState).
Proof.
  apply (onEndSelection_range_update
           sampleProps draggingState reversedDraggingState
           "file-1" [2; 3] 1%nat 7 3 true);
    reflexivity.
Defined.

(** C5, counterexample.  In read-only mode the handler leaves the drag in
    place: after pointer-up the transient selection of the sample drag is
    still there. *)
Lemma onEndSelection_read_only_keeps_drag :
  ~ (selection (fst (onEndSelection readOnlyProps draggingState)) = None
     /\ snd (onEndSelection readOnlyProps draggingState) = []).
Proof. intros [Ereset _]. vm_compute in Ereset. discriminate Ereset. Qed.

Lemma onEndSelection_read_only_witness :
  onEndSelection readOnlyProps draggingState = (draggingState, []).
Proof. apply (onEndSelection_read_only readOnlyProps). reflexivity. Defined.

(** C8, counterexample.  Starting a drag while hunk 5 is hovered does not
    clear the hover indicator. *)
Lemma onStartSelection_keeps_hover :
  hoveredHunk (fst (onStartSelection (DiffSelection := LineSet)
                                     7 true hoveringState))
  <> None.
Proof. vm_compute. discriminate. Qed.

Lemma hover_during_drag_witness :
  hoveredHunk (onMouseEnterHunk 9 hoveringState) = Some 9
  /\ onMouseEnterHunk 9 draggingState = draggingState.
Proof.
  split.
  - apply (@hover_during_drag LineSet string hoveringState). reflexivity.
  - apply (@hover_during_drag LineSet string draggingState). discriminate.
Defined.

(** ** Background tokenization *)

Section TokenizationTheorems.

Context {DiffSelection : Type} `{DiffSelectionOps DiffSelection}.
Context {ITokens IFileContents : Type}.

Variable objects : PropsRef -> @ISideBySideDiffProps DiffSelection.

(** [highlightParametersEqual] compares the file identity and the diff
    text: the same props object has the same two. *)
Lemma highlightParametersEqual_inputs (newProps prevProps : PropsRef) :
  highlightParametersEqual objects newProps prevProps = true
  <-> highlightInputs objects newProps = highlightInputs objects prevProps.
Proof.
  unfold highlightParametersEqual, highlightInputs. split.
  - intros E. apply orb_true_iff in E. destruct E as [E | E].
    + apply Nat.eqb_eq in E. subst. reflexivity.
    + apply andb_true_iff in E. destruct E as [Eid Etext].
      apply String.eqb_eq in Eid. apply String.eqb_eq in Etext.
      rewrite Eid, Etext. reflexivity.
  - intros E. injection E as Eid Etext.
    apply orb_true_iff. right. apply andb_true_iff.
    split; apply String.eqb_eq; assumption.
Qed.

Lemma highlightParametersEqual_stale (newProps prevProps : PropsRef) :
  highlightInputs objects newProps <> highlightInputs objects prevProps ->
  highlightParametersEqual objects newProps prevProps = false.
Proof.
  intros Hstale.
  destruct (highlightParametersEqual objects newProps prevProps) eqn:E;
    [| reflexivity].
  apply highlightParametersEqual_inputs in E. contradiction.
Qed.

(** C6.  A tokenization pass keeps the props it was issued with as its
    snapshot.  If the file identity or the diff text of the current props
    differs from the snapshot's when the file contents arrive, the pass
    returns there; if it differs when the tokens arrive, the tokens are
    dropped; in both cases the component is left as it is.  The pass
    changes the component only if the inputs equal the snapshot's at both
    completions, and then it stores the two token streams. *)
Theorem tokenizationPass_discards_stale
        (issued atContents atTokens : @Component ITokens)
        (contents : IFileContents) (oldTokens newTokens : ITokens) :
  (highlightInputs objects (thisProps atContents)
   <> highlightInputs objects (thisProps issued) ->
   afterGetFileContents objects atContents (initDiffSyntaxMode issued) contents
   = Returned
   /\ tokenizationPass objects issued atContents atTokens
                       contents oldTokens newTokens
      = atTokens)
  /\ (highlightInputs objects (thisProps atTokens)
      <> highlightInputs objects (thisProps issued) ->
      afterHighlightContents objects atTokens
        (AwaitingHighlight (thisProps issued) contents) oldTokens newTokens
      = (atTokens, Returned)
      /\ tokenizationPass objects issued atContents atTokens
                          contents oldTokens newTokens
         = atTokens)
  /\ (tokenizationPass objects issued atContents atTokens
                       contents oldTokens newTokens
      <> atTokens ->
      highlightInputs objects (thisProps atContents)
      = highlightInputs objects (thisProps issued)
      /\ highlightInputs objects (thisProps atTokens)
         = highlightInputs objects (thisProps issued))
  /\ (highlightInputs objects (thisProps atContents)
      = highlightInputs objects (thisProps issued) ->
      highlightInputs objects (thisProps atTokens)
      = highlightInputs objects (thisProps issued) ->
      tokenizationPass objects issued atContents atTokens
                       contents oldTokens newTokens
      = {| thisProps := thisProps atTokens;
           thisState := setTokens (thisState atTokens)
                                  oldTokens newTokens |}).
Proof.
  unfold tokenizationPass, initDiffSyntaxMode.
  cbn [afterGetFileContents afterHighlightContents].
  split; [| split; [| split]].
  - intros Hstale.
    rewrite (highlightParametersEqual_stale _ _ Hstale). simpl. auto.
  - intros Hstale.
    rewrite (highlightParametersEqual_stale _ _ Hstale). simpl.
    split; [reflexivity |].
    destruct (highlightParametersEqual objects (thisProps atContents)
                                       (thisProps issued)); simpl;
      [rewrite (highlightParametersEqual_stale _ _ Hstale) |]; reflexivity.
  - destruct (highlightParametersEqual objects (thisProps atContents)
                                       (thisProps issued)) eqn:Efirst;
      simpl; [| congruence].
    destruct (highlightParametersEqual objects (thisProps atTokens)
                                       (thisProps issued)) eqn:Esecond;
      simpl; [| congruence].
    intros _. split; apply highlightParametersEqual_inputs; assumption.
  - intros Efirst Esecond.
    apply highlightParametersEqual_inputs in Efirst, Esecond.
    rewrite Efirst. simpl. rewrite Esecond. reflexivity.
Qed.

End TokenizationTheorems.

Lemma tokenizationPass_discards_stale_witness :
  (afterGetFileContents sampleObjects (componentShowing 1)
     (initDiffSyntaxMode (componentShowing 0)) "contents"%string
   = Returned
   /\ tokenizationPass sampleObjects (componentShowing 0) (componentShowing 1)
        (componentShowing 1) "contents"%string "t1"%string "t2"%string
      = componentShowing 1)
  /\ (afterHighlightContents sampleObjects (componentShowing 1)
        (AwaitingHighlight 0%nat "contents"%string) "t1"%string "t2"%string
      = (componentShowing 1, Returned)
      /\ tokenizationPass sampleObjects (componentShowing 0)
           (componentShowing 0) (componentShowing 1)
           "contents"%string "t1"%string "t2"%string
         = componentShowing 1)
  /\ (highlightInputs sampleObjects 0%nat = highlightInputs sampleObjects 0%nat
      /\ highlightInputs sampleObjects 0%nat
         = highlightInputs sampleObjects 0%nat)
  /\ tokenizationPass sampleObjects (componentShowing 0) (componentShowing 0)
       (componentShowing 0) "contents"%string "t1"%string "t2"%string
     = {| thisProps := 0%nat;
          thisState := setTokens draggingState "t1"%string "t2"%string |}.
Proof.
  split; [| split; [| split]].
  - apply (tokenizationPass_discards_stale sampleObjects (componentShowing 0)
             (componentShowing 1) (componentShowing 1)
             "contents"%string "t1"%string "t2"%string).
    vm_compute. discriminate.
  - apply (tokenizationPass_discards_stale sampleObjects (componentShowing 0)
             (componentShowing 0) (componentShowing 1)
             "contents"%string "t1"%string "t2"%string).
    vm_compute. discriminate.
  - apply (tokenizationPass_discards_stale sampleObjects (componentShowing 0)
             (componentShowing 0) (componentShowing 0)
             "contents"%string "t1"%string "t2"%string).
    vm_compute. discriminate.
  - apply (tokenizationPass_discards_stale sampleObjects (componentShowing 0)
             (componentShowing 0) (componentShowing 0)
             "contents"%string "t1"%string "t2"%string);
      reflexivity.
Defined.

(** ** The clone dialog *)

Import CloneRepository.

(** While the destination-exists error is set, the Clone button is
    disabled. *)
Lemma disabled_while_destination_exists (state : ICloneRepositoryState)
      (current : Error.t) :
  error state = Some current ->
  Error.name current = DestinationExistsErrorName ->
  disabled state = true.
Proof.
  intros Eerror Ename. unfold disabled. rewrite Eerror, Ename.
  rewrite String.eqb_refl. rewrite !orb_true_r. reflexivity.
Qed.

(** C9.  When a path-existence check completes: if the checked path is no
    longer the current path the dialog state is unchanged; otherwise, if the
    path exists, the error becomes the destination-exists error, and
    whenever that named error is set the Clone button is disabled; if the
    path does not exist the error is cleared.  The other fields of the
    state are kept. *)
Theorem checkPathValid_applies_current_check (state : ICloneRepositoryState)
        (newPath : string) (found : bool) :
  (path state <> newPath ->
   checkPathValidCompleted state newPath found = state)
  /\ (path state = newPath -> found = true ->
      error (checkPathValidCompleted state newPath found)
      = Some {| Error.name := DestinationExistsErrorName;
                Error.message := "The destination already exists." |}
      /\ disabled (checkPathValidCompleted state newPath found) = true)
  /\ (forall (shown : ICloneRepositoryState) (current : Error.t),
         error shown = Some current ->
         Error.name current = DestinationExistsErrorName ->
         disabled shown = true)
  /\ (path state = newPath -> found = false ->
      error (checkPathValidCompleted state newPath found) = None)
  /\ (url (checkPathValidCompleted state newPath found) = url state
      /\ path (checkPathValidCompleted state newPath found) = path state
      /\ loading (checkPathValidCompleted state newPath found) = loading state
      /\ lastParsedIdentifier (checkPathValidCompleted state newPath found)
         = lastParsedIdentifier state).
Proof.
  unfold checkPathValidCompleted.
  split; [| split; [| split; [| split]]].
  - intros Hchanged. apply String.eqb_neq in Hchanged.
    rewrite Hchanged. reflexivity.
  - intros Esame Efound. apply String.eqb_eq in Esame.
    rewrite Esame, Efound. simpl. split; [reflexivity |].
    eapply disabled_while_destination_exists; reflexivity.
  - apply disabled_while_destination_exists.
  - intros Esame Efound. apply String.eqb_eq in Esame.
    rewrite Esame, Efound. reflexivity.
  - destruct (String.eqb (path state) newPath); simpl; auto.
Qed.

Lemma checkPathValid_applies_current_check_witness :
  checkPathValidCompleted sampleCloneState "/tmp/elsewhere" true
  = sampleCloneState
  /\ (error (checkPathValidCompleted sampleCloneState
                                     "/home/hubot/cool-repo" true)
      = Some {| Error.name := DestinationExistsErrorName;
                Error.message := "The destination already exists." |}
      /\ disabled (checkPathValidCompleted sampleCloneState
                                           "/home/hubot/cool-repo" true)
         = true)
  /\ disabled collidingCloneState = true
  /\ error (checkPathValidCompleted collidingCloneState
                                    "/home/hubot/cool-repo" false)
     = None.
Proof.
  split; [| split; [| split]].
  - apply (checkPathValid_applies_current_check
             sampleCloneState "/tmp/elsewhere" true).
    vm_compute. discriminate.
  - apply (checkPathValid_applies_current_check
             sampleCloneState "/home/hubot/cool-repo" true);
      reflexivity.
  - apply (proj1 (proj2 (proj2 (checkPathValid_applies_current_check
                                  sampleCloneState "/tmp/elsewhere" true)))
             collidingCloneState
             {| Error.name := "DestinationExistsError";
                Error.message := "The destination already exists." |});
      reflexivity.
  - apply (checkPathValid_applies_current_check
             collidingCloneState "/home/hubot/cool-repo" false);
      reflexivity.
Defined.


(* ================================================================== *)
(** * Part III: further properties of the code                         *)
(* ================================================================== *)

(** ** Pairing by position *)

Lemma skipn_nth_error {A : Type} (xs : list A) :
  forall (n : nat) (x : A),
    nth_error xs n = Some x -> skipn n xs = x :: skipn (S n) xs.
Proof.
  induction xs as [| y xs IH]; intros n x E.
  - destruct n; discriminate E.
  - destruct n as [| n].
    + simpl in E. injection E as ->. reflexivity.
    + simpl in E. apply IH in E. simpl. exact E.
Qed.

Lemma element_skipn {A : Type} (xs : list A) (n : nat) (x : A) :
  element xs n = Ok x -> skipn n xs = x :: skipn (S n) xs.
Proof.
  unfold element. destruct (nth_error xs n) as [y |] eqn:E; intros Eok.
  - injection Eok as <-. apply skipn_nth_error, E.
  - discriminate Eok.
Qed.

Lemma pairRows_no_deleted (added : list IDiffRowData.t)
      (hunkStartLine : Z) (flag : bool) :
  pairRows [] added hunkStartLine flag
  = map (fun after => AddedRow after hunkStartLine) added.
Proof. reflexivity. Qed.

Section PairingProperties.

Context {DiffSelection : Type} `{DiffSelectionOps DiffSelection}.
Context `{TemporarySelectionOps}.

Variable file : @ChangedFile DiffSelection.
Variable temporarySelection : option ISelection.t.

Lemma getDataFromLine_shown (entry : DiffLine.t * Z) (lineToUse : LineToUse)
      (data : IDiffRowData.t) :
  getDataFromLine entry lineToUse file temporarySelection = Ok data ->
  shownData (lineNumberOf lineToUse) file temporarySelection entry = [data].
Proof.
  destruct entry as [line number]. unfold getDataFromLine, shownData. simpl.
  destruct (lineNumberOf lineToUse line); simpl; intros E.
  - injection E as <-. reflexivity.
  - discriminate E.
Qed.

Lemma getDataFromLine_shown_old (entry : DiffLine.t * Z)
      (data : IDiffRowData.t) :
  getDataFromLine entry UseOldLineNumber file temporarySelection = Ok data ->
  shownData DiffLine.oldLineNumber file temporarySelection entry = [data].
Proof. apply getDataFromLine_shown. Qed.

Lemma getDataFromLine_shown_new (entry : DiffLine.t * Z)
      (data : IDiffRowData.t) :
  getDataFromLine entry UseNewLineNumber file temporarySelection = Ok data ->
  shownData DiffLine.newLineNumber file temporarySelection entry = [data].
Proof. apply getDataFromLine_shown. Qed.

(** Turns the successful steps of one iteration into equations on what is
    left of the two arrays. *)
Ltac shown_steps :=
  repeat match goal with
         | Ee : element _ _ = Ok _ |- _ =>
             rewrite (element_skipn _ _ _ Ee); clear Ee
         | Ed : getDataFromLine _ UseOldLineNumber _ _ = Ok _ |- _ =>
             apply getDataFromLine_shown_old in Ed
         | Ed : getDataFromLine _ UseNewLineNumber _ _ = Ok _ |- _ =>
             apply getDataFromLine_shown_new in Ed
         end;
  cbn [flat_map] in *;
  repeat match goal with
         | Es : shownData _ _ _ _ = [_] |- _ => rewrite Es; clear Es
         end.

(** What the loop of [getModifiedRows] pushes from index [numLine] on is
    the positional pairing of the deleted and the added lines not yet
    visited. *)
Lemma modifiedRowsLoop_pairs (addedLines deletedLines : list (DiffLine.t * Z))
      (hunkStartLine : Z) (flag : bool) :
  forall (remaining numLine : nat) (output rows : list DiffRow),
    (Nat.max (length addedLines) (length deletedLines)
     <= numLine + remaining)%nat ->
    modifiedRowsLoop remaining addedLines deletedLines hunkStartLine flag
                     file temporarySelection numLine output = Ok rows ->
    rows
    = output
      ++ pairRows
           (flat_map (shownData DiffLine.oldLineNumber file temporarySelection)
                     (skipn numLine deletedLines))
           (flat_map (shownData DiffLine.newLineNumber file temporarySelection)
                     (skipn numLine addedLines))
           hunkStartLine flag.
Proof.
  induction remaining as [| remaining IH]; intros numLine output rows Hfuel E.
  - simpl in E. injection E as <-.
    rewrite !skipn_all2 by lia. simpl. symmetry. apply app_nil_r.
  - cbn [modifiedRowsLoop] in E.
    destruct (Nat.ltb_spec numLine (length addedLines)) as [Ha | Ha];
      destruct (Nat.ltb_spec numLine (length deletedLines)) as [Hd | Hd];
      cbn [orb andb] in E; invert_binds; subst.
    + apply IH in E; [| lia]. rewrite E, <- app_assoc. f_equal.
      shown_steps. reflexivity.
    + apply IH in E; [| lia]. rewrite E, <- app_assoc. f_equal.
      shown_steps.
      rewrite (@skipn_all2 _ numLine deletedLines),
              (@skipn_all2 _ (S numLine) deletedLines) by lia.
      reflexivity.
    + apply IH in E; [| lia]. rewrite E, <- app_assoc. f_equal.
      shown_steps.
      rewrite (@skipn_all2 _ numLine addedLines),
              (@skipn_all2 _ (S numLine) addedLines) by lia.
      reflexivity.
    + rewrite !skipn_all2 by lia. simpl. symmetry. apply app_nil_r.
Qed.

(** When the loop succeeds, every line it was to visit carried the number
    its column shows. *)
Lemma modifiedRowsLoop_numbers (addedLines deletedLines : list (DiffLine.t * Z))
      (hunkStartLine : Z) (flag : bool) :
  forall (remaining numLine : nat) (output rows : list DiffRow),
    (Nat.max (length addedLines) (length deletedLines)
     <= numLine + remaining)%nat ->
    modifiedRowsLoop remaining addedLines deletedLines hunkStartLine flag
                     file temporarySelection numLine output = Ok rows ->
    length (flat_map (shownData DiffLine.oldLineNumber file temporarySelection)
                     (skipn numLine deletedLines))
    = (length deletedLines - numLine)%nat
    /\ length (flat_map (shownData DiffLine.newLineNumber
                                   file temporarySelection)
                        (skipn numLine addedLines))
       = (length addedLines - numLine)%nat.
Proof.
  induction remaining as [| remaining IH]; intros numLine output rows Hfuel E.
  - rewrite !skipn_all2 by lia. simpl. lia.
  - cbn [modifiedRowsLoop] in E.
    destruct (Nat.ltb_spec numLine (length addedLines)) as [Ha | Ha];
      destruct (Nat.ltb_spec numLine (length deletedLines)) as [Hd | Hd];
      cbn [orb andb] in E; invert_binds; subst;
      try (apply IH in E; [| lia]; destruct E as [Eold Enew]);
      shown_steps;
      rewrite ?(@skipn_all2 _ numLine deletedLines),
              ?(@skipn_all2 _ numLine addedLines) by lia;
      cbn [app length flat_map]; lia.
Qed.

(** The rows of a run as the pairing of its deleted and its added lines. *)
Lemma getModifiedRows_as_pairRows (run : list (DiffLine.t * Z))
      (rows : list DiffRow) :
  getModifiedRows run file temporarySelection = Ok rows ->
  rows
  = pairRows
      (flat_map (shownData DiffLine.oldLineNumber file temporarySelection)
                (filter isDelete run))
      (flat_map (shownData DiffLine.newLineNumber file temporarySelection)
                (filter isAdd run))
      (hd 0 (map snd run)) (addCount run =? deleteCount run)%nat
  /\ length (flat_map (shownData DiffLine.oldLineNumber
                                 file temporarySelection)
                      (filter isDelete run))
     = deleteCount run
  /\ length (flat_map (shownData DiffLine.newLineNumber
                                 file temporarySelection)
                      (filter isAdd run))
     = addCount run.
Proof.
  unfold getModifiedRows. destruct run as [| first run'].
  - intros E. injection E as <-. repeat split; reflexivity.
  - intros E. split.
    + apply modifiedRowsLoop_pairs in E; [| lia]. exact E.
    + apply modifiedRowsLoop_numbers in E; [| lia].
      unfold addCount, deleteCount. cbn [skipn] in E.
      rewrite !Nat.sub_0_r in E. exact E.
Qed.

End PairingProperties.

(** *** Facts about the pairing *)

Lemma pairRows_length (hunkStartLine : Z) (flag : bool) :
  forall deleted added : list IDiffRowData.t,
    length (pairRows deleted added hunkStartLine flag)
    = Nat.max (length deleted) (length added).
Proof.
  induction deleted as [| before deleted IH]; intros added.
  - simpl. apply length_map.
  - destruct added as [| after added]; simpl; rewrite IH; simpl; lia.
Qed.


Lemma pairRows_counts (hunkStartLine : Z) (flag : bool) :
  forall deleted added : list IDiffRowData.t,
    countRows isModifiedRow (pairRows deleted added hunkStartLine flag)
    = Nat.min (length deleted) (length added)
    /\ countRows isDeletedRow (pairRows deleted added hunkStartLine flag)
       = (length deleted - length added)%nat
    /\ countRows isAddedRow (pairRows deleted added hunkStartLine flag)
       = (length added - length deleted)%nat.
Proof.
  unfold countRows.
  induction deleted as [| before deleted IH]; intros added.
  - simpl. induction added as [| after added IHa]; simpl.
    + repeat split; reflexivity.
    + destruct IHa as [Em [Ed Ea]]. rewrite Em, Ed. simpl in Ea.
      rewrite Ea. repeat split; lia.
  - destruct added as [| after added]; simpl.
    + destruct (IH []) as [Em [Ed Ea]]. rewrite Em, Ed, Ea. simpl.
      repeat split; lia.
    + destruct (IH added) as [Em [Ed Ea]]. rewrite Em, Ed, Ea.
      repeat split; lia.
Qed.

(** The paired rows come first: the row at index [i] is a Modified row
    exactly when both sides have a line at [i]. *)
Lemma pairRows_modified_first (hunkStartLine : Z) (flag : bool) :
  forall (deleted added : list IDiffRowData.t) (i : nat) (row : DiffRow),
    nth_error (pairRows deleted added hunkStartLine flag) i = Some row ->
    isModifiedRow row = (i <? Nat.min (length deleted) (length added))%nat.
Proof.
  induction deleted as [| before deleted IH]; intros added i row E.
  - simpl in E. apply nth_error_In, in_map_iff in E.
    destruct E as [after [<- _]]. reflexivity.
  - destruct added as [| after added]; destruct i as [| i]; simpl in E.
    + injection E as <-. reflexivity.
    + apply IH in E. rewrite E. simpl. destruct (length deleted); reflexivity.
    + injection E as <-. reflexivity.
    + apply IH in E. rewrite E. reflexivity.
Qed.

Lemma pairRows_hunkStartLine (hunkStartLine : Z) (flag : bool) :
  forall deleted added : list IDiffRowData.t,
    Forall (fun row => hunkStartLineOf row = Some hunkStartLine)
           (pairRows deleted added hunkStartLine flag).
Proof.
  induction deleted as [| before deleted IH]; intros added.
  - simpl. apply Forall_forall. intros row Hin. apply in_map_iff in Hin.
    destruct Hin as [after [<- _]]. reflexivity.
  - destruct added as [| after added]; simpl; constructor;
      try reflexivity; apply IH.
Qed.

Section RunTheorems.

Context {DiffSelection : Type} `{DiffSelectionOps DiffSelection}.
Context `{TemporarySelectionOps}.

(** X1.  The rows of a run pair its lines by position: the i-th Delete line
    of the run faces the i-th Add line in a Modified row, and the lines one
    side has in excess follow in rows of their own; each line is shown with
    its content, its file line number, its index in the diff and the
    displayed selected state of that index. *)
Theorem getModifiedRows_pairs_by_position (run : list (DiffLine.t * Z))
        (file : @ChangedFile DiffSelection)
        (temporarySelection : option ISelection.t) (rows : list DiffRow) :
  getModifiedRows run file temporarySelection = Ok rows ->
  rows
  = pairRows
      (flat_map (shownData DiffLine.oldLineNumber file temporarySelection)
                (filter isDelete run))
      (flat_map (shownData DiffLine.newLineNumber file temporarySelection)
                (filter isAdd run))
      (hd 0 (map snd run)) (addCount run =? deleteCount run)%nat
  /\ length (flat_map (shownData DiffLine.oldLineNumber
                                 file temporarySelection)
                      (filter isDelete run))
     = deleteCount run
  /\ length (flat_map (shownData DiffLine.newLineNumber
                                 file temporarySelection)
                      (filter isAdd run))
     = addCount run.
Proof. apply getModifiedRows_as_pairRows. Qed.

(** X2.  A run of [a] Add lines and [d] Delete lines yields max(a, d) rows:
    first min(a, d) Modified rows, then only Deleted rows (d - a of them)
    or only Added rows (a - d of them); every one of these rows names the
    diff index of the first line of the run as its [hunkStartLine]. *)
Theorem getModifiedRows_shape (run : list (DiffLine.t * Z))
        (file : @ChangedFile DiffSelection)
        (temporarySelection : option ISelection.t) (rows : list DiffRow) :
  getModifiedRows run file temporarySelection = Ok rows ->
  length rows = Nat.max (addCount run) (deleteCount run)
  /\ countRows isAddedRow rows = (addCount run - deleteCount run)%nat
  /\ countRows isDeletedRow rows = (deleteCount run - addCount run)%nat
  /\ (forall (i : nat) (row : DiffRow),
         nth_error rows i = Some row ->
         isModifiedRow row
         = (i <? Nat.min (addCount run) (deleteCount run))%nat)
  /\ Forall (fun row => hunkStartLineOf row = Some (hd 0 (map snd run))) rows.
Proof.
  intros E. apply getModifiedRows_as_pairRows in E.
  destruct E as [-> [Ed Ea]].
  split; [| split; [| split; [| split]]].
  - rewrite pairRows_length, Ed, Ea. apply Nat.max_comm.
  - rewrite (proj2 (proj2 (pairRows_counts _ _ _ _))), Ed, Ea. reflexivity.
  - rewrite (proj1 (proj2 (pairRows_counts _ _ _ _))), Ed, Ea. reflexivity.
  - intros i row Erow. apply pairRows_modified_first in Erow.
    rewrite Erow, Ed, Ea, Nat.min_comm. reflexivity.
  - apply pairRows_hunkStartLine.
Qed.

End RunTheorems.

(** The run of the sample hunk: two deletions and one addition. *)
Lemma getModifiedRows_sample_run :
  getModifiedRows
    [ (sampleLine Delete "b" (Some 2) None, 2);
      (sampleLine Delete "c" (Some 3) None, 3);
      (sampleLine Add "d" None (Some 2), 4) ]
    sampleFile None
  = Ok (firstn 2 (skipn 2 sampleRows)).
Proof. vm_compute. reflexivity. Qed.

Lemma getModifiedRows_pairs_by_position_witness :
  firstn 2 (skipn 2 sampleRows)
  = pairRows
      (flat_map (shownData DiffLine.oldLineNumber sampleFile None)
                [ (sampleLine Delete "b" (Some 2) None, 2);
                  (sampleLine Delete "c" (Some 3) None, 3) ])
      (flat_map (shownData DiffLine.newLineNumber sampleFile None)
                [ (sampleLine Add "d" None (Some 2), 4) ])
      2 false.
Proof.
  apply (getModifiedRows_pairs_by_position
           [ (sampleLine Delete "b" (Some 2) None, 2);
             (sampleLine Delete "c" (Some 3) None, 3);
             (sampleLine Add "d" None (Some 2), 4) ]
           sampleFile None).
  vm_compute. reflexivity.
Defined.

Lemma getModifiedRows_shape_witness :
  length (firstn 2 (skipn 2 sampleRows)) = 2%nat
  /\ countRows isAddedRow (firstn 2 (skipn 2 sampleRows)) = 0%nat
  /\ countRows isDeletedRow (firstn 2 (skipn 2 sampleRows)) = 1%nat.
Proof.
  destruct (getModifiedRows_shape
              [ (sampleLine Delete "b" (Some 2) None, 2);
                (sampleLine Delete "c" (Some 3) None, 3);
                (sampleLine Add "d" None (Some 2), 4) ]
              sampleFile None (firstn 2 (skipn 2 sampleRows)))
    as [Elength [Eadded [Edeleted _]]].
  - vm_compute. reflexivity.
  - split; [exact Elength | split; [exact Eadded | exact Edeleted]].
Defined.

(** ** The columns of a hunk *)

Lemma numberLines_nth (start : Z) :
  forall (rest : list DiffLine.t) (num : Z) (i : nat),
    nth_error (numberLines start num rest) i
    = option_map (fun line => (line, start + num + Z.of_nat i))
                 (nth_error rest i).
Proof.
  induction rest as [| line rest IH]; intros num i.
  - destruct i; reflexivity.
  - destruct i as [| i]; simpl.
    + rewrite Z.add_0_r. reflexivity.
    + rewrite IH. destruct (nth_error rest i); simpl; [| reflexivity].
      do 2 f_equal. lia.
Qed.

Lemma numberLines_lines (start : Z) :
  forall (rest : list DiffLine.t) (num : Z),
    map fst (numberLines start num rest) = rest.
Proof.
  induction rest as [| line rest IH]; intros num; simpl;
    [| rewrite IH]; reflexivity.
Qed.



Section ColumnProperties.

Context {DiffSelection : Type} `{DiffSelectionOps DiffSelection}.
Context `{TemporarySelectionOps}.

Variable file : @ChangedFile DiffSelection.
Variable temporarySelection : option ISelection.t.




End ColumnProperties.




Section HunkTheorems.

Context {DiffSelection : Type} `{DiffSelectionOps DiffSelection}.
Context `{TemporarySelectionOps}.





End HunkTheorems.

Lemma getDiffRowsFromHunk_sample :
  getDiffRowsFromHunk sampleHunk sampleFile None = Ok sampleRows.
Proof. vm_compute. reflexivity. Qed.



(** ** Row counts and plain rows *)

Lemma changeCount_all (run : list (DiffLine.t * Z)) :
  forallb (fun entry => isChangeLine (fst entry)) run = true ->
  (addCount run + deleteCount run)%nat = length run.
Proof.
  unfold addCount, deleteCount, isAdd, isDelete, isChangeLine.
  induction run as [| entry run IH]; intros Hrun; [reflexivity |].
  cbn [forallb] in Hrun. apply andb_true_iff in Hrun.
  destruct Hrun as [Hentry Hrun]. specialize (IH Hrun). cbn [filter].
  destruct (DiffLine.type (fst entry)); try discriminate Hentry;
    simpl; lia.
Qed.

Lemma pairRows_plain (hunkStartLine : Z) (flag : bool) :
  forall deleted added : list IDiffRowData.t,
    filter isPlainRow (pairRows deleted added hunkStartLine flag) = [].
Proof.
  induction deleted as [| before deleted IH]; intros added.
  - simpl. induction added as [| after added IHa]; simpl; auto.
  - destruct added; simpl; apply IH.
Qed.

Section CountProperties.

Context {DiffSelection : Type} `{DiffSelectionOps DiffSelection}.
Context `{TemporarySelectionOps}.

Variable file : @ChangedFile DiffSelection.
Variable temporarySelection : option ISelection.t.

Lemma getModifiedRows_rows (run : list (DiffLine.t * Z))
      (rows : list DiffRow) :
  forallb (fun entry => isChangeLine (fst entry)) run = true ->
  getModifiedRows run file temporarySelection = Ok rows ->
  (length rows + countRows isModifiedRow rows)%nat = length run.
Proof.
  intros Hrun E. apply getModifiedRows_as_pairRows in E.
  destruct E as [-> [Ed Ea]].
  rewrite pairRows_length, (proj1 (pairRows_counts _ _ _ _)), Ed, Ea.
  rewrite <- (changeCount_all run Hrun). lia.
Qed.

Lemma flushModifiedLines_rows (rows : list DiffRow)
      (pending : list (DiffLine.t * Z)) (flushed : list DiffRow) :
  forallb (fun entry => isChangeLine (fst entry)) pending = true ->
  flushModifiedLines rows pending file temporarySelection = Ok flushed ->
  (length flushed + countRows isModifiedRow flushed
   = length rows + countRows isModifiedRow rows + length pending)%nat
  /\ filter isPlainRow flushed = filter isPlainRow rows.
Proof.
  intros Hp. unfold flushModifiedLines. destruct pending as [| first pending'].
  - simpl. intros E. injection E as <-. split; [lia | reflexivity].
  - cbn [Nat.ltb Nat.leb length]. intros E. invert_binds. subst.
    rewrite length_app, countRows_app, filter_app. split.
    + apply (getModifiedRows_rows _ _ Hp) in Estep. simpl in Estep. lia.
    + apply getModifiedRows_as_pairRows in Estep. destruct Estep as [-> _].
      rewrite pairRows_plain. apply app_nil_r.
Qed.

Lemma hunkRowsLoop_rows (start : Z) :
  forall (rest : list DiffLine.t) (num : Z) (rows : list DiffRow)
         (pending : list (DiffLine.t * Z)) (result : list DiffRow),
    forallb (fun entry => isChangeLine (fst entry)) pending = true ->
    hunkRowsLoop start file temporarySelection num rest rows pending
    = Ok result ->
    (length result + countRows isModifiedRow result
     = length rows + countRows isModifiedRow rows
       + length pending + length rest)%nat
    /\ filter isPlainRow result
       = filter isPlainRow rows ++ flat_map plainRowOf rest.
Proof.
  induction rest as [| line rest IH]; intros num rows pending result Hp E.
  - simpl in E. apply (flushModifiedLines_rows _ _ _ Hp) in E.
    destruct E as [Ecount Eplain]. simpl. rewrite app_nil_r.
    split; [lia | exact Eplain].
  - cbn [hunkRowsLoop] in E. cbn [flat_map length]. unfold plainRowOf at 1.
    assert (Hsnoc : isChangeLine line = true ->
                    forall number,
                      forallb (fun entry => isChangeLine (fst entry))
                              (pending ++ [(line, number)]) = true).
    { intros Hline number. rewrite forallb_app, Hp. simpl.
      rewrite Hline. reflexivity. }
    unfold isChangeLine in Hsnoc.
    destruct (DiffLine.type line) eqn:Etype.
    + invert_binds.
      destruct (DiffLine.oldLineNumber line), (DiffLine.newLineNumber line);
        try discriminate E.
      apply IH in E; [| reflexivity].
      apply (flushModifiedLines_rows _ _ _ Hp) in Estep.
      destruct E as [Ecount Eplain], Estep as [Fcount Fplain].
      rewrite length_app, countRows_app in Ecount.
      rewrite Eplain, filter_app, Fplain, <- app_assoc.
      unfold countRows in *. simpl in *. split; [lia | reflexivity].
    + apply IH in E; [| apply Hsnoc; reflexivity].
      rewrite length_app in E. simpl in E. destruct E as [Ecount Eplain].
      split; [lia | exact Eplain].
    + apply IH in E; [| apply Hsnoc; reflexivity].
      rewrite length_app in E. simpl in E. destruct E as [Ecount Eplain].
      split; [lia | exact Eplain].
    + invert_binds.
      apply IH in E; [| reflexivity].
      apply (flushModifiedLines_rows _ _ _ Hp) in Estep.
      destruct E as [Ecount Eplain], Estep as [Fcount Fplain].
      rewrite length_app, countRows_app in Ecount.
      rewrite Eplain, filter_app, Fplain, <- app_assoc.
      unfold countRows in *. simpl in *. split; [lia | reflexivity].
    + invert_binds. discriminate E.
Qed.

(** X5.  Every line of a hunk lands in exactly one row and a Modified row
    holds two of them: the number of rows plus the number of Modified rows
    is the number of lines of the hunk.  In particular a hunk never yields
    more rows than it has lines. *)
Theorem getDiffRowsFromHunk_row_count (hunk : DiffHunk) (rows : list DiffRow) :
  getDiffRowsFromHunk hunk file temporarySelection = Ok rows ->
  (length rows + countRows isModifiedRow rows)%nat = length (lines hunk)
  /\ (length rows <= length (lines hunk))%nat.
Proof.
  unfold getDiffRowsFromHunk. intros E.
  apply hunkRowsLoop_rows in E; [| reflexivity].
  destruct E as [Ecount _]. unfold countRows in *. simpl in Ecount. lia.
Qed.

(** X6.  The rows of a hunk that carry no line data, its hunk-header rows
    and its context rows, are those of the hunk's Hunk-header and Context
    lines, one per line and in the order of the hunk. *)
Theorem getDiffRowsFromHunk_plain_rows (hunk : DiffHunk)
        (rows : list DiffRow) :
  getDiffRowsFromHunk hunk file temporarySelection = Ok rows ->
  filter isPlainRow rows = flat_map plainRowOf (lines hunk).
Proof.
  unfold getDiffRowsFromHunk. intros E.
  apply hunkRowsLoop_rows in E; [| reflexivity].
  destruct E as [_ Eplain]. exact Eplain.
Qed.

End CountProperties.

Lemma getDiffRowsFromHunk_row_count_witness :
  (length sampleRows + countRows isModifiedRow sampleRows)%nat = 8%nat
  /\ (length sampleRows <= 8)%nat.
Proof.
  apply (getDiffRowsFromHunk_row_count sampleFile None sampleHunk).
  vm_compute. reflexivity.
Defined.

Lemma getDiffRowsFromHunk_plain_rows_witness :
  filter isPlainRow sampleRows
  = [HunkRow "@@ -1,5 +1,4 @@"; ContextRow "a" 1 1; ContextRow "e" 4 3].
Proof.
  apply (getDiffRowsFromHunk_plain_rows sampleFile None sampleHunk).
  vm_compute. reflexivity.
Defined.

(** ** The layout of the rows does not depend on the selection *)

Section LayoutProperties.

Context {DiffSelection : Type} `{DiffSelectionOps DiffSelection}.
Context `{TemporarySelectionOps}.

Variables file file' : @ChangedFile DiffSelection.
Variables temporarySelection temporarySelection' : option ISelection.t.

Lemma bind_layout {A B B' : Type} (f : B -> list DiffRow)
      (f' : B' -> list DiffRow) (m : Result A)
      (k : A -> Result B) (k' : A -> Result B') :
  (forall a, mapResult f (k a) = mapResult f' (k' a)) ->
  mapResult f (bind m k) = mapResult f' (bind m k').
Proof. intros Hk. destruct m; simpl; [apply Hk | reflexivity]. Qed.

Lemma bind_layout_data {B B' : Type} (f : B -> list DiffRow)
      (f' : B' -> list DiffRow) (entry : DiffLine.t * Z)
      (lineToUse : LineToUse)
      (k : IDiffRowData.t -> Result B) (k' : IDiffRowData.t -> Result B') :
  (forall data data',
      unselectedData data = unselectedData data' ->
      mapResult f (k data) = mapResult f' (k' data')) ->
  mapResult f (bind (getDataFromLine entry lineToUse file temporarySelection) k)
  = mapResult f'
      (bind (getDataFromLine entry lineToUse file' temporarySelection') k').
Proof.
  intros Hk. destruct entry as [line number]. unfold getDataFromLine.
  destruct (lineNumberOf lineToUse line); simpl; [| reflexivity].
  apply Hk. reflexivity.
Qed.

Lemma bind_layout_rows {B B' : Type} (f : B -> list DiffRow)
      (f' : B' -> list DiffRow) (m m' : Result (list DiffRow))
      (k : list DiffRow -> Result B) (k' : list DiffRow -> Result B') :
  mapResult (map rowLayout) m = mapResult (map rowLayout) m' ->
  (forall rows rows',
      map rowLayout rows = map rowLayout rows' ->
      mapResult f (k rows) = mapResult f' (k' rows')) ->
  mapResult f (bind m k) = mapResult f' (bind m' k').
Proof.
  intros Hm Hk. destruct m, m'; simpl in Hm |- *; try discriminate Hm.
  - injection Hm as Hm. apply Hk, Hm.
  - injection Hm as ->. reflexivity.
Qed.

Lemma layout_snoc (rows rows' : list DiffRow) (row row' : DiffRow) :
  map rowLayout rows = map rowLayout rows' ->
  rowLayout row = rowLayout row' ->
  map rowLayout (rows ++ [row]) = map rowLayout (rows' ++ [row']).
Proof. intros Erows Erow. rewrite !map_app, Erows. simpl. rewrite Erow. reflexivity. Qed.

Lemma modifiedRowsLoop_layout (addedLines deletedLines : list (DiffLine.t * Z))
      (hunkStartLine : Z) (flag : bool) :
  forall (remaining numLine : nat) (output output' : list DiffRow),
    map rowLayout output = map rowLayout output' ->
    mapResult (map rowLayout)
      (modifiedRowsLoop remaining addedLines deletedLines hunkStartLine flag
                        file temporarySelection numLine output)
    = mapResult (map rowLayout)
        (modifiedRowsLoop remaining addedLines deletedLines hunkStartLine flag
                          file' temporarySelection' numLine output').
Proof.
  induction remaining as [| remaining IH]; intros numLine output output' Eout.
  - simpl. rewrite Eout. reflexivity.
  - cbn [modifiedRowsLoop].
    destruct (numLine <? length addedLines)%nat,
             (numLine <? length deletedLines)%nat;
      cbn [orb andb]; try (simpl; rewrite Eout; reflexivity).
    + apply bind_layout_rows; [| intros rows rows' Erows; apply IH, Erows].
      apply bind_layout. intros deleted.
      apply bind_layout_data. intros beforeData beforeData' Ebefore.
      apply bind_layout. intros added.
      apply bind_layout_data. intros afterData afterData' Eafter.
      simpl. f_equal. apply layout_snoc; [exact Eout |].
      simpl. rewrite Ebefore, Eafter. reflexivity.
    + apply bind_layout_rows; [| intros rows rows' Erows; apply IH, Erows].
      apply bind_layout. intros added.
      apply bind_layout_data. intros data data' Edata.
      simpl. f_equal. apply layout_snoc; [exact Eout |].
      simpl. rewrite Edata. reflexivity.
    + apply bind_layout_rows; [| intros rows rows' Erows; apply IH, Erows].
      apply bind_layout. intros deleted.
      apply bind_layout_data. intros data data' Edata.
      simpl. f_equal. apply layout_snoc; [exact Eout |].
      simpl. rewrite Edata. reflexivity.
Qed.

Lemma getModifiedRows_layout (run : list (DiffLine.t * Z)) :
  mapResult (map rowLayout) (getModifiedRows run file temporarySelection)
  = mapResult (map rowLayout) (getModifiedRows run file' temporarySelection').
Proof.
  unfold getModifiedRows. destruct run; [reflexivity |].
  apply modifiedRowsLoop_layout. reflexivity.
Qed.

Lemma flushModifiedLines_layout (rows rows' : list DiffRow)
      (pending : list (DiffLine.t * Z)) :
  map rowLayout rows = map rowLayout rows' ->
  mapResult (map rowLayout)
    (flushModifiedLines rows pending file temporarySelection)
  = mapResult (map rowLayout)
      (flushModifiedLines rows' pending file' temporarySelection').
Proof.
  intros Erows. unfold flushModifiedLines.
  destruct (0 <? length pending)%nat; [| simpl; rewrite Erows; reflexivity].
  apply bind_layout_rows; [apply getModifiedRows_layout |].
  intros modified modified' Emodified. simpl.
  rewrite !map_app, Erows, Emodified. reflexivity.
Qed.

Lemma hunkRowsLoop_layout (start : Z) :
  forall (rest : list DiffLine.t) (num : Z) (rows rows' : list DiffRow)
         (pending : list (DiffLine.t * Z)),
    map rowLayout rows = map rowLayout rows' ->
    mapResult (map rowLayout)
      (hunkRowsLoop start file temporarySelection num rest rows pending)
    = mapResult (map rowLayout)
        (hunkRowsLoop start file' temporarySelection' num rest rows' pending).
Proof.
  induction rest as [| line rest IH]; intros num rows rows' pending Erows.
  - simpl. apply flushModifiedLines_layout, Erows.
  - cbn [hunkRowsLoop]. destruct (DiffLine.type line).
    + apply bind_layout_rows; [apply flushModifiedLines_layout, Erows |].
      intros flushed flushed' Eflushed.
      destruct (DiffLine.oldLineNumber line), (DiffLine.newLineNumber line);
        simpl; try reflexivity.
      apply IH, layout_snoc; [exact Eflushed | reflexivity].
    + apply IH, Erows.
    + apply IH, Erows.
    + apply bind_layout_rows; [apply flushModifiedLines_layout, Erows |].
      intros flushed flushed' Eflushed.
      apply IH, layout_snoc; [exact Eflushed | reflexivity].
    + apply bind_layout_rows; [apply flushModifiedLines_layout, Erows |].
      intros flushed flushed' Eflushed. reflexivity.
Qed.

Lemma getDiffRowsLoop_layout :
  forall (remainingHunks : list DiffHunk) (rows rows' : list DiffRow),
    map rowLayout rows = map rowLayout rows' ->
    mapResult (map rowLayout)
      (getDiffRowsLoop remainingHunks file temporarySelection rows)
    = mapResult (map rowLayout)
        (getDiffRowsLoop remainingHunks file' temporarySelection' rows').
Proof.
  induction remainingHunks as [| hunk remainingHunks IH];
    intros rows rows' Erows.
  - simpl. rewrite Erows. reflexivity.
  - cbn [getDiffRowsLoop].
    apply bind_layout_rows;
      [apply hunkRowsLoop_layout; reflexivity |].
    intros fromHunk fromHunk' Efrom. apply IH.
    rewrite !map_app, Erows, Efrom. reflexivity.
Qed.

(** X7.  The layout of the rows of a diff (which rows there are, in which
    order, with which contents, line numbers, selection keys, hunk start
    lines and diff-highlight flags) depends on the diff alone: the file
    and the transient selection only decide the selected flags.  The
    builder also fails for the same diffs whatever the selection.  So a
    drag never changes the number of rows. *)
Theorem getDiffRows_layout_independent_of_selection (diff : ITextDiff) :
  mapResult (map rowLayout) (getDiffRows diff file temporarySelection)
  = mapResult (map rowLayout) (getDiffRows diff file' temporarySelection')
  /\ (forall rows rows',
         getDiffRows diff file temporarySelection = Ok rows ->
         getDiffRows diff file' temporarySelection' = Ok rows' ->
         length rows = length rows').
Proof.
  assert (Elayout :
            mapResult (map rowLayout) (getDiffRows diff file temporarySelection)
            = mapResult (map rowLayout)
                        (getDiffRows diff file' temporarySelection')).
  { unfold getDiffRows. apply getDiffRowsLoop_layout. reflexivity. }
  split; [exact Elayout |].
  intros rows rows' E E'. rewrite E, E' in Elayout. simpl in Elayout.
  injection Elayout as Elayout.
  rewrite <- (length_map rowLayout rows), Elayout. apply length_map.
Qed.

End LayoutProperties.

Lemma getDiffRows_layout_independent_of_selection_witness :
  length sampleRows
  = length (match getDiffRows sampleDiff committedFile (Some sampleDrag) with
            | Ok rows => rows
            | Fatal _ => []
            end).
Proof.
  apply (getDiffRows_layout_independent_of_selection
           sampleFile committedFile None (Some sampleDrag) sampleDiff);
    vm_compute; reflexivity.
Defined.

(** ** The rows of a diff, hunk by hunk *)

Section DiffTheorems.

Context {DiffSelection : Type} `{DiffSelectionOps DiffSelection}.
Context `{TemporarySelectionOps}.

Variable file : @ChangedFile DiffSelection.
Variable temporarySelection : option ISelection.t.

Lemma getDiffRowsLoop_rowsOfHunks :
  forall (remainingHunks : list DiffHunk) (rows : list DiffRow),
    getDiffRowsLoop remainingHunks file temporarySelection rows
    = (perHunk <- rowsOfHunks remainingHunks file temporarySelection ;;
       Ok (rows ++ concat perHunk)).
Proof.
  induction remainingHunks as [| hunk remainingHunks IH]; intros rows.
  - simpl. rewrite app_nil_r. reflexivity.
  - cbn [getDiffRowsLoop rowsOfHunks].
    destruct (getDiffRowsFromHunk hunk file temporarySelection)
      as [fromHunk | e]; simpl; [| reflexivity].
    rewrite IH.
    destruct (rowsOfHunks remainingHunks file temporarySelection); simpl;
      [rewrite app_assoc |]; reflexivity.
Qed.

Lemma rowsOfHunks_app (front back : list DiffHunk) :
  rowsOfHunks (front ++ back) file temporarySelection
  = (xs <- rowsOfHunks front file temporarySelection ;;
     ys <- rowsOfHunks back file temporarySelection ;;
     Ok (xs ++ ys)).
Proof.
  induction front as [| hunk front IH]; simpl.
  - destruct (rowsOfHunks back file temporarySelection); reflexivity.
  - destruct (getDiffRowsFromHunk hunk file temporarySelection); simpl;
      [| reflexivity].
    rewrite IH.
    destruct (rowsOfHunks front file temporarySelection); simpl;
      [| reflexivity].
    destruct (rowsOfHunks back file temporarySelection); reflexivity.
Qed.

(** X8.  The rows of a diff are the rows of its hunks, one hunk after the
    other: the rows of a hunk do not depend on the hunks around it nor on
    the diff text, and the rows of two runs of hunks put together are the
    rows of the first followed by the rows of the second (the first failing
    hunk decides the failure). *)
Theorem getDiffRows_hunk_by_hunk (diffText frontText backText : string)
        (front back : list DiffHunk) :
  getDiffRows {| text := diffText; hunks := front ++ back |}
              file temporarySelection
  = (frontRows <- getDiffRows {| text := frontText; hunks := front |}
                              file temporarySelection ;;
     backRows <- getDiffRows {| text := backText; hunks := back |}
                             file temporarySelection ;;
     Ok (frontRows ++ backRows))
  /\ getDiffRows {| text := diffText; hunks := front |}
                 file temporarySelection
     = mapResult (@concat DiffRow)
                 (rowsOfHunks front file temporarySelection).
Proof.
  unfold getDiffRows. cbn [hunks]. rewrite !getDiffRowsLoop_rowsOfHunks.
  split.
  - rewrite rowsOfHunks_app.
    destruct (rowsOfHunks front file temporarySelection); simpl;
      [| reflexivity].
    destruct (rowsOfHunks back file temporarySelection); simpl;
      [| reflexivity].
    rewrite concat_app. reflexivity.
  - destruct (rowsOfHunks front file temporarySelection); reflexivity.
Qed.

End DiffTheorems.

(** ** Sequences of pointer events *)

Section EventTheorems.

Context {DiffSelection : Type} `{DiffSelectionOps DiffSelection}.
Context `{TemporarySelectionOps}.
Context {ITokens : Type}.

Variable findInteractiveDiffRange : list DiffHunk -> Z -> option (Z * Z).

Lemma onEndSelection_silent (props : @ISideBySideDiffProps DiffSelection)
      (state : @ISideBySideDiffState ITokens) :
  onIncludeChanged props = None \/ canSelect (file props) = false ->
  onEndSelection props state = (state, []).
Proof.
  intros [Ecallback | Efile]; unfold onEndSelection.
  - rewrite Ecallback. destruct (canSelect (file props)); simpl;
      [| reflexivity].
    destruct (selection state); reflexivity.
  - rewrite Efile. reflexivity.
Qed.

Lemma onClickHunk_silent (props : @ISideBySideDiffProps DiffSelection)
      (hunkStartLine : Z) (select : bool) :
  onIncludeChanged props = None \/ canSelect (file props) = false ->
  onClickHunk findInteractiveDiffRange props hunkStartLine select = [].
Proof.
  intros [Ecallback | Efile]; unfold onClickHunk.
  - rewrite Ecallback. destruct (canSelect (file props)); simpl;
      [| reflexivity].
    destruct (findInteractiveDiffRange (hunks (diff props)) hunkStartLine)
      as [[from to] |]; reflexivity.
  - rewrite Efile. reflexivity.
Qed.

(** X9.  A viewer without an include-changed collaborator, or showing a
    file that is not selectable, never reports a selection update,
    whatever the pointer does: no sequence of drags, moves, hovers and
    clicks on hunk handles makes it call [onIncludeChanged]. *)
Theorem read_only_viewer_never_reports
        (props : @ISideBySideDiffProps DiffSelection) :
  onIncludeChanged props = None \/ canSelect (file props) = false ->
  forall (events : list ViewerEvent)
         (state : @ISideBySideDiffState ITokens),
    existsb isIncludeChangedCall
            (snd (handleViewerEvents findInteractiveDiffRange
                                     props state events))
    = false.
Proof.
  intros Hreadonly.
  induction events as [| event events IH]; intros state; [reflexivity |].
  cbn [handleViewerEvents].
  destruct (handleViewerEvent findInteractiveDiffRange props state event)
    as [next caused] eqn:Eevent.
  specialize (IH next).
  destruct (handleViewerEvents findInteractiveDiffRange props next events)
    as [final causedLater].
  cbn [snd] in *. rewrite existsb_app, IH, orb_false_r.
  destruct event; simpl in Eevent.
  - injection Eevent as _ <-. reflexivity.
  - rewrite (onEndSelection_silent props state Hreadonly) in Eevent.
    injection Eevent as _ <-. reflexivity.
  - injection Eevent as _ <-. reflexivity.
  - injection Eevent as _ <-. reflexivity.
  - injection Eevent as _ <-. reflexivity.
  - rewrite (onClickHunk_silent props _ _ Hreadonly) in Eevent.
    injection Eevent as _ <-. reflexivity.
Qed.

Lemma handleViewerEvent_keeps_tokens
      (props : @ISideBySideDiffProps DiffSelection)
      (state : @ISideBySideDiffState ITokens) (event : ViewerEvent) :
  let next := fst (handleViewerEvent findInteractiveDiffRange
                                     props state event) in
  beforeTokens next = beforeTokens state
  /\ afterTokens next = afterTokens state
  /\ selectingRow next = selectingRow state.
Proof.
  destruct event; simpl;
    unfold onEndSelection, onUpdateSelection, onMouseEnterHunk;
    repeat match goal with
           | |- context [match ?x with _ => _ end] => destruct x; simpl
           | |- context [if ?x then _ else _] => destruct x; simpl
           end;
    auto.
Qed.

(** X10.  Selecting, hovering and clicking hunk handles never touch the
    syntax tokens nor the text-selection column of the component state:
    after any sequence of pointer events they are what they were. *)
Theorem pointer_events_keep_tokens
        (props : @ISideBySideDiffProps DiffSelection) :
  forall (events : list ViewerEvent)
         (state : @ISideBySideDiffState ITokens),
    let final := fst (handleViewerEvents findInteractiveDiffRange
                                         props state events) in
    beforeTokens final = beforeTokens state
    /\ afterTokens final = afterTokens state
    /\ selectingRow final = selectingRow state.
Proof.
  induction events as [| event events IH]; intros state; [simpl; auto |].
  cbn [handleViewerEvents].
  pose proof (handleViewerEvent_keeps_tokens props state event) as Hevent.
  destruct (handleViewerEvent findInteractiveDiffRange props state event)
    as [next caused].
  specialize (IH next).
  destruct (handleViewerEvents findInteractiveDiffRange props next events)
    as [final causedLater].
  cbn [fst] in *. destruct Hevent as [Eb [Ea Es]], IH as [Eb' [Ea' Es']].
  rewrite Eb', Ea', Es'. auto.
Qed.

End EventTheorems.

Lemma last_after_head {A : Type} :
  forall (xs : list A) (x fallback : A), last (x :: xs) fallback = last xs x.
Proof.
  induction xs as [| y xs IH]; intros x fallback; [reflexivity |].
  change (last (x :: y :: xs) fallback) with (last (y :: xs) fallback).
  rewrite !IH. reflexivity.
Qed.

Section DragTheorems.

Context {DiffSelection : Type} `{DiffSelectionOps DiffSelection}.
Context `{TemporarySelectionOps}.
Context {ITokens : Type}.

Lemma moves_keep_anchor (state : @ISideBySideDiffState ITokens) :
  forall (path : list Z) (anchor current : Z) (select : bool),
    fold_left (fun moving lineNumber => onUpdateSelection lineNumber moving)
              path
              (setSelection state
                 (Some {| ISelection.from := anchor;
                          ISelection.to := current;
                          ISelection.isSelected := select |}))
    = setSelection state
        (Some {| ISelection.from := anchor;
                 ISelection.to := last path current;
                 ISelection.isSelected := select |}).
Proof.
  intros visited.
  induction visited as [| lineNumber visited IH]; intros anchor current select.
  - reflexivity.
  - cbn [fold_left]. unfold onUpdateSelection at 2.
    cbn [selection setSelection ISelection.from ISelection.isSelected].
    change (setSelection
              (setSelection state
                 (Some {| ISelection.from := anchor;
                          ISelection.to := current;
                          ISelection.isSelected := select |}))
              (Some {| ISelection.from := anchor;
                       ISelection.to := lineNumber;
                       ISelection.isSelected := select |}))
      with (setSelection state
              (Some {| ISelection.from := anchor;
                       ISelection.to := lineNumber;
                       ISelection.isSelected := select |})).
    rewrite IH, last_after_head. reflexivity.
Qed.

(** X11.  During a drag the anchor and the intent chosen at pointer-down
    stay fixed and the current line follows the pointer, so only the last
    line the pointer passed over matters: a drag along any path ends in
    the same state and reports the same update as a drag that goes straight
    from the anchor to the last line of the path. *)
Theorem dragAlong_last_line (props : @ISideBySideDiffProps DiffSelection)
        (anchor : Z) (path : list Z) (select : bool)
        (state : @ISideBySideDiffState ITokens) :
  dragAlong props anchor path select state
  = dragGesture props anchor (last path anchor) select state
  /\ fold_left (fun moving lineNumber => onUpdateSelection lineNumber moving)
               path
               (fst (onStartSelection (DiffSelection := DiffSelection)
                                      anchor select state))
     = setSelection state
         (Some {| ISelection.from := anchor;
                  ISelection.to := last path anchor;
                  ISelection.isSelected := select |}).
Proof.
  unfold dragAlong, dragGesture, onStartSelection. cbn [fst].
  rewrite moves_keep_anchor. split; reflexivity.
Qed.

Lemma onEndSelection_idle (props : @ISideBySideDiffProps DiffSelection)
      (state : @ISideBySideDiffState ITokens) :
  selection state = None -> onEndSelection props state = (state, []).
Proof.
  intros Eidle. unfold onEndSelection. rewrite Eidle.
  destruct (canSelect (file props)); reflexivity.
Qed.

Lemma onEndSelection_cases (props : @ISideBySideDiffProps DiffSelection)
      (state : @ISideBySideDiffState ITokens) :
  onEndSelection props state = (state, [])
  \/ exists reported,
      onEndSelection props state = (setSelection state None, reported).
Proof.
  unfold onEndSelection.
  destruct (canSelect (file props)); simpl; [| auto].
  destruct (selection state); [| auto].
  destruct (onIncludeChanged props); [| auto].
  destruct (file props); [right; eexists; reflexivity | auto].
Qed.

(** X12.  A second pointer-up changes nothing and reports nothing: after
    [onEndSelection] has run, running it again leaves the state it produced
    and causes no effect. *)
Theorem onEndSelection_twice (props : @ISideBySideDiffProps DiffSelection)
        (state : @ISideBySideDiffState ITokens) :
  onEndSelection props (fst (onEndSelection props state))
  = (fst (onEndSelection props state), []).
Proof.
  destruct (onEndSelection_cases props state) as [E | [reported E]];
    rewrite E; cbn [fst].
  - exact E.
  - apply onEndSelection_idle. reflexivity.
Qed.

End DragTheorems.

Lemma read_only_viewer_never_reports_witness :
  existsb isIncludeChangedCall
          (snd (handleViewerEvents sampleFindRange readOnlyProps
                                   hoveringState sampleEvents))
  = false.
Proof.
  apply (read_only_viewer_never_reports sampleFindRange readOnlyProps).
  left. reflexivity.
Defined.

(** ** Hunk handles and discard menus *)

Section HunkHandleTheorems.

Context {DiffSelection : Type} `{DiffSelectionOps DiffSelection}.
Context `{TemporarySelectionOps}.
Context {ITokens : Type}.

Variable findInteractiveDiffRange : list DiffHunk -> Z -> option (Z * Z).

(** X13.  Clicking the handle of a hunk whose interactive range runs from
    [from] up to [to] reports what releasing a drag from [from] to [to]
    with the same intent reports, on any props: the same single range
    update, or nothing under the same guards. *)
Theorem onClickHunk_as_drag (props : @ISideBySideDiffProps DiffSelection)
        (state : @ISideBySideDiffState ITokens)
        (hunkStartLine from to : Z) (select : bool) :
  findInteractiveDiffRange (hunks (diff props)) hunkStartLine
  = Some (from, to) ->
  from <= to ->
  onClickHunk findInteractiveDiffRange props hunkStartLine select
  = snd (onEndSelection props
           (setSelection state
              (Some {| ISelection.from := from; ISelection.to := to;
                       ISelection.isSelected := select |}))).
Proof.
  intros Erange Hordered. unfold onClickHunk, onEndSelection.
  rewrite Erange. cbn [selection setSelection ISelection.from ISelection.to
                       ISelection.isSelected].
  destruct (canSelect (file props)); simpl; [| reflexivity].
  destruct (onIncludeChanged props); [| reflexivity].
  destruct (file props); [| reflexivity].
  simpl. rewrite Z.min_l, Z.max_r by lia. reflexivity.
Qed.

End HunkHandleTheorems.

Lemma onClickHunk_as_drag_witness :
  onClickHunk sampleFindRange sampleProps 6 false
  = snd (onEndSelection sampleProps
           (setSelection hoveringState
              (Some {| ISelection.from := 6; ISelection.to := 7;
                       ISelection.isSelected := false |}))).
Proof.
  apply (onClickHunk_as_drag sampleFindRange sampleProps hoveringState
                             6 6 7 false).
  - reflexivity.
  - lia.
Defined.

Section DiscardTheorems.

Context {DiffSelection : Type} `{DiffSelectionLaws DiffSelection}.

Variable findInteractiveDiffRange : list DiffHunk -> Z -> option (Z * Z).

Lemma discard_selection_range (persisted : DiffSelection)
      (startLine endLine line : Z) :
  isSelected (withRangeSelection (withSelectNone persisted) startLine
                                 (endLine - startLine + 1) true) line
  = (startLine <=? line) && (line <=? endLine).
Proof.
  rewrite isSelected_withRangeSelection, isSelected_withSelectNone.
  unfold inRange.
  replace (line <? startLine + (endLine - startLine + 1))
    with (line <=? endLine).
  - destruct ((startLine <=? line) && (line <=? endLine)); reflexivity.
  - apply eq_iff_eq_true. rewrite Z.leb_le, Z.ltb_lt. lia.
Qed.

(** X14.  The contextual menu of a line is shown exactly when the file is
    selectable and a discard collaborator is registered.  It then holds the
    one entry "Discard line", and choosing it sends the collaborator
    registered at that time one request, with the diff shown at that time
    and a selection in which the line clicked is selected and no other
    line is. *)
Theorem onContextMenuLine_discards_the_line
        (props : @ISideBySideDiffProps DiffSelection) (lineNumber : Z) :
  (onContextMenuLine props lineNumber = None
   <-> canSelect (file props) = false \/ onDiscardChanges props = None)
  /\ (forall (id : string) (persisted : DiffSelection) (callback : Callback),
         file props = WorkingDirectoryFileChange id persisted ->
         onDiscardChanges props = Some callback ->
         exists item,
           onContextMenuLine props lineNumber = Some [item]
           /\ label item = "Discard line"%string
           /\ forall (current : @ISideBySideDiffProps DiffSelection)
                     (registered : Callback),
               onDiscardChanges current = Some registered ->
               exists requested,
                 action item current
                 = [CallOnDiscardChanges registered (diff current) requested]
                 /\ forall line,
                     isSelected requested line = (line =? lineNumber)).
Proof.
  split.
  - unfold onContextMenuLine.
    destruct (canSelect (file props)); simpl.
    + destruct (onDiscardChanges props); split; intros E;
        try discriminate E; auto.
      destruct E as [E | E]; discriminate E.
    + split; auto.
  - intros id persisted callback Efile Ecallback.
    unfold onContextMenuLine. rewrite Efile, Ecallback. simpl.
    eexists. split; [reflexivity |]. split; [reflexivity |].
    intros current registered Eregistered. cbn [action].
    unfold requestDiscardChanges. rewrite Eregistered.
    eexists. split; [reflexivity |]. intros line.
    rewrite discard_selection_range.
    apply eq_iff_eq_true.
    rewrite andb_true_iff, !Z.leb_le, Z.eqb_eq. lia.
Qed.

(** X15.  The contextual menu of a hunk handle is shown only when the file
    is selectable, a discard collaborator is registered and the handle has
    an interactive range.  It then holds the one entry "Discard lines", and
    choosing it requests the discard of a selection in which exactly the
    lines of that range, both ends included, are selected. *)
Theorem onContextMenuHunk_discards_the_range
        (props : @ISideBySideDiffProps DiffSelection) (hunkStartLine : Z) :
  (onContextMenuHunk findInteractiveDiffRange props hunkStartLine = None
   <-> canSelect (file props) = false \/ onDiscardChanges props = None
       \/ findInteractiveDiffRange (hunks (diff props)) hunkStartLine = None)
  /\ (forall (id : string) (persisted : DiffSelection) (callback : Callback)
            (from to : Z),
         file props = WorkingDirectoryFileChange id persisted ->
         onDiscardChanges props = Some callback ->
         findInteractiveDiffRange (hunks (diff props)) hunkStartLine
         = Some (from, to) ->
         exists item,
           onContextMenuHunk findInteractiveDiffRange props hunkStartLine
           = Some [item]
           /\ label item = "Discard lines"%string
           /\ forall (current : @ISideBySideDiffProps DiffSelection)
                     (registered : Callback),
               onDiscardChanges current = Some registered ->
               exists requested,
                 action item current
                 = [CallOnDiscardChanges registered (diff current) requested]
                 /\ forall line,
                     isSelected requested line
                     = (from <=? line) && (line <=? to)).
Proof.
  split.
  - unfold onContextMenuHunk.
    destruct (canSelect (file props)); simpl; [| split; auto].
    destruct (onDiscardChanges props); [| split; auto].
    destruct (findInteractiveDiffRange (hunks (diff props)) hunkStartLine)
      as [[from to] |]; split; intros E; try discriminate E; auto.
    destruct E as [E | [E | E]]; discriminate E.
  - intros id persisted callback from to Efile Ecallback Erange.
    unfold onContextMenuHunk. rewrite Efile, Ecallback, Erange. simpl.
    eexists. split; [reflexivity |]. split; [reflexivity |].
    intros current registered Eregistered. cbn [action].
    unfold requestDiscardChanges. rewrite Eregistered.
    eexists. split; [reflexivity |]. intros line.
    apply discard_selection_range.
Qed.

End DiscardTheorems.

Lemma onContextMenuLine_discards_the_line_witness :
  exists item requested,
    onContextMenuLine sampleProps 3 = Some [item]
    /\ label item = "Discard line"%string
    /\ action item otherProps
       = [CallOnDiscardChanges 2%nat (diff otherProps) requested]
    /\ isSelected requested 3 = true
    /\ isSelected requested 4 = false.
Proof.
  destruct (proj2 (onContextMenuLine_discards_the_line sampleProps 3)
                  "file-1"%string [2; 3] 2%nat eq_refl eq_refl)
    as [item [Emenu [Elabel Haction]]].
  destruct (Haction otherProps 2%nat eq_refl) as [requested [Eaction Hkeys]].
  exists item, requested.
  split; [exact Emenu |]. split; [exact Elabel |]. split; [exact Eaction |].
  split; rewrite Hkeys; reflexivity.
Defined.

Lemma onContextMenuHunk_discards_the_range_witness :
  exists item requested,
    onContextMenuHunk sampleFindRange sampleProps 6 = Some [item]
    /\ label item = "Discard lines"%string
    /\ action item otherProps
       = [CallOnDiscardChanges 2%nat (diff otherProps) requested]
    /\ isSelected requested 7 = true
    /\ isSelected requested 8 = false.
Proof.
  destruct (proj2 (onContextMenuHunk_discards_the_range
                     sampleFindRange sampleProps 6)
                  "file-1"%string [2; 3] 2%nat 6 7 eq_refl eq_refl eq_refl)
    as [item [Emenu [Elabel Haction]]].
  destruct (Haction otherProps 2%nat eq_refl) as [requested [Eaction Hkeys]].
  exists item, requested.
  split; [exact Emenu |]. split; [exact Elabel |]. split; [exact Eaction |].
  split; rewrite Hkeys; reflexivity.
Defined.

(** ** More on background tokenization *)

Section MoreTokenizationTheorems.

Context {DiffSelection : Type} `{DiffSelectionOps DiffSelection}.
Context {ITokens IFileContents : Type}.

Variable objects : PropsRef -> @ISideBySideDiffProps DiffSelection.

(** X16.  After an update the component starts a new tokenization pass
    exactly when the file identity or the diff text differs from those of
    the previous props; the pass started takes the current props as its
    snapshot.  An update that changes neither (a new selection, say)
    starts none. *)
Theorem componentDidUpdate_retokenizes_on_new_inputs
        (this : @Component ITokens) (prevProps : PropsRef) :
  (componentDidUpdate (IFileContents := IFileContents)
                      objects this prevProps = None
   <-> highlightInputs objects (thisProps this)
       = highlightInputs objects prevProps)
  /\ (forall task : @SyntaxModeTask IFileContents,
         componentDidUpdate objects this prevProps = Some task ->
         task = AwaitingFileContents (thisProps this)).
Proof.
  unfold componentDidUpdate, initDiffSyntaxMode.
  destruct (highlightParametersEqual objects (thisProps this) prevProps)
    eqn:E; simpl.
  - apply highlightParametersEqual_inputs in E. split.
    + split; auto.
    + intros task Etask. discriminate Etask.
  - split.
    + split; [intros Enone; discriminate Enone |].
      intros Einputs. apply highlightParametersEqual_inputs in Einputs.
      congruence.
    + intros task Etask. injection Etask as <-. reflexivity.
Qed.

(** X17.  [highlightParametersEqual] is an equivalence on props objects:
    every props object equals itself, the order of the two arguments does
    not matter, and equality carries over a chain of updates. *)
Theorem highlightParametersEqual_equivalence :
  (forall props, highlightParametersEqual objects props props = true)
  /\ (forall newProps prevProps,
         highlightParametersEqual objects newProps prevProps
         = highlightParametersEqual objects prevProps newProps)
  /\ (forall first second third,
         highlightParametersEqual objects first second = true ->
         highlightParametersEqual objects second third = true ->
         highlightParametersEqual objects first third = true).
Proof.
  split; [| split].
  - intros props. apply highlightParametersEqual_inputs. reflexivity.
  - intros newProps prevProps. apply eq_iff_eq_true.
    rewrite !highlightParametersEqual_inputs. split; intros E; symmetry;
      exact E.
  - intros first second third Efirst Esecond.
    apply highlightParametersEqual_inputs in Efirst, Esecond.
    apply highlightParametersEqual_inputs. congruence.
Qed.

(** A pass whose inputs are those of the component while it completes
    stores its tokens. *)
Lemma tokenizationPass_fresh (issued shown : @Component ITokens)
      (contents : IFileContents) (oldTokens newTokens : ITokens) :
  highlightInputs objects (thisProps shown)
  = highlightInputs objects (thisProps issued) ->
  tokenizationPass objects issued shown shown contents oldTokens newTokens
  = {| thisProps := thisProps shown;
       thisState := setTokens (thisState shown) oldTokens newTokens |}.
Proof.
  intros Einputs. apply highlightParametersEqual_inputs in Einputs.
  unfold tokenizationPass, initDiffSyntaxMode.
  cbn [afterGetFileContents]. rewrite Einputs.
  cbn [negb afterHighlightContents]. rewrite Einputs. reflexivity.
Qed.

(** A pass whose inputs differ from those of the component while it
    completes leaves the component as it is. *)
Lemma tokenizationPass_stale (issued shown : @Component ITokens)
      (contents : IFileContents) (oldTokens newTokens : ITokens) :
  highlightInputs objects (thisProps shown)
  <> highlightInputs objects (thisProps issued) ->
  tokenizationPass objects issued shown shown contents oldTokens newTokens
  = shown.
Proof.
  intros Hstale. apply highlightParametersEqual_stale in Hstale.
  unfold tokenizationPass, initDiffSyntaxMode.
  cbn [afterGetFileContents]. rewrite Hstale. reflexivity.
Qed.

(** X18.  A pass that was superseded cannot overwrite the tokens of the
    pass that superseded it.  When the component shows the props of the
    newer pass and these differ in file identity or diff text from the
    props the older pass was issued with, the component ends with the
    tokens of the newer pass whether the older pass completes after it or
    before it. *)
Theorem superseded_pass_cannot_overwrite
        (older newer shown : @Component ITokens)
        (olderContents newerContents : IFileContents)
        (olderOld olderNew newerOld newerNew : ITokens) :
  highlightInputs objects (thisProps older)
  <> highlightInputs objects (thisProps newer) ->
  thisProps shown = thisProps newer ->
  let afterNewer :=
    tokenizationPass objects newer shown shown
                     newerContents newerOld newerNew in
  let afterOlder :=
    tokenizationPass objects older shown shown
                     olderContents olderOld olderNew in
  tokenizationPass objects older afterNewer afterNewer
                   olderContents olderOld olderNew
  = afterNewer
  /\ tokenizationPass objects newer afterOlder afterOlder
                      newerContents newerOld newerNew
     = afterNewer
  /\ thisState afterNewer = setTokens (thisState shown) newerOld newerNew.
Proof.
  intros Hsuperseded Eshown afterNewer afterOlder.
  assert (EafterNewer :
            afterNewer
            = {| thisProps := thisProps shown;
                 thisState := setTokens (thisState shown)
                                        newerOld newerNew |}).
  { apply tokenizationPass_fresh. rewrite Eshown. reflexivity. }
  assert (EafterOlder : afterOlder = shown).
  { apply tokenizationPass_stale. rewrite Eshown. congruence. }
  split; [| split].
  - apply tokenizationPass_stale. rewrite EafterNewer. cbn [thisProps].
    rewrite Eshown. congruence.
  - rewrite EafterOlder. reflexivity.
  - rewrite EafterNewer. reflexivity.
Qed.

(** X19.  A tokenization pass never touches the drag in progress nor the
    hover indicator, and it leaves the props of the component alone:
    whatever it does to the tokens, the transient selection, the hovered
    hunk and the text-selection column are those of the component at the
    time the tokens arrive. *)
Theorem tokenizationPass_keeps_selection
        (issued atContents atTokens : @Component ITokens)
        (contents : IFileContents) (oldTokens newTokens : ITokens) :
  let after := tokenizationPass objects issued atContents atTokens
                                contents oldTokens newTokens in
  thisProps after = thisProps atTokens
  /\ selection (thisState after) = selection (thisState atTokens)
  /\ hoveredHunk (thisState after) = hoveredHunk (thisState atTokens)
  /\ selectingRow (thisState after) = selectingRow (thisState atTokens).
Proof.
  unfold tokenizationPass, initDiffSyntaxMode.
  cbn [afterGetFileContents].
  destruct (highlightParametersEqual objects (thisProps atContents)
                                     (thisProps issued));
    cbn [negb afterHighlightContents fst]; [| auto].
  destruct (highlightParametersEqual objects (thisProps atTokens)
                                     (thisProps issued));
    cbn [negb fst]; auto.
Qed.

End MoreTokenizationTheorems.

Lemma highlightParametersEqual_equivalence_witness :
  highlightParametersEqual sampleObjects 1%nat 3%nat = true.
Proof.
  apply (proj2 (proj2 (highlightParametersEqual_equivalence sampleObjects))
               1%nat 2%nat 3%nat);
    reflexivity.
Defined.

Lemma superseded_pass_cannot_overwrite_witness :
  tokenizationPass sampleObjects (componentShowing 0)
    (tokenizationPass sampleObjects (componentShowing 1) (componentShowing 1)
       (componentShowing 1) "c2"%string "o2"%string "n2"%string)
    (tokenizationPass sampleObjects (componentShowing 1) (componentShowing 1)
       (componentShowing 1) "c2"%string "o2"%string "n2"%string)
    "c1"%string "o1"%string "n1"%string
  = {| thisProps := 1%nat;
       thisState := setTokens draggingState "o2"%string "n2"%string |}.
Proof.
  apply (superseded_pass_cannot_overwrite sampleObjects
           (componentShowing 0) (componentShowing 1) (componentShowing 1)
           "c1"%string "c2"%string
           "o1"%string "n1"%string "o2"%string "n2"%string).
  - vm_compute. discriminate.
  - reflexivity.
Defined.

Lemma componentDidUpdate_retokenizes_on_new_inputs_witness :
  componentDidUpdate (IFileContents := string)
                     sampleObjects (componentShowing 2) 1%nat
  = None
  /\ componentDidUpdate (IFileContents := string)
                        sampleObjects (componentShowing 1) 0%nat
     = Some (AwaitingFileContents 1%nat).
Proof.
  split.
  - apply (componentDidUpdate_retokenizes_on_new_inputs
             sampleObjects (componentShowing 2) 1%nat).
    reflexivity.
  - rewrite (proj2 (componentDidUpdate_retokenizes_on_new_inputs
                      sampleObjects (componentShowing 1) 0%nat)
                   (AwaitingFileContents 1%nat) eq_refl).
    reflexivity.
Defined.

(** ** More on the clone dialog *)

Import CloneRepositoryHandlers.

Lemma checkPathValidCompleted_current (state : ICloneRepositoryState)
      (checked : string) (found : bool) :
  path state = checked ->
  checkPathValidCompleted state checked found
  = setError state (checkedError found).
Proof.
  intros <-. unfold checkPathValidCompleted. rewrite String.eqb_refl.
  destruct found; reflexivity.
Qed.

Lemma checkPathValidCompleted_outdated (state : ICloneRepositoryState)
      (checked : string) (found : bool) :
  path state <> checked ->
  checkPathValidCompleted state checked found = state.
Proof.
  intros Hchanged. unfold checkPathValidCompleted.
  apply String.eqb_neq in Hchanged. rewrite Hchanged. reflexivity.
Qed.

(** X20.  The check started by a path change applies to the state that
    change produced.  When the path is changed twice in a row, to two
    different paths, the two checks may complete in either order: the
    dialog ends in the same state, with the second path and the error the
    check of the second path calls for; the check of the first path leaves
    no trace. *)
Theorem path_checks_complete_in_any_order (state : ICloneRepositoryState)
        (first second : string) (foundFirst foundSecond : bool) :
  first <> second ->
  let typed :=
    fst (onPathChanged (fst (onPathChanged state first)) second) in
  checkPathValidCompleted
    (checkPathValidCompleted typed first foundFirst) second foundSecond
  = checkPathValidCompleted
      (checkPathValidCompleted typed second foundSecond) first foundFirst
  /\ checkPathValidCompleted
       (checkPathValidCompleted typed first foundFirst) second foundSecond
     = setError (setPath state second) (checkedError foundSecond)
  /\ checkPathValidCompleted (fst (onPathChanged state first))
                             (snd (onPathChanged state first)) foundFirst
     = setError (setPath state first) (checkedError foundFirst).
Proof.
  intros Hdifferent typed. subst typed. unfold onPathChanged. cbn [fst snd].
  rewrite (checkPathValidCompleted_outdated
             (setPath (setPath state first) second) first foundFirst)
    by (simpl; congruence).
  rewrite (checkPathValidCompleted_current
             (setPath (setPath state first) second) second foundSecond)
    by reflexivity.
  rewrite checkPathValidCompleted_outdated by (simpl; congruence).
  split; [reflexivity |]. split; [reflexivity |].
  apply checkPathValidCompleted_current. reflexivity.
Qed.

(** X21.  Choosing a directory in the file picker only replaces the path:
    no existence check is started for it and the error is kept, so a
    destination-exists error shown for the previous path stays and keeps
    the Clone button disabled.  Cancelling the picker changes nothing. *)
Theorem showFilePicker_keeps_error (state : ICloneRepositoryState) :
  showFilePicker state None = state
  /\ forall (chosen : string) (others : list string),
      let picked := showFilePicker state (Some (chosen, others)) in
      path picked = chosen
      /\ error picked = error state
      /\ url picked = url state
      /\ loading picked = loading state
      /\ lastParsedIdentifier picked = lastParsedIdentifier state
      /\ (forall current : Error.t,
             error state = Some current ->
             Error.name current = DestinationExistsErrorName ->
             disabled picked = true).
Proof.
  split; [reflexivity |]. intros chosen others picked. subst picked.
  cbn [showFilePicker]. repeat (split; [reflexivity |]).
  intros current Eerror Ename.
  apply (disabled_while_destination_exists _ current); assumption.
Qed.

Section CloneTheorems.

Context {Account : Type}.

Variable pathResolve : string -> string -> string.

(** X22.  While a clone is being resolved the Clone button is disabled.
    When resolving fails, nothing is dispatched and the dialog stays open;
    the error thrown is stored and the loading mark removed, and unless
    that error is named as the destination-exists error the button is
    enabled again exactly when neither the URL nor the path is empty. *)
Theorem clone_failure_reenables_form (state settling : ICloneRepositoryState)
        (startedPath : string) (thrown : Error.t) :
  disabled (fst (cloneStarted state)) = true
  /\ snd (cloneSettled (Account := Account) pathResolve settling startedPath
                       (Rejected thrown))
     = []
  /\ loading (fst (cloneSettled (Account := Account) pathResolve settling
                                startedPath (Rejected thrown)))
     = false
  /\ error (fst (cloneSettled (Account := Account) pathResolve settling
                              startedPath (Rejected thrown)))
     = Some thrown
  /\ (Error.name thrown <> DestinationExistsErrorName ->
      disabled (fst (cloneSettled (Account := Account) pathResolve settling
                                  startedPath (Rejected thrown)))
      = (String.length (url settling) =? 0)%nat
        || (String.length (path settling) =? 0)%nat).
Proof.
  split; [| split; [| split; [| split]]]; try reflexivity.
  - unfold cloneStarted, disabled. simpl. rewrite orb_true_r. reflexivity.
  - intros Hname. apply String.eqb_neq in Hname.
    unfold disabled. simpl. rewrite Hname, !orb_false_r. reflexivity.
Qed.

(** When resolving succeeds, the clone is dispatched once, with the URL
    resolved, the account found and the path read when the clone was
    started; the dialog is dismissed after the dispatch and its state is
    not changed. *)
Lemma clone_success_uses_started_path
        (state settling : ICloneRepositoryState)
        (cloneUrl : string) (account : option Account) :
  cloneSettled pathResolve settling (snd (cloneStarted state))
               (Resolved (cloneUrl, account))
  = (settling,
     [DispatchClone cloneUrl (path state) account; Dismiss;
      SetDefaultDir (pathResolve (path state) "..")]).
Proof. reflexivity. Qed.


End CloneTheorems.

Section URLTheorems.

Variable parseOwnerAndName : string -> option IRepositoryIdentifier.t.
Variable pathJoin : string -> string -> string.
Variable pathDirname : string -> string.


End URLTheorems.

Lemma path_checks_complete_in_any_order_witness :
  checkPathValidCompleted
    (checkPathValidCompleted
       (fst (onPathChanged (fst (onPathChanged sampleCloneState "/tmp/a"))
                           "/tmp/b"))
       "/tmp/a" true)
    "/tmp/b" false
  = checkPathValidCompleted
      (checkPathValidCompleted
         (fst (onPathChanged (fst (onPathChanged sampleCloneState "/tmp/a"))
                             "/tmp/b"))
         "/tmp/b" false)
      "/tmp/a" true.
Proof.
  apply (path_checks_complete_in_any_order
           sampleCloneState "/tmp/a" "/tmp/b" true false).
  vm_compute. discriminate.
Defined.

Lemma showFilePicker_keeps_error_witness :
  disabled (showFilePicker collidingCloneState
                           (Some ("/tmp/fresh"%string, [])))
  = true.
Proof.
  destruct (proj2 (showFilePicker_keeps_error collidingCloneState)
                  "/tmp/fresh"%string [])
    as [_ [_ [_ [_ [_ Hdisabled]]]]].
  apply (Hdisabled {| Error.name := "DestinationExistsError";
                      Error.message := "The destination already exists." |});
    reflexivity.
Defined.

Lemma clone_failure_reenables_form_witness :
  disabled (fst (cloneSettled (Account := nat) samplePathJoin
                              sampleCloneState "/home/hubot/cool-repo"
                              (Rejected (newError "Not found"))))
  = false.
Proof.
  rewrite (proj2 (proj2 (proj2 (proj2
             (clone_failure_reenables_form
                (Account := nat) samplePathJoin
                sampleCloneState sampleCloneState "/home/hubot/cool-repo"
                (newError "Not found")))))).
  - reflexivity.
  - vm_compute. discriminate.
Defined.



(** ** The builder fails exactly on malformed input *)

Lemma flat_map_short {A B : Type} (f : A -> list B) (xs : list A) :
  (forall x, length (f x) <= 1)%nat ->
  (length (flat_map f xs) <= length xs)%nat.
Proof.
  intros Hshort. induction xs as [| x xs IH]; simpl; [lia |].
  rewrite length_app. specialize (Hshort x). lia.
Qed.

Lemma flat_map_full {A B : Type} (f : A -> list B) (xs : list A) :
  (forall x, length (f x) <= 1)%nat ->
  length (flat_map f xs) = length xs ->
  Forall (fun x => f x <> []) xs.
Proof.
  intros Hshort. induction xs as [| x xs IH]; simpl; intros Elength;
    [constructor |].
  rewrite length_app in Elength.
  pose proof (Hshort x) as Hx.
  pose proof (flat_map_short f xs Hshort) as Hxs.
  constructor.
  - intros Eempty. rewrite Eempty in Elength. simpl in Elength. lia.
  - apply IH. lia.
Qed.

Section FailureTheorems.

Context {DiffSelection : Type} `{DiffSelectionOps DiffSelection}.
Context `{TemporarySelectionOps}.

Variable file : @ChangedFile DiffSelection.
Variable temporarySelection : option ISelection.t.

Lemma shownData_short (lineNumber : DiffLine.t -> option Z)
      (entry : DiffLine.t * Z) :
  (length (shownData lineNumber file temporarySelection entry) <= 1)%nat.
Proof. unfold shownData. destruct (lineNumber (fst entry)); simpl; lia. Qed.

Lemma shownData_numbered (lineNumber : DiffLine.t -> option Z)
      (entry : DiffLine.t * Z) :
  shownData lineNumber file temporarySelection entry <> [] ->
  isSome (lineNumber (fst entry)) = true.
Proof.
  unfold shownData. destruct (lineNumber (fst entry)); [reflexivity |].
  intros Hne. contradiction Hne. reflexivity.
Qed.

(** A run that is turned into rows has only well-formed lines. *)
Lemma getModifiedRows_well_formed (run : list (DiffLine.t * Z))
      (rows : list DiffRow) :
  forallb (fun entry => isChangeLine (fst entry)) run = true ->
  getModifiedRows run file temporarySelection = Ok rows ->
  forallb wellFormedEntry run = true.
Proof.
  intros Hrun E. apply getModifiedRows_as_pairRows in E.
  destruct E as [_ [Ed Ea]]. unfold deleteCount in Ed. unfold addCount in Ea.
  apply flat_map_full in Ed; [| intros entry; apply shownData_short].
  apply flat_map_full in Ea; [| intros entry; apply shownData_short].
  apply forallb_forall. intros entry Hin.
  pose proof (proj1 (forallb_forall _ _) Hrun entry Hin) as Hchange.
  unfold wellFormedEntry, wellFormedLine. unfold isChangeLine in Hchange.
  destruct (DiffLine.type (fst entry)) eqn:Etype; try discriminate Hchange.
  - apply (shownData_numbered DiffLine.newLineNumber).
    apply (proj1 (Forall_forall _ _) Ea). apply filter_In.
    split; [exact Hin |]. unfold isAdd. rewrite Etype. reflexivity.
  - apply (shownData_numbered DiffLine.oldLineNumber).
    apply (proj1 (Forall_forall _ _) Ed). apply filter_In.
    split; [exact Hin |]. unfold isDelete. rewrite Etype. reflexivity.
Qed.

Lemma flushModifiedLines_well_formed (rows : list DiffRow)
      (pending : list (DiffLine.t * Z)) (flushed : list DiffRow) :
  forallb (fun entry => isChangeLine (fst entry)) pending = true ->
  flushModifiedLines rows pending file temporarySelection = Ok flushed ->
  forallb wellFormedEntry pending = true.
Proof.
  intros Hp. unfold flushModifiedLines. destruct pending as [| first pending'].
  - reflexivity.
  - cbn [length Nat.ltb Nat.leb]. intros E. invert_binds.
    eapply getModifiedRows_well_formed; eassumption.
Qed.

Lemma hunkRowsLoop_well_formed (start : Z) :
  forall (rest : list DiffLine.t) (num : Z) (rows : list DiffRow)
         (pending : list (DiffLine.t * Z)) (result : list DiffRow),
    forallb (fun entry => isChangeLine (fst entry)) pending = true ->
    hunkRowsLoop start file temporarySelection num rest rows pending
    = Ok result ->
    forallb wellFormedEntry pending = true
    /\ forallb wellFormedLine rest = true.
Proof.
  induction rest as [| line rest IH]; intros num rows pending result Hp E.
  - simpl in E. split; [| reflexivity].
    eapply flushModifiedLines_well_formed; eassumption.
  - cbn [hunkRowsLoop] in E. cbn [forallb]. unfold wellFormedLine at 1.
    assert (Hsnoc : isChangeLine line = true ->
                    forall number,
                      forallb (fun entry => isChangeLine (fst entry))
                              (pending ++ [(line, number)]) = true).
    { intros Hline number. rewrite forallb_app, Hp. simpl.
      rewrite Hline. reflexivity. }
    unfold isChangeLine in Hsnoc.
    destruct (DiffLine.type line) eqn:Etype.
    + invert_binds.
      destruct (DiffLine.oldLineNumber line), (DiffLine.newLineNumber line);
        try discriminate E.
      apply IH in E; [| reflexivity]. destruct E as [_ Hrest].
      split; [| exact Hrest].
      eapply flushModifiedLines_well_formed; eassumption.
    + apply IH in E; [| apply Hsnoc; reflexivity].
      destruct E as [Hall Hrest]. rewrite forallb_app in Hall.
      apply andb_true_iff in Hall. destruct Hall as [Hpending Hline].
      simpl in Hline. unfold wellFormedEntry, wellFormedLine in Hline.
      simpl in Hline. rewrite Etype, andb_true_r in Hline.
      split; [exact Hpending |]. rewrite Hline. exact Hrest.
    + apply IH in E; [| apply Hsnoc; reflexivity].
      destruct E as [Hall Hrest]. rewrite forallb_app in Hall.
      apply andb_true_iff in Hall. destruct Hall as [Hpending Hline].
      simpl in Hline. unfold wellFormedEntry, wellFormedLine in Hline.
      simpl in Hline. rewrite Etype, andb_true_r in Hline.
      split; [exact Hpending |]. rewrite Hline. exact Hrest.
    + invert_binds.
      apply IH in E; [| reflexivity]. destruct E as [_ Hrest].
      split; [| exact Hrest].
      eapply flushModifiedLines_well_formed; eassumption.
    + invert_binds. discriminate E.
Qed.

Lemma getDiffRowsLoop_well_formed :
  forall (remainingHunks : list DiffHunk) (rows result : list DiffRow),
    getDiffRowsLoop remainingHunks file temporarySelection rows = Ok result ->
    forallb (fun hunk => forallb wellFormedLine (lines hunk)) remainingHunks
    = true.
Proof.
  induction remainingHunks as [| hunk remainingHunks IH];
    intros rows result E; [reflexivity |].
  cbn [getDiffRowsLoop] in E. invert_binds. cbn [forallb].
  apply IH in E. rewrite E, andb_true_r.
  unfold getDiffRowsFromHunk in Estep.
  apply hunkRowsLoop_well_formed in Estep; [| reflexivity].
  apply Estep.
Qed.

(** X25.  The builder turns a diff into rows exactly when every line of
    every hunk is well formed: a Context line with both numbers, an Add
    line with its new number, a Delete line with its old number, or a hunk
    header.  On any other diff it fails, whatever the file and the
    selection. *)
Theorem getDiffRows_succeeds_iff_well_formed (diff : ITextDiff) :
  (exists rows, getDiffRows diff file temporarySelection = Ok rows)
  <-> forallb (fun hunk => forallb wellFormedLine (lines hunk)) (hunks diff)
      = true.
Proof.
  split.
  - intros [rows E]. unfold getDiffRows in E.
    eapply getDiffRowsLoop_well_formed, E.
  - apply getDiffRows_total.
Qed.

End FailureTheorems.

Lemma getDiffRows_succeeds_iff_well_formed_witness :
  (exists rows, getDiffRows sampleDiff sampleFile None = Ok rows)
  /\ forallb (fun hunk => forallb wellFormedLine (lines hunk))
             (hunks sampleDiff)
     = true.
Proof.
  split.
  - apply (getDiffRows_succeeds_iff_well_formed sampleFile None sampleDiff).
    reflexivity.
  - apply (getDiffRows_succeeds_iff_well_formed sampleFile None sampleDiff).
    exists sampleRows. vm_compute. reflexivity.
Defined.
